(** * ERCOT energy price predictor: acquisition, join and derived metrics

    A shallow embedding of the data path of [_script/eepp_phase_1.py] and
    [_script/eepp_phase_2.py]: hour-ending normalisation, the pandas joins
    and derived columns of Phase 1, the paginated API client, the archive
    fetcher and the DART spread of Phase 2, followed by the properties the
    specification states about them.

    Numbers are exact: an integer is a [Z], a float is a rational ([Q])
    and NaN is a separate cell.  Values are pinned below only where int64
    and float64 arithmetic is exact as well: whole numbers of moderate
    size.  Behaviour of pandas and of [zipfile] that lies outside the
    modelled fragment is reported as [Unmodelled] and no property below
    counts it as a failure of the scripts. *)

From Stdlib Require Import ZArith QArith List String Ascii Bool Lia DecimalString.
Import ListNotations.

Local Open Scope string_scope.
Local Open Scope Z_scope.

(** ** Exceptions and results *)

Inductive exn : Type :=
| KeyError (key : string)
| IndexError
| ValueError
| TypeError
| AttributeError
| MergeError
| HTTPError
| BadZipFile
| TimeoutException
| RuntimeError
| FileNotFoundError
| FileExistsError
| NotADirectoryError
| IsADirectoryError
| EmptyDataError
| Unmodelled.

Inductive result (A : Type) : Type :=
| Ok (a : A)
| Raise (e : exn).

Arguments Ok {A} a.
Arguments Raise {A} e.

Definition bind {A B : Type} (r : result A) (k : A -> result B) : result B :=
  match r with
  | Ok a => k a
  | Raise e => Raise e
  end.

Declare Scope result_scope.
Delimit Scope result_scope with result.
Notation "x <- r ;; k" := (bind r (fun x => k))
  (at level 100, r at next level, right associativity) : result_scope.
Local Open Scope result_scope.

Fixpoint mapM {A B : Type} (f : A -> result B) (l : list A) : result (list B) :=
  match l with
  | [] => Ok []
  | a :: l' => b <- f a ;; bs <- mapM f l' ;; Ok (b :: bs)
  end.

Definition is_ok {A : Type} (r : result A) : bool :=
  match r with Ok _ => true | Raise _ => false end.

(** ** Python text: [str(int)], [int(str)], [str.split(sep)[0]] *)

Definition str_of_int (z : Z) : string := NilZero.string_of_int (Z.to_int z).

Definition digit_of_ascii (c : ascii) : option Z :=
  let n := Z.of_N (N_of_ascii c) in
  if (48 <=? n) && (n <=? 57) then Some (n - 48) else None.

Definition digit_char (d : Z) : ascii := ascii_of_N (Z.to_N (48 + d)).

Fixpoint digits_value (acc : Z) (s : string) : option Z :=
  match s with
  | EmptyString => Some acc
  | String c r =>
      match digit_of_ascii c with
      | Some d => digits_value (10 * acc + d) r
      | None => None
      end
  end.

Definition is_space (c : ascii) : bool :=
  let n := N_of_ascii c in
  (n =? 32)%N || ((9 <=? n)%N && (n <=? 13)%N).

Fixpoint lstrip (s : string) : string :=
  match s with
  | EmptyString => EmptyString
  | String c r => if is_space c then lstrip r else s
  end.

Fixpoint rstrip (s : string) : string :=
  match s with
  | EmptyString => EmptyString
  | String c r =>
      match rstrip r with
      | EmptyString => if is_space c then EmptyString else String c EmptyString
      | r' => String c r'
      end
  end.

Definition unsigned_of_str (s : string) : result Z :=
  match s with
  | EmptyString => Raise ValueError
  | _ => match digits_value 0 s with Some z => Ok z | None => Raise ValueError end
  end.

(** [int(s)] on text: surrounding white space, an optional sign, decimal
    digits.  (Digit-group underscores, which [int] also takes, are left
    out: such text raises [ValueError] here.) *)
Definition int_of_str (s : string) : result Z :=
  match rstrip (lstrip s) with
  | String c r =>
      if Ascii.eqb c "-" then z <- unsigned_of_str r ;; Ok (- z)
      else if Ascii.eqb c "+" then unsigned_of_str r
      else unsigned_of_str (String c r)
  | EmptyString => Raise ValueError
  end.

(** [s.split(sep)[0]]: the text before the first separator, all of [s]
    when there is none. *)
Fixpoint split_head (sep : ascii) (s : string) : string :=
  match s with
  | EmptyString => EmptyString
  | String c r => if Ascii.eqb c sep then EmptyString else String c (split_head sep r)
  end.

Fixpoint has_char (sep : ascii) (s : string) : bool :=
  match s with
  | EmptyString => false
  | String c r => Ascii.eqb c sep || has_char sep r
  end.

(** ** Calendar dates and timestamps *)

Record date : Type := Date { year : Z; month : Z; day : Z }.

Record timestamp : Type := Timestamp { ts_date : date; ts_hour : Z; ts_minute : Z }.

Definition is_leap (y : Z) : bool :=
  ((y mod 4 =? 0) && negb (y mod 100 =? 0)) || (y mod 400 =? 0).

Definition days_in_month (y m : Z) : Z :=
  if m =? 2 then (if is_leap y then 29 else 28)
  else if (m =? 4) || (m =? 6) || (m =? 9) || (m =? 11) then 30
  else 31.

(** The whole years inside the range of a nanosecond [datetime64]. *)
Definition valid_date (d : date) : bool :=
  (1678 <=? year d) && (year d <=? 2261) &&
  (1 <=? month d) && (month d <=? 12) &&
  (1 <=? day d) && (day d <=? days_in_month (year d) (month d)).

Definition pad2 (n : Z) : string :=
  String (digit_char (n / 10)) (String (digit_char (n mod 10)) EmptyString).

Definition pad4 (n : Z) : string :=
  String (digit_char (n / 1000)) (String (digit_char (n / 100 mod 10))
    (String (digit_char (n / 10 mod 10)) (String (digit_char (n mod 10)) EmptyString))).

(** The text pandas prints for a [datetime64] value: the date alone in a
    column whose times are all midnight, date and time otherwise. *)
Definition isoformat_date (d : date) : string :=
  pad4 (year d) ++ "-" ++ pad2 (month d) ++ "-" ++ pad2 (day d).

Definition isoformat_timestamp (t : timestamp) : string :=
  isoformat_date (ts_date t) ++ " " ++ pad2 (ts_hour t) ++ ":" ++ pad2 (ts_minute t) ++ ":00".

Definition digits2 (a b : ascii) : option Z :=
  match digit_of_ascii a, digit_of_ascii b with
  | Some x, Some y => Some (10 * x + y)
  | _, _ => None
  end.

Definition digits4 (a b c d : ascii) : option Z :=
  match digits2 a b, digits2 c d with
  | Some x, Some y => Some (100 * x + y)
  | _, _ => None
  end.

Definition checked_date (y m d : option Z) (rest : string) : option (date * string) :=
  match y, m, d with
  | Some y', Some m', Some d' =>
      let D := Date y' m' d' in
      if valid_date D then Some (D, rest) else None
  | _, _, _ => None
  end.

(** [YYYY-MM-DD], followed by anything. *)
Definition parse_iso_date (s : string) : option (date * string) :=
  match s with
  | String a (String b (String c (String d (String s1
      (String e (String f (String s2 (String g (String h rest))))))))) =>
      if Ascii.eqb s1 "-" && Ascii.eqb s2 "-"
      then checked_date (digits4 a b c d) (digits2 e f) (digits2 g h) rest
      else None
  | _ => None
  end.

(** [MM/DD/YYYY], the date format of the portal's CSV reports. *)
Definition parse_us_date (s : string) : option (date * string) :=
  match s with
  | String e (String f (String s1 (String g (String h (String s2
      (String a (String b (String c (String d rest))))))))) =>
      if Ascii.eqb s1 "/" && Ascii.eqb s2 "/"
      then checked_date (digits4 a b c d) (digits2 e f) (digits2 g h) rest
      else None
  | _ => None
  end.

Definition checked_clock (h m : option Z) : option (Z * Z) :=
  match h, m with
  | Some h', Some m' => if (h' <? 24) && (m' <? 60) then Some (h', m') else None
  | _, _ => None
  end.

(** [H:MM] or [HH:MM]. *)
Definition parse_clock (s : string) : option (Z * Z) :=
  match s with
  | String a (String c1 (String m1 (String m2 EmptyString))) =>
      if Ascii.eqb c1 ":" then checked_clock (digit_of_ascii a) (digits2 m1 m2) else None
  | String a (String b (String c1 (String m1 (String m2 EmptyString)))) =>
      if Ascii.eqb c1 ":" then checked_clock (digits2 a b) (digits2 m1 m2) else None
  | _ => None
  end.

Definition midnight (d : date) : timestamp := Timestamp d 0 0.

(** [pd.to_datetime] on one text value, for the date and date-time
    formats the reports and the scripts produce. *)
Definition to_datetime_str (s : string) : result timestamp :=
  match parse_iso_date s with
  | Some (d, EmptyString) => Ok (midnight d)
  | Some (d, String sp t) =>
      if Ascii.eqb sp " "
      then match parse_clock t with
           | Some (h, m) => Ok (Timestamp d h m)
           | None => Raise ValueError
           end
      else Raise ValueError
  | None =>
      match parse_us_date s with
      | Some (d, EmptyString) => Ok (midnight d)
      | _ => Raise ValueError
      end
  end.

(** ** Cells and columns *)

(** What [read_csv] and [read_excel] put in a cell: an integer, a float,
    NaN for a blank, text; timestamps are made by [to_datetime]. *)
Inductive number : Type :=
| Int (z : Z)
| Float (q : Q)
| NaN.

Inductive cell : Type :=
| CNum (n : number)
| CStr (s : string)
| CTime (t : timestamp).

Abbreviation CInt z := (CNum (Int z)).
Abbreviation CFloat q := (CNum (Float q)).
Abbreviation CNaN := (CNum NaN).

Definition Series : Type := list cell.

Definition is_time (c : cell) : bool :=
  match c with CTime _ => true | _ => false end.

Definition at_midnight (c : cell) : bool :=
  match c with
  | CTime t => (ts_hour t =? 0) && (ts_minute t =? 0)
  | _ => false
  end.

(** [str(x)] of one cell; [date_only] says that the cell sits in a
    [datetime64] column whose times are all midnight.  The text of a
    float is not modelled. *)
Definition str_cell (date_only : bool) (c : cell) : result string :=
  match c with
  | CInt z => Ok (str_of_int z)
  | CFloat _ => Raise Unmodelled
  | CNaN => Ok "nan"
  | CStr s => Ok s
  | CTime t => Ok (if date_only then isoformat_date (ts_date t) else isoformat_timestamp t)
  end.

(** [Series.astype(str)] *)
Definition astype_str (col : Series) : result (list string) :=
  mapM (str_cell (forallb is_time col && forallb at_midnight col)) col.

(** [Series.str.split(sep).str[0]] *)
Definition str_split_get0 (sep : ascii) (col : list string) : list string :=
  map (split_head sep) col.

(** [Series.astype(int)] on text *)
Definition astype_int (col : list string) : result Series :=
  mapM (fun s => z <- int_of_str s ;; Ok (CInt z)) col.

(** [pd.to_datetime(Series)]: text is parsed, timestamps are kept.
    Numbers (nanoseconds since the epoch in pandas) and blanks (NaT) are
    outside the model. *)
Definition to_datetime_cell (c : cell) : result cell :=
  match c with
  | CStr s => t <- to_datetime_str s ;; Ok (CTime t)
  | CTime t => Ok (CTime t)
  | CNum _ => Raise Unmodelled
  end.

Definition to_datetime (col : Series) : result Series := mapM to_datetime_cell col.

(** [Series - k] for an integer [k]. *)
Definition sub_scalar_cell (k : Z) (c : cell) : result cell :=
  match c with
  | CInt z => Ok (CInt (z - k))
  | CFloat q => Ok (CFloat (q - inject_Z k))
  | CNaN => Ok CNaN
  | CStr _ => Raise TypeError
  | CTime _ => Raise TypeError
  end.

Definition series_sub_scalar (col : Series) (k : Z) : result Series :=
  mapM (sub_scalar_cell k) col.

(** [Series + " "] and [Series + Series] on text columns of one frame. *)
Definition str_add_scalar (col : list string) (s : string) : list string :=
  map (fun x => x ++ s) col.

Fixpoint str_add (a b : list string) : list string :=
  match a, b with
  | x :: a', y :: b' => (x ++ y) :: str_add a' b'
  | _, _ => []
  end.

(** ** Time normalisation

    [df.HourEnding.astype(str).str.split(":").str[0].astype(int)]
    (phase 1 line 162, phase 2 line 204). *)
Definition hour_ending_int (col : Series) : result Series :=
  txt <- astype_str col ;;
  astype_int (str_split_get0 ":" txt).

(** [pd.to_datetime(date.astype(str) + " " + (hour - 1).astype(str) + ":00")]
    (phase 1 line 182, phase 2 lines 205 and 208-209). *)
Definition canonical_datetime (dates hours : Series) : result Series :=
  d <- astype_str dates ;;
  h1 <- series_sub_scalar hours 1 ;;
  h <- astype_str h1 ;;
  to_datetime (map CStr (str_add_scalar (str_add (str_add_scalar d " ") h) ":00")).
(** ** Data frames

    A frame is its columns in order, each a label and a column of cells;
    the columns of one frame have the same length. *)

Definition DataFrame : Type := list (string * Series).

Definition columns (df : DataFrame) : list string := map fst df.

Definition nrows (df : DataFrame) : nat :=
  match df with
  | [] => O
  | (_, c) :: _ => List.length c
  end.

(** [df.empty] *)
Definition empty (df : DataFrame) : bool := Nat.eqb (nrows df) 0.

(** [df[name]] *)
Fixpoint get_col (df : DataFrame) (name : string) : result Series :=
  match df with
  | [] => Raise (KeyError name)
  | (n, c) :: df' => if String.eqb n name then Ok c else get_col df' name
  end.

(** [df.name] *)
Definition get_attr (df : DataFrame) (name : string) : result Series :=
  match get_col df name with
  | Ok c => Ok c
  | Raise _ => Raise AttributeError
  end.

(** [df[name] = column]: replaces the column in place, or appends it. *)
Fixpoint set_col (df : DataFrame) (name : string) (col : Series) : DataFrame :=
  match df with
  | [] => [(name, col)]
  | (n, c) :: df' =>
      if String.eqb n name then (n, col) :: df' else (n, c) :: set_col df' name col
  end.

(** [df[name] = scalar] *)
Definition set_scalar (df : DataFrame) (name : string) (v : cell) : DataFrame :=
  set_col df name (repeat v (nrows df)).

(** [df.iloc[row, col]] *)
Definition iloc (df : DataFrame) (row col : nat) : result cell :=
  match nth_error df col with
  | Some (_, c) =>
      match nth_error c row with
      | Some v => Ok v
      | None => Raise IndexError
      end
  | None => Raise IndexError
  end.

(** [df.rename(columns=mapping)]: labels absent from the frame are ignored. *)
Fixpoint lookup_label (mapping : list (string * string)) (n : string) : string :=
  match mapping with
  | [] => n
  | (k, v) :: m => if String.eqb k n then v else lookup_label m n
  end.

Definition rename (df : DataFrame) (mapping : list (string * string)) : DataFrame :=
  map (fun '(n, c) => (lookup_label mapping n, c)) df.

(** ** Arithmetic on cells *)

Definition num_add (a b : number) : number :=
  match a, b with
  | Int x, Int y => Int (x + y)
  | Int x, Float y => Float (inject_Z x + y)
  | Float x, Int y => Float (x + inject_Z y)
  | Float x, Float y => Float (x + y)
  | _, _ => NaN
  end.

Definition num_sub (a b : number) : number :=
  match a, b with
  | Int x, Int y => Int (x - y)
  | Int x, Float y => Float (inject_Z x - y)
  | Float x, Int y => Float (x - inject_Z y)
  | Float x, Float y => Float (x - y)
  | _, _ => NaN
  end.

(** [a + b]: numbers add, text concatenates, anything else is a
    [TypeError]. *)
Definition cell_add (a b : cell) : result cell :=
  match a, b with
  | CNum x, CNum y => Ok (CNum (num_add x y))
  | CStr x, CStr y => Ok (CStr (x ++ y))
  | _, _ => Raise TypeError
  end.

(** [a - b]: numbers subtract; text and a timestamp against a number
    are a [TypeError]; the difference of two timestamps (a Timedelta)
    is not modelled. *)
Definition cell_sub (a b : cell) : result cell :=
  match a, b with
  | CNum x, CNum y => Ok (CNum (num_sub x y))
  | CTime _, CTime _ => Raise Unmodelled
  | _, _ => Raise TypeError
  end.

Fixpoint zip_with {A : Type} (f : cell -> cell -> result A) (a b : Series) : result (list A) :=
  match a, b with
  | x :: a', y :: b' => v <- f x y ;; vs <- zip_with f a' b' ;; Ok (v :: vs)
  | _, _ => Ok []
  end.

(** [a.values - b.values]: the difference of two arrays, element by
    element, as [plot_dart] takes it. *)
Definition series_sub (a b : Series) : result Series := zip_with cell_sub a b.

(** [a + b] and [a - b] on two columns of one frame.  When the
    element-wise operation raises a [TypeError] and a column holds
    objects (text), pandas computes it again on the rows in which both
    cells are present and leaves the other rows blank; an error in one of
    those rows is raised.  Row by row, text against a blank is therefore
    blank, and text against a number is a [TypeError]. *)
Definition masked (op : cell -> cell -> result cell) (a b : cell) : result cell :=
  match a, b with
  | CStr _, CNaN | CNaN, CStr _ => Ok CNaN
  | _, _ => op a b
  end.

Definition column_add (a b : Series) : result Series := zip_with (masked cell_add) a b.
Definition column_sub (a b : Series) : result Series := zip_with (masked cell_sub) a b.

(** ** Joins: [left.merge(right, left_on=..., right_on=...)], inner *)

Definition num_eqb (a b : number) : bool :=
  match a, b with
  | Int x, Int y => x =? y
  | Int x, Float y => Qeq_bool (inject_Z x) y
  | Float x, Int y => Qeq_bool x (inject_Z y)
  | Float x, Float y => Qeq_bool x y
  | NaN, NaN => true
  | _, _ => false
  end.

Definition date_eqb (a b : date) : bool :=
  (year a =? year b) && (month a =? month b) && (day a =? day b).

Definition ts_eqb (a b : timestamp) : bool :=
  date_eqb (ts_date a) (ts_date b) && (ts_hour a =? ts_hour b) && (ts_minute a =? ts_minute b).

(** Equality of join keys; missing keys match each other, as in pandas. *)
Definition cell_eqb (a b : cell) : bool :=
  match a, b with
  | CNum x, CNum y => num_eqb x y
  | CStr x, CStr y => String.eqb x y
  | CTime x, CTime y => ts_eqb x y
  | _, _ => false
  end.

Inductive kind : Type := KNumber | KTime | KObject.

Definition is_num (c : cell) : bool := match c with CNum _ => true | _ => false end.

Definition kind_of (col : Series) : kind :=
  if forallb is_num col then KNumber
  else if forallb is_time col then KTime
  else KObject.

Definition kind_eqb (a b : kind) : bool :=
  match a, b with
  | KNumber, KNumber | KTime, KTime | KObject, KObject => true
  | _, _ => false
  end.

(** pandas refuses to join a number column with a text column, or a
    date column with anything else; the check is skipped when a side has
    no rows. *)
Definition compatible_keys (l r : Series) : bool :=
  match l, r with
  | [], _ | _, [] => true
  | _, _ => kind_eqb (kind_of l) (kind_of r)
  end.

Fixpoint check_key_kinds (lkeys rkeys : list Series) : result unit :=
  match lkeys, rkeys with
  | l :: lk, r :: rk =>
      if compatible_keys l r then check_key_kinds lk rk else Raise ValueError
  | [], [] => Ok tt
  | _, _ => Raise ValueError
  end.

Definition cell_at (col : Series) (i : nat) : cell := nth i col CNaN.

Definition key_at (keys : list Series) (i : nat) : list cell :=
  map (fun c => cell_at c i) keys.

Fixpoint keys_eqb (a b : list cell) : bool :=
  match a, b with
  | x :: a', y :: b' => cell_eqb x y && keys_eqb a' b'
  | [], [] => true
  | _, _ => false
  end.

Definition key_rows (keys : list Series) : nat :=
  match keys with
  | [] => O
  | k :: _ => List.length k
  end.

(** The matching row pairs of an inner join, in the order of the left
    rows and, for one left row, of the right rows. *)
Definition inner_pairs (lkeys rkeys : list Series) : list (nat * nat) :=
  flat_map
    (fun i =>
       map (fun j => (i, j))
           (filter (fun j => keys_eqb (key_at lkeys i) (key_at rkeys j))
                   (seq 0 (key_rows rkeys))))
    (seq 0 (key_rows lkeys)).

Definition take (idx : list nat) (col : Series) : Series :=
  map (cell_at col) idx.

Definition mem (n : string) (l : list string) : bool := existsb (String.eqb n) l.

(** The right key columns that carry the same label as the left key
    they are matched with: they are kept once, from the left. *)
Fixpoint shared_keys (left_on right_on : list string) : list string :=
  match left_on, right_on with
  | l :: lo, r :: ro =>
      if String.eqb l r then r :: shared_keys lo ro else shared_keys lo ro
  | _, _ => []
  end.

Definition drop_cols (df : DataFrame) (names : list string) : DataFrame :=
  filter (fun '(n, _) => negb (mem n names)) df.

Definition overlap (left right : DataFrame) : list string :=
  filter (fun n => mem n (columns right)) (columns left).

Definition with_suffix (shared : list string) (suffix : string) (n : string) : string :=
  if mem n shared then n ++ suffix else n.

(** [Index.duplicated()]: a label that occurred before. *)
Fixpoint duplicated_from (seen labels : list string) : list bool :=
  match labels with
  | [] => []
  | n :: l => mem n seen :: duplicated_from (n :: seen) l
  end.

Definition duplicated (labels : list string) : list bool := duplicated_from [] labels.

(** A duplicate among the suffixed labels that was not one before. *)
Definition suffix_duplicates (old new : list string) : bool :=
  existsb (fun '(d_new, d_old) => d_new && negb d_old)
          (combine (duplicated new) (duplicated old)).

(** The right frame of a join, without the key columns it shares by
    label with the left. *)
Definition right_part (right : DataFrame) (left_on right_on : list string) : DataFrame :=
  drop_cols right (shared_keys left_on right_on).

Definition merged_labels (left right : DataFrame) (left_on right_on : list string)
  : list string :=
  let right' := right_part right left_on right_on in
  let shared := overlap left right' in
  (map (with_suffix shared "_x") (columns left) ++
   map (with_suffix shared "_y") (columns right'))%list.

(** The frame of a join for the matching row pairs: the columns of the
    left table, then those of the right, a label the two share taking the
    suffix [_x] on the left and [_y] on the right. *)
Definition join_rows (left right' : DataFrame) (pairs : list (nat * nat)) : DataFrame :=
  let shared := overlap left right' in
  (map (fun '(n, c) => (with_suffix shared "_x" n, take (map fst pairs) c)) left ++
   map (fun '(n, c) => (with_suffix shared "_y" n, take (map snd pairs) c)) right')%list.

Definition merge (left right : DataFrame) (left_on right_on : list string)
  : result DataFrame :=
  lkeys <- mapM (get_col left) left_on ;;
  rkeys <- mapM (get_col right) right_on ;;
  _ <- check_key_kinds lkeys rkeys ;;
  let pairs := inner_pairs lkeys rkeys in
  let right' := right_part right left_on right_on in
  let shared := overlap left right' in
  if suffix_duplicates (columns left) (map (with_suffix shared "_x") (columns left))
     || suffix_duplicates (columns right') (map (with_suffix shared "_y") (columns right'))
  then Raise MergeError
  else Ok (join_rows left right' pairs).

(** A label ends with the suffix. *)
Fixpoint ends_with (sfx s : string) : bool :=
  String.eqb sfx s ||
  match s with
  | EmptyString => false
  | String _ s' => ends_with sfx s'
  end.

(** ** Row selection, grouping and reindexing *)

(** [df[df[col] == v]] *)
Definition eq_mask (col : Series) (v : string) : list bool :=
  map (fun c => cell_eqb c (CStr v)) col.

Fixpoint select {A : Type} (mask : list bool) (l : list A) : list A :=
  match mask, l with
  | b :: mask', x :: l' => if b then x :: select mask' l' else select mask' l'
  | _, _ => []
  end.

Definition where_eq (df : DataFrame) (col v : string) : result DataFrame :=
  c <- get_col df col ;;
  Ok (map (fun '(n, s) => (n, select (eq_mask c v) s)) df).

(** Group keys are timestamps and grouped values numbers; other kinds
    of key lie outside the model, and text cannot be averaged. *)
Definition as_time (c : cell) : result timestamp :=
  match c with
  | CTime t => Ok t
  | _ => Raise Unmodelled
  end.

Definition as_number (c : cell) : result number :=
  match c with
  | CNum n => Ok n
  | CStr _ => Raise TypeError
  | CTime _ => Raise Unmodelled
  end.

Definition ts_key (t : timestamp) : Z :=
  ((((year (ts_date t) * 13 + month (ts_date t)) * 32 + day (ts_date t)) * 24
    + ts_hour t) * 60) + ts_minute t.

Fixpoint insert_time (t : timestamp) (l : list timestamp) : list timestamp :=
  match l with
  | [] => [t]
  | x :: l' => if ts_key t <=? ts_key x then t :: l else x :: insert_time t l'
  end.

Definition sort_times (l : list timestamp) : list timestamp :=
  fold_right insert_time [] l.

Fixpoint distinct (l : list timestamp) : list timestamp :=
  match l with
  | [] => []
  | x :: l' => if existsb (ts_eqb x) l' then distinct l' else x :: distinct l'
  end.

Definition number_value (n : number) : option Q :=
  match n with
  | Int z => Some (inject_Z z)
  | Float q => Some q
  | NaN => None
  end.

Fixpoint present (l : list number) : list Q :=
  match l with
  | [] => []
  | n :: l' =>
      match number_value n with
      | Some q => q :: present l'
      | None => present l'
      end
  end.

Definition Qsum (l : list Q) : Q := fold_right Qplus 0%Q l.

(** [mean()]: blanks are skipped; a group with no value gives NaN. *)
Definition mean (l : list number) : number :=
  match present l with
  | [] => NaN
  | qs => Float (Qred (Qsum qs / inject_Z (Z.of_nat (List.length qs))))
  end.

Definition values_at (t : timestamp) (keys : list timestamp) (vals : list number)
  : list number :=
  map snd (filter (fun kv => ts_eqb (fst kv) t) (combine keys vals)).

(** [df.groupby([key], as_index=False)[val].mean()]: one row per
    distinct key, keys ascending. *)
Definition groupby_mean (df : DataFrame) (key val : string)
  : result (list (timestamp * number)) :=
  k <- get_col df key ;;
  v <- get_col df val ;;
  ks <- mapM as_time k ;;
  vs <- mapM as_number v ;;
  Ok (map (fun t => (t, mean (values_at t ks vs))) (sort_times (distinct ks))).

Fixpoint has_duplicates (index : Series) : bool :=
  match index with
  | [] => false
  | c :: l => existsb (cell_eqb c) l || has_duplicates l
  end.

Fixpoint lookup_row (index col : Series) (t : timestamp) : cell :=
  match index, col with
  | k :: index', v :: col' => if cell_eqb k (CTime t) then v else lookup_row index' col' t
  | _, _ => CNaN
  end.

(** [df.set_index(key).reindex(target).reset_index()]: one row per
    target label, blank where the frame has no row with that label; an
    index with a repeated label cannot be reindexed. *)
Definition reindex (df : DataFrame) (key : string) (target : list timestamp)
  : result DataFrame :=
  index <- get_col df key ;;
  if has_duplicates index && negb (Nat.eqb (List.length target) 0)
  then Raise ValueError
  else Ok ((key, map CTime target) ::
           map (fun '(n, c) => (n, map (lookup_row index c) target))
               (drop_cols df [key])).


(** ** Files, pages and services

    The scripts' surroundings: the files under the working directory, the
    portal's pages, downloads, the token endpoint, the report API, Slack
    and pandas' file readers and writers. *)

Definition bytes : Type := list Byte.byte.

(** What a plotting call puts on an axes. *)
Inductive artist : Type :=
| Line (label : string) (x y : Series)
| Bar (label : string) (x y : Series).

Inductive panel : Type :=
| Axes (title : string) (artists : list artist)
| Deleted.

Inductive content : Type :=
| Bytes (b : bytes)
| Workbook (sheets : list (string * DataFrame))
| Figure (panels : list panel).

Record file : Type := File { ctime : date; body : content }.

Definition filesystem : Type := list (string * file).

Fixpoint read_file (fs : filesystem) (path : string) : option file :=
  match fs with
  | [] => None
  | (p, f) :: fs' => if String.eqb p path then Some f else read_file fs' path
  end.

Definition remove_file (fs : filesystem) (path : string) : filesystem :=
  filter (fun pf => negb (String.eqb (fst pf) path)) fs.

Definition write_file (fs : filesystem) (path : string) (f : file) : filesystem :=
  (remove_file fs path ++ [(path, f)])%list.

Fixpoint startswith (pre s : string) : bool :=
  match pre, s with
  | EmptyString, _ => true
  | String a pre', String b s' => Ascii.eqb a b && startswith pre' s'
  | String _ _, EmptyString => false
  end.

Fixpoint contains (sub s : string) : bool :=
  startswith sub s ||
  match s with
  | EmptyString => false
  | String _ s' => contains sub s'
  end.

Fixpoint endswith_slash (s : string) : bool :=
  match s with
  | EmptyString => false
  | String c EmptyString => Ascii.eqb c "/"
  | String _ s' => endswith_slash s'
  end.

(** [os.path.join(a, b)], POSIX flavour. *)
Definition path_join (a b : string) : string :=
  if startswith "/" b then b
  else if String.eqb a "" || endswith_slash a then a ++ b
  else a ++ "/" ++ b.

(** [os.path.basename(p)] *)
Fixpoint basename (p : string) : string :=
  match p with
  | EmptyString => EmptyString
  | String c p' => if has_char "/" p then basename p' else p
  end.

Fixpoint split (sep : ascii) (s : string) : list string :=
  match s with
  | EmptyString => [EmptyString]
  | String c r =>
      if Ascii.eqb c sep then EmptyString :: split sep r
      else match split sep r with
           | h :: t => String c h :: t
           | [] => [String c EmptyString]
           end
  end.

Fixpoint join (sep : string) (parts : list string) : string :=
  match parts with
  | [] => EmptyString
  | [p] => p
  | p :: rest => p ++ sep ++ join sep rest
  end.

Definition PRODUCTION_DIR : string := "production".
Definition ARCHIVE_DIR : string := path_join PRODUCTION_DIR "archive".

(** The name [zipfile] extracts a member under: empty, [.] and [..]
    components are dropped. *)
Definition arcname (name : string) : string :=
  join "/" (filter (fun x => negb (String.eqb x "" || String.eqb x "." || String.eqb x ".."))
                   (split "/" name)).

(** Where [ZipFile.extractall(dir)] puts a member. *)
Definition member_path (dir name : string) : string := path_join dir (arcname name).

(** Directories are not stored: the directories are the two that
    [ensure_dirs] makes and every path a file lies below; a file stands
    in the way of a path that runs through it. *)
Definition below (d p : string) : bool := startswith (d ++ "/") p.

Definition isdir (fs : filesystem) (p : string) : bool :=
  String.eqb p PRODUCTION_DIR || String.eqb p ARCHIVE_DIR ||
  existsb (fun pf => below p (fst pf)) fs.

Definition under_a_file (fs : filesystem) (p : string) : bool :=
  existsb (fun pf => below (fst pf) p) fs.

(** [ZipFile._extract_member], for a member that is a file.  A name
    that reduces to nothing makes the target the directory itself, which
    cannot be opened for writing (CPython 3.11; later versions refuse the
    empty name); a target below a file, or one that is a directory,
    cannot be written either.  Directory entries and the empty name are
    not modelled. *)
Definition extract_member (dir : string) (today : date) (fs : filesystem)
           (member : string * bytes) : result filesystem :=
  let name := fst member in
  if String.eqb name "" || endswith_slash name then Raise Unmodelled
  else if String.eqb (arcname name) "" then Raise IsADirectoryError
  else
    let target := member_path dir name in
    if under_a_file fs target then Raise NotADirectoryError
    else if isdir fs target then Raise IsADirectoryError
    else Ok (write_file fs target (File today (Bytes (snd member)))).

(** [ZipFile.extractall(dir)]: the members in the order listed; the
    first one that fails ends the extraction, the files written before
    it stay. *)
Fixpoint extractall (archive : list (string * bytes)) (dir : string) (today : date)
         (fs : filesystem) : filesystem * result unit :=
  match archive with
  | [] => (fs, Ok tt)
  | member :: rest =>
      match extract_member dir today fs member with
      | Ok fs' => extractall rest dir today fs'
      | Raise e => (fs, Raise e)
      end
  end.

Record link : Type := Link { link_text : string; link_href : string; link_title : string }.

(** A downloaded resource: its bytes, and the members [zipfile] finds
    in them ([None] when they are no archive). *)
Record download : Type := Download {
  raw : bytes;
  members : option (list (string * bytes))
}.

(** A JSON page of the report API: [data] and [fields] may be absent;
    a field may lack its [name]. *)
Definition record : Type := list (string * cell).

Record payload : Type := Payload {
  data : option (list record);
  fields : option (list (option string))
}.

(** [payload.get("data", [])] *)
Definition page_rows (p : payload) : list record :=
  match data p with Some d => d | None => [] end.

Record env : Type := Env {
  page : string -> list link;
  http_get : string -> result download;
  token_endpoint : string -> string -> result (option string);
  api_get : string -> string -> string -> nat -> result payload;
  slack_post : string -> bool;
  slack_upload : string -> bool;
  read_csv : bytes -> result DataFrame;
  to_csv : DataFrame -> bytes;
  read_excel : bytes -> string -> result DataFrame;
  API_USER : option string;
  API_PASS : option string;
  API_KEY : option string;
  SLACK_TOKEN : option string;
  today : date;
  now_stamp : string
}.

Inductive event : Type :=
| Navigate (url : string)
| HttpGet (url : string)
| TokenPost (user : string)
| ApiGet (url : string) (page_number : nat)
| SlackPost (message : string)
| SlackUpload (path : string).

Record state : Type := State { files : filesystem; trace : list event }.

(** A computation over the files and the trace of outside calls; [None]
    when the fuel given to a loop ran out. *)
Definition M (A : Type) : Type := state -> option (result A * state).

Definition ret {A : Type} (a : A) : M A := fun s => Some (Ok a, s).

Definition raise {A : Type} (e : exn) : M A := fun s => Some (Raise e, s).

Definition out_of_fuel {A : Type} : M A := fun _ => None.

Definition mbind {A B : Type} (m : M A) (k : A -> M B) : M B :=
  fun s =>
    match m s with
    | Some (Ok a, s') => k a s'
    | Some (Raise e, s') => Some (Raise e, s')
    | None => None
    end.

Definition lift {A : Type} (r : result A) : M A :=
  fun s => Some (r, s).

Definition emit (e : event) : M unit :=
  fun s => Some (Ok tt, State (files s) (trace s ++ [e])%list).

Definition get_files : M filesystem := fun s => Some (Ok (files s), s).

Definition put_files (fs : filesystem) : M unit :=
  fun s => Some (Ok tt, State fs (trace s)).

Declare Scope M_scope.
Delimit Scope M_scope with M.
Notation "x <~ m ;; k" := (mbind m (fun x => k))
  (at level 100, m at next level, right associativity) : M_scope.

(** Truth of an optional text, as Python tests it. *)
Definition truthy (o : option string) : bool :=
  match o with
  | Some s => negb (String.eqb s "")
  | None => false
  end.

Definition text_of (o : option string) : string :=
  match o with Some s => s | None => "" end.

Definition date_ltb (a b : date) : bool :=
  (year a <? year b) ||
  ((year a =? year b) &&
   ((month a <? month b) || ((month a =? month b) && (day a <? day b)))).

(** The day before, for [datetime.now() - timedelta(days=1)]. *)
Definition prev_day (d : date) : date :=
  if 1 <? day d then Date (year d) (month d) (day d - 1)
  else if 1 <? month d
       then Date (year d) (month d - 1) (days_in_month (year d) (month d - 1))
       else Date (year d - 1) 12 31.

Section Scripts.

Variable E : env.

Local Open Scope M_scope.

(** [is_file_older_than_today] on a file of the model. *)
Definition is_file_older_than_today (f : file) : bool := date_ltb (ctime f) (today E).

(** [ensure_dirs]: a file standing at the place of one of the two
    directories is an error. *)
Definition ensure_dirs : M unit :=
  fs <~ get_files ;;
  match read_file fs PRODUCTION_DIR, read_file fs ARCHIVE_DIR with
  | None, None => ret tt
  | _, _ => raise FileExistsError
  end.

(** One turn of the loop of [archive_old_files], for the directory
    entry [fn]: a file made before today is moved, replacing a file of
    that name in the archive; [os.remove] fails on a directory of that
    name. *)
Definition archive_entry (fs : filesystem) (fn : string) : result filesystem :=
  let src := path_join PRODUCTION_DIR fn in
  let dst := path_join ARCHIVE_DIR fn in
  match read_file fs src with
  | Some f =>
      if is_file_older_than_today f
      then if isdir fs dst then Raise IsADirectoryError
           else Ok (write_file (remove_file (remove_file fs dst) src) dst f)
      else Ok fs
  | None => Ok fs
  end.

Fixpoint archive_entries (names : list string) (fs : filesystem)
  : filesystem * result unit :=
  match names with
  | [] => (fs, Ok tt)
  | fn :: rest =>
      match archive_entry fs fn with
      | Ok fs' => archive_entries rest fs'
      | Raise e => (fs, Raise e)
      end
  end.

(** [os.listdir(PRODUCTION_DIR)], files only: sub-directories are
    listed by Python too, but [isfile] turns them away. *)
Definition listdir_files (fs : filesystem) : list string :=
  flat_map
    (fun pf =>
       let p := fst pf in
       let pre := PRODUCTION_DIR ++ "/" in
       if startswith pre p
       then let fn := substring (String.length pre) (String.length p) p in
            if has_char "/" fn || String.eqb fn "" then [] else [fn]
       else [])
    fs.

Definition archive_old_files : M unit :=
  fs <~ get_files ;;
  let (fs', moved) := archive_entries (listdir_files fs) fs in
  _ <~ put_files fs' ;;
  lift moved.

(** What [open(path, "rb")] raises when no file stands at [path]. *)
Definition open_failure (fs : filesystem) (p : string) : exn :=
  if under_a_file fs p then NotADirectoryError
  else if isdir fs p then IsADirectoryError
  else FileNotFoundError.

(** [send_slack_notification]: nothing without a token; a Slack error
    ends the sending and is swallowed; a file that cannot be opened is
    not a Slack error. *)
Fixpoint slack_uploads (paths : list string) : M unit :=
  match paths with
  | [] => ret tt
  | p :: rest =>
      fs <~ get_files ;;
      match read_file fs p with
      | None => raise (open_failure fs p)
      | Some _ =>
          _ <~ emit (SlackUpload p) ;;
          if slack_upload E p then slack_uploads rest else ret tt
      end
  end.

Definition send_slack_notification (message : string) (paths : list string) : M unit :=
  if negb (truthy (SLACK_TOKEN E)) then ret tt
  else
    _ <~ emit (SlackPost message) ;;
    if slack_post E message then slack_uploads paths else ret tt.

Definition read_bytes (path : string) : M bytes :=
  fs <~ get_files ;;
  match read_file fs path with
  | Some (File _ (Bytes b)) => ret b
  | Some _ => raise Unmodelled
  | None => raise FileNotFoundError
  end.

Definition write_content (path : string) (c : content) : M unit :=
  fs <~ get_files ;;
  put_files (write_file fs path (File (today E) c)).

(** [pd.read_csv(path)] *)
Definition pd_read_csv (path : string) : M DataFrame :=
  b <~ read_bytes path ;;
  lift (read_csv E b).

(** [os.replace(src, dst)] *)
Definition os_replace (src dst : string) : M unit :=
  fs <~ get_files ;;
  match read_file fs src with
  | Some f => put_files (write_file (remove_file fs src) dst f)
  | None => raise FileNotFoundError
  end.

End Scripts.
(** ** Phase 1: the forecast table *)

Module Phase1.

(** Lines 172-181 of [main]: the derived columns. *)
Definition derive_metrics (eactor_dhhrsr_value : cell) (merged : DataFrame)
  : result DataFrame :=
  wind <- get_col merged "Forecasted Wind Supply" ;;
  solar <- get_col merged "Forecasted Solar Supply" ;;
  renewables <- column_add wind solar ;;
  let merged := set_col merged "Forecasted Renewables Output" renewables in
  demand <- get_col merged "Forecasted Demand" ;;
  renewables <- get_col merged "Forecasted Renewables Output" ;;
  dispatchable <- column_sub demand renewables ;;
  let merged := set_col merged "Dispatchable Supply" dispatchable in
  let merged := set_scalar merged "EACTOR_DHHRSR" eactor_dhhrsr_value in
  south <- get_col merged "TotalResourceMWZoneSouth" ;;
  north <- get_col merged "TotalResourceMWZoneNorth" ;;
  sn <- column_add south north ;;
  west <- get_col merged "TotalResourceMWZoneWest" ;;
  snw <- column_add sn west ;;
  houston <- get_col merged "TotalResourceMWZoneHouston" ;;
  outages <- column_add snw houston ;;
  let merged := set_col merged "total_resource_outages" outages in
  demand <- get_col merged "Forecasted Demand" ;;
  renewables <- get_col merged "Forecasted Renewables Output" ;;
  net_load <- column_sub demand renewables ;;
  let merged := set_col merged "Forecasted Net Load" net_load in
  eactor <- get_col merged "EACTOR_DHHRSR" ;;
  outages <- get_col merged "total_resource_outages" ;;
  capacity <- column_sub eactor outages ;;
  let merged := set_col merged "Forecasted Net Thermal Capacity" capacity in
  capacity <- get_col merged "Forecasted Net Thermal Capacity" ;;
  net_load <- get_col merged "Forecasted Net Load" ;;
  margin <- column_sub capacity net_load ;;
  Ok (set_col merged "Forecasted Thermal Reserve Margin" margin).

(** Lines 161-171 of [main]: the three joins and the renaming. *)
Definition joined_table (df_solar df_wind df_sys df_hroc : DataFrame) : result DataFrame :=
  wind_solar <- merge df_solar df_wind
                  ["DELIVERY_DATE"; "HOUR_ENDING"] ["DELIVERY_DATE"; "HOUR_ENDING"] ;;
  hour_text <- get_attr df_sys "HourEnding" ;;
  hours <- hour_ending_int hour_text ;;
  let df_sys := set_col df_sys "HOUR_ENDING" hours in
  wind_solar_hroc <- merge wind_solar df_hroc
                       ["DELIVERY_DATE"; "HOUR_ENDING"] ["Date"; "HourEnding"] ;;
  merged <- merge df_sys wind_solar_hroc
              ["DeliveryDate"; "HOUR_ENDING"] ["DELIVERY_DATE"; "HOUR_ENDING"] ;;
  Ok (rename merged
        [("SystemTotal", "Forecasted Demand");
         ("COP_HSL_SYSTEM_WIDE_y", "Forecasted Wind Supply");
         ("COP_HSL_SYSTEM_WIDE_x", "Forecasted Solar Supply")]).

(** Lines 160-182 of [main], on the five tables read from the
    downloaded files. *)
Definition forecast_table (df_solar df_wind df_sys df_hroc df_mora : DataFrame)
  : result DataFrame :=
  eactor_dhhrsr_value <- iloc df_mora 2 3 ;;
  merged <- joined_table df_solar df_wind df_sys df_hroc ;;
  merged <- derive_metrics eactor_dhhrsr_value merged ;;
  dates <- get_attr merged "DeliveryDate" ;;
  hours <- get_attr merged "HOUR_ENDING" ;;
  datetime <- canonical_datetime dates hours ;;
  Ok (set_col merged "datetime" datetime).

Definition URL_SOLAR : string :=
  "https://www.ercot.com/mp/data-products/data-product-details?id=NP4-737-CD".
Definition URL_WIND : string :=
  "https://www.ercot.com/mp/data-products/data-product-details?id=NP4-732-CD".
Definition URL_SYSFCST : string :=
  "https://www.ercot.com/mp/data-products/data-product-details?id=NP3-560-CD".
Definition URL_HROC : string :=
  "https://www.ercot.com/mp/data-products/data-product-details?id=NP3-233-CD".
Definition URL_MORA : string := "https://www.ercot.com/gridinfo/resource".

(** The two panels of [plot_combined_forecast]. *)
Definition forecast_panels (df : DataFrame) : result (list panel) :=
  x <- get_col df "datetime" ;;
  demand <- get_col df "Forecasted Demand" ;;
  wind <- get_col df "Forecasted Wind Supply" ;;
  solar <- get_col df "Forecasted Solar Supply" ;;
  renewables <- get_col df "Forecasted Renewables Output" ;;
  dispatchable <- get_col df "Dispatchable Supply" ;;
  margin <- get_col df "Forecasted Thermal Reserve Margin" ;;
  load <- get_col df "Forecasted Net Load" ;;
  capacity <- get_col df "Forecasted Net Thermal Capacity" ;;
  Ok [ Axes "ERCOT 7-Day Supply/Demand Forecast"
            [ Line "Forecasted Demand" x demand;
              Line "Forecasted Wind Supply" x wind;
              Line "Forecasted Solar Supply" x solar;
              Line "Forecasted Renewables Output" x renewables;
              Line "Dispatchable Supply" x dispatchable ];
       Axes "ERCOT 7-Day Forecasted Thermal Reserve Margin"
            [ Bar "Forecasted Thermal Reserve Margin (Bar)" x margin;
              Line "Forecasted Net Load" x load;
              Line "Forecasted Net Thermal Capacity" x capacity ] ].

(** The column width set by the styling loop of [main], from the
    longest cell text of the column. *)
Definition column_width (max_len : Z) : Z := Z.max 10 (Z.min (max_len + 2) 60).

(** [pd.read_csv(path, parse_dates=[col])] after the file is read: the
    column is replaced by its timestamps when all of it parses, and left
    as it is otherwise. *)
Definition parse_dates (df : DataFrame) (col : string) : result DataFrame :=
  match get_col df col with
  | Raise _ => Raise ValueError
  | Ok c =>
      match to_datetime c with
      | Ok c' => Ok (set_col df col c')
      | Raise Unmodelled => Raise Unmodelled
      | Raise _ => Ok df
      end
  end.

Section WithEnv.

Variable E : env.

Local Open Scope M_scope.

Definition is_mora_link (l : link) : bool :=
  contains ".xlsx" (link_href l) &&
  contains "Monthly Outlook for Resource Adequacy (MORA)" (link_title l).

Definition get_download_link (url text file_type : string) : M string :=
  _ <~ emit (Navigate url) ;;
  let found :=
    if String.eqb file_type "xlsx"
    then filter is_mora_link (page E url)
    else filter (fun l => String.eqb (link_text l) text) (page E url) in
  match found with
  | [] => raise TimeoutException
  | l :: _ => ret (link_href l)
  end.

Definition download_and_extract_zip (url extract_to : string) : M string :=
  _ <~ emit (HttpGet url) ;;
  r <~ lift (http_get E url) ;;
  match members r with
  | None => raise BadZipFile
  | Some archive =>
      fs <~ get_files ;;
      let (fs', outcome) := extractall archive extract_to (today E) fs in
      _ <~ put_files fs' ;;
      _ <~ lift outcome ;;
      match map fst archive with
      | [] => raise IndexError
      | name :: _ => ret name
      end
  end.

Definition process_file (page_url new_filename text file_type download_dir : string)
  : M string :=
  href <~ get_download_link page_url text file_type ;;
  let href := if negb (startswith "http" href) then "https://www.ercot.com" ++ href else href in
  let out_path := path_join download_dir new_filename in
  _ <~ (if String.eqb file_type "zip"
        then extracted <~ download_and_extract_zip href download_dir ;;
             os_replace (path_join download_dir extracted) out_path
        else _ <~ emit (HttpGet href) ;;
             r <~ lift (http_get E href) ;;
             write_content E out_path (Bytes (raw r))) ;;
  ret out_path.

Definition read_csv_dates (path col : string) : M DataFrame :=
  df <~ pd_read_csv E path ;;
  lift (parse_dates df col).

Definition pd_read_excel (path sheet : string) : M DataFrame :=
  b <~ read_bytes path ;;
  lift (read_excel E b sheet).

Definition plot_combined_forecast (df : DataFrame) : M string :=
  panels <~ lift (forecast_panels df) ;;
  let out := path_join PRODUCTION_DIR
               ("ercot_combined_forecast_" ++ now_stamp E ++ ".png") in
  _ <~ write_content E out (Figure panels) ;;
  ret out.

Definition main : M unit :=
  _ <~ ensure_dirs ;;
  _ <~ archive_old_files E ;;
  let ts := now_stamp E in
  solar_path <~ process_file URL_SOLAR ("solar_" ++ ts ++ ".csv") "zip" "zip" PRODUCTION_DIR ;;
  wind_path <~ process_file URL_WIND ("wind_" ++ ts ++ ".csv") "zip" "zip" PRODUCTION_DIR ;;
  sys_path <~ process_file URL_SYSFCST ("sysfcst_" ++ ts ++ ".csv") "zip" "zip" PRODUCTION_DIR ;;
  hroc_path <~ process_file URL_HROC ("hroc_" ++ ts ++ ".csv") "zip" "zip" PRODUCTION_DIR ;;
  mora_path <~ process_file URL_MORA ("mora_" ++ ts ++ ".xlsx") "xlsx" "xlsx" PRODUCTION_DIR ;;
  df_solar <~ read_csv_dates solar_path "DELIVERY_DATE" ;;
  df_wind <~ read_csv_dates wind_path "DELIVERY_DATE" ;;
  df_sys <~ read_csv_dates sys_path "DeliveryDate" ;;
  df_hroc <~ read_csv_dates hroc_path "Date" ;;
  df_mora <~ pd_read_excel mora_path "Capacity by Resource Category" ;;
  merged <~ lift (forecast_table df_solar df_wind df_sys df_hroc df_mora) ;;
  png_path <~ plot_combined_forecast merged ;;
  let xlsx_path := path_join PRODUCTION_DIR
                     ("fcst_wind_solar_hroc_mora_" ++ now_stamp E ++ ".xlsx") in
  _ <~ write_content E xlsx_path (Workbook [("Sheet1", merged)]) ;;
  send_slack_notification E
    ("*7-Day Forecasts*\nNew ERCOT forecasts processed.\n\n"
       ++ basename png_path ++ "\n" ++ basename xlsx_path)
    [png_path].

End WithEnv.

End Phase1.

(** ** Phase 2: day-ahead and real-time prices *)

(** [pd.DataFrame(rows, columns=cols)] on a list of JSON objects: with no
    [cols] the labels are the keys in order of first appearance; a key a
    row lacks gives a blank. *)
Fixpoint record_get (r : record) (k : string) : cell :=
  match r with
  | [] => CNaN
  | (n, v) :: r' => if String.eqb n k then v else record_get r' k
  end.

Definition add_keys (seen : list string) (r : record) : list string :=
  fold_left (fun acc kv => if mem (fst kv) acc then acc else (acc ++ [fst kv])%list) r seen.

Definition record_keys (rows : list record) : list string :=
  fold_left add_keys rows [].

Definition frame_of_records (rows : list record) (cols : option (list string)) : DataFrame :=
  let labels := match cols with Some c => c | None => record_keys rows end in
  map (fun k => (k, map (fun r => record_get r k) rows)) labels.

Module Phase2.

Definition URL_DAMCPC : string :=
  "https://www.ercot.com/mp/data-products/data-product-details?id=NP4-188-CD".
Definition URL_DAMSPP : string :=
  "https://www.ercot.com/mp/data-products/data-product-details?id=NP4-190-CD".
Definition URL_RTM_API : string :=
  "https://api.ercot.com/api/public-reports/np6-905-cd/spp_node_zone_hub".
Definition URL_DAM_API : string :=
  "https://api.ercot.com/api/public-reports/np4-190-cd/dam_stlmnt_pnt_prices".

(** What [plot_dart] draws: the day-ahead line, the hourly real-time
    line and the spread bars, over the same timestamps. *)
Record dart_panel : Type := DartPanel {
  dart_datetime : Series;
  dart_dam : Series;
  dart_rtm : Series;
  dart_spread : Series
}.

Definition plot_dart (dam_yday rtm_yday : DataFrame) (sp : string) : result dart_panel :=
  dam <- where_eq dam_yday "SettlementPoint" sp ;;
  rtm <- where_eq rtm_yday "settlementPoint" sp ;;
  rtm_hourly <- groupby_mean rtm "datetime" "settlementPointPrice" ;;
  dam <- reindex dam "datetime" (map fst rtm_hourly) ;;
  dam_price <- get_col dam "SettlementPointPrice" ;;
  let rtm_price := map (fun kv => CNum (snd kv)) rtm_hourly in
  spread <- series_sub dam_price rtm_price ;;
  dam_datetime <- get_col dam "datetime" ;;
  Ok (DartPanel dam_datetime dam_price rtm_price spread).

Definition dart_axes (title sp : string) (p : dart_panel) : panel :=
  Axes title
       [ Line ("DAM - " ++ sp) (dart_datetime p) (dart_dam p);
         Line ("RTM - " ++ sp) (dart_datetime p) (dart_rtm p);
         Bar "DART Spread" (dart_datetime p) (dart_spread p) ].

(** [plot_dam] and [plot_anc]: today's and yesterday's curve of one
    settlement point, or of one ancillary service. *)
Definition plot_pair (df_today df_yday : DataFrame) (key value y : string)
           (label_today label_yday title : string) : result panel :=
  t <- where_eq df_today key value ;;
  yd <- where_eq df_yday key value ;;
  tx <- get_col t "HourEnding" ;;
  ty <- get_col t y ;;
  yx <- get_col yd "HourEnding" ;;
  yy <- get_col yd y ;;
  Ok (Axes title [Line label_today tx ty; Line label_yday yx yy]).

Definition plot_dam (df_today df_yday : DataFrame) (sp title : string) : result panel :=
  plot_pair df_today df_yday "SettlementPoint" sp "SettlementPointPrice"
            ("Today’s DAM @ " ++ sp ++ " for Tomorrow")
            ("Yesterday’s DAM @ " ++ sp ++ " for Today") title.

Definition plot_anc (df_today df_yday : DataFrame) (atype title : string) : result panel :=
  plot_pair df_today df_yday "AncillaryType" atype "MCPC"
            ("Today’s " ++ atype ++ " for Tomorrow")
            ("Yesterday’s " ++ atype ++ " for Today") title.

(** The six panels of [plot_all], row by row. *)
Definition plot_panels (df_dam_spp_today df_dam_spp_yday df_dam_cpc_today df_dam_cpc_yday
                          df_rtm_spp_yday : DataFrame) : result (list panel) :=
  p1 <- plot_dam df_dam_spp_today df_dam_spp_yday "LZ_HOUSTON"
          "DAM LZ HOUSTON: Yesterday vs. Today" ;;
  p2 <- plot_dam df_dam_spp_today df_dam_spp_yday "LZ_NORTH"
          "DAM LZ NORTH: Yesterday vs. Today" ;;
  p3 <- plot_anc df_dam_cpc_today df_dam_cpc_yday "ECRS"
          "ERCOT DAM Clearing Prices for Capacity" ;;
  p4 <- plot_anc df_dam_cpc_today df_dam_cpc_yday "RRS" "ERCOT RRS Yesterday vs. Today" ;;
  p5 <- plot_anc df_dam_cpc_today df_dam_cpc_yday "NSPIN" "ERCOT NSPIN Yesterday vs. Today" ;;
  p6 <- (if negb (empty df_rtm_spp_yday)
         then d <- plot_dart df_dam_spp_yday df_rtm_spp_yday "LZ_NORTH" ;;
              Ok (dart_axes "DART Spread - LZ_NORTH" "LZ_NORTH" d)
         else Ok Deleted) ;;
  Ok [p1; p2; p3; p4; p5; p6].

(** Lines 203-205 of [main], for one of the four day-ahead tables. *)
Definition normalize_dam (df : DataFrame) : result DataFrame :=
  dates <- get_col df "DeliveryDate" ;;
  dates <- to_datetime dates ;;
  let df := set_col df "DeliveryDate" dates in
  hours <- get_col df "HourEnding" ;;
  hours <- hour_ending_int hours ;;
  let df := set_col df "HourEnding" hours in
  dates <- get_col df "DeliveryDate" ;;
  hours <- get_col df "HourEnding" ;;
  datetime <- canonical_datetime dates hours ;;
  Ok (set_col df "datetime" datetime).

(** Lines 206-209 of [main], for the real-time table. *)
Definition normalize_rtm (df : DataFrame) : result DataFrame :=
  if negb (empty df)
  then
    dates <- get_col df "deliveryDate" ;;
    dates <- to_datetime dates ;;
    let df := set_col df "deliveryDate" dates in
    dates <- get_col df "deliveryDate" ;;
    hours <- get_col df "deliveryHour" ;;
    datetime <- canonical_datetime dates hours ;;
    Ok (set_col df "datetime" datetime)
  else Ok df.

(** The sheets written by the [ExcelWriter] block. *)
Definition workbook_sheets (df_dam_cpc_today df_dam_cpc_yday df_dam_spp_today df_dam_spp_yday
                              df_rtm_spp_yday df_api_dam_spp_yday : DataFrame)
  : list (string * DataFrame) :=
  ([ ("DAM_CPC_Today", df_dam_cpc_today);
     ("DAM_CPC_Yesterday", df_dam_cpc_yday);
     ("DAM_SPP_Today", df_dam_spp_today);
     ("DAM_SPP_Yesterday", df_dam_spp_yday) ]
   ++ (if negb (empty df_rtm_spp_yday) then [("RTM_SPP_Yesterday", df_rtm_spp_yday)] else [])
   ++ (if negb (empty df_api_dam_spp_yday)
       then [("DAM_SPP_Yesterday_API", df_api_dam_spp_yday)] else []))%list.

(** The four day-ahead tables of a run, in the order of [main]:
    capacity prices of today and yesterday, settlement point prices of
    today and yesterday. *)
Record reports (A : Type) : Type := Reports {
  dam_cpc_today : A;
  dam_cpc_yday : A;
  dam_spp_today : A;
  dam_spp_yday : A
}.

Arguments Reports {A}.
Arguments dam_cpc_today {A}.
Arguments dam_cpc_yday {A}.
Arguments dam_spp_today {A}.
Arguments dam_spp_yday {A}.

Section WithEnv.

Variable E : env.

Local Open Scope M_scope.

Definition get_download_link (url text : string) (link_index : nat) : M string :=
  _ <~ emit (Navigate url) ;;
  match filter (fun l => String.eqb (link_text l) text) (page E url) with
  | [] => raise TimeoutException
  | links =>
      match nth_error links link_index with
      | Some l => ret (link_href l)
      | None => raise IndexError
      end
  end.

Definition download_and_extract_zip (url extract_to : string) : M string :=
  _ <~ emit (HttpGet url) ;;
  r <~ lift (http_get E url) ;;
  match members r with
  | None => raise BadZipFile
  | Some archive =>
      fs <~ get_files ;;
      let (fs', outcome) := extractall archive extract_to (today E) fs in
      _ <~ put_files fs' ;;
      _ <~ lift outcome ;;
      match map fst archive with
      | [] => raise IndexError
      | name :: _ => ret (path_join extract_to name)
      end
  end.

Definition process_file (page_url : string) (link_index : nat) (download_dir : string)
  : M string :=
  href <~ get_download_link page_url "zip" link_index ;;
  let href := if negb (startswith "http" href) then "https://www.ercot.com" ++ href else href in
  download_and_extract_zip href download_dir.

Definition get_api_token : M string :=
  _ <~ emit (TokenPost (text_of (API_USER E))) ;;
  token <~ lift (token_endpoint E (text_of (API_USER E)) (text_of (API_PASS E))) ;;
  if negb (truthy token) then raise RuntimeError else ret (text_of token).

Definition yesterday : string := isoformat_date (prev_day (today E)).

(** The [while True] loop of the two API functions; [size] is
    [params["size"]], [page_number] is [params["page"]]. *)
Fixpoint query_pages (fuel : nat) (url token : string) (size page_number : nat)
         (rows : list record) : M (list record * payload) :=
  match fuel with
  | O => out_of_fuel
  | S fuel' =>
      _ <~ emit (ApiGet url page_number) ;;
      p <~ lift (api_get E url token (text_of (API_KEY E)) page_number) ;;
      let d := page_rows p in
      let rows := (rows ++ d)%list in
      if Nat.ltb (List.length d) size then ret (rows, p)
      else query_pages fuel' url token size (S page_number) rows
  end.

(** The rows the server holds on pages [start], ..., [start + count - 1]. *)
Definition served_rows (url token : string) (start count : nat) : list record :=
  flat_map (fun n => match api_get E url token (text_of (API_KEY E)) n with
                     | Ok p => page_rows p
                     | Raise _ => []
                     end)
           (seq start count).

(** Page [n] answers with at least [size] rows. *)
Definition full_page (url token : string) (size n : nat) : Prop :=
  exists p, api_get E url token (text_of (API_KEY E)) n = Ok p /\
            (size <= List.length (page_rows p))%nat.

Definition has_credentials : bool :=
  truthy (API_USER E) && truthy (API_PASS E) && truthy (API_KEY E).

(** [cols = [f["name"] for f in fields] if fields else None] *)
Definition field_names (p : payload) : result (option (list string)) :=
  match fields p with
  | None | Some [] => Ok None
  | Some fs =>
      names <- mapM (fun f => match f with
                              | Some n => Ok n
                              | None => Raise (KeyError "name")
                              end) fs ;;
      Ok (Some names)
  end.

(** [pd.DataFrame(rows, columns=cols)] with [cols] taken from [payload],
    the page left in hand when the loop ended. *)
Definition rtm_frame (rows : list record) (p : payload) : result DataFrame :=
  cols <- field_names p ;;
  Ok (frame_of_records rows cols).

Definition get_api_rtm_spp_yesterday (fuel : nat) (prod_dir : string) : M (option string) :=
  if negb has_credentials then ret None
  else
    token <~ get_api_token ;;
    res <~ query_pages fuel URL_RTM_API token 100 1 [] ;;
    let '(rows, p) := res in
    match rows with
    | [] => ret None
    | _ =>
        df <~ lift (rtm_frame rows p) ;;
        let out := path_join prod_dir ("df_rtm_spp_yesterday_" ++ yesterday ++ ".csv") in
        _ <~ write_content E out (Bytes (to_csv E df)) ;;
        ret (Some out)
    end.

Definition get_api_dam_spp_yesterday (fuel : nat) (prod_dir : string) : M (option string) :=
  if negb has_credentials then ret None
  else
    token <~ get_api_token ;;
    res <~ query_pages fuel URL_DAM_API token 100 1 [] ;;
    let '(rows, _) := res in
    match rows with
    | [] => ret None
    | _ =>
        let df := frame_of_records rows None in
        let out := path_join prod_dir ("df_dam_spp_yesterday_" ++ yesterday ++ ".csv") in
        _ <~ write_content E out (Bytes (to_csv E df)) ;;
        ret (Some out)
    end.

(** [pd.read_csv(name) if name else pd.DataFrame()] *)
Definition read_optional (name : option string) : M DataFrame :=
  match name with
  | Some n => if String.eqb n "" then ret [] else pd_read_csv E n
  | None => ret []
  end.

Definition excel_path : string :=
  path_join PRODUCTION_DIR ("ercot_data_" ++ now_stamp E ++ ".xlsx").

Definition plot_path : string :=
  path_join PRODUCTION_DIR ("combined_plots_" ++ now_stamp E ++ ".png").

Definition plot_all (df_dam_spp_today df_dam_spp_yday df_dam_cpc_today df_dam_cpc_yday
                       df_rtm_spp_yday : DataFrame) : M string :=
  panels <~ lift (plot_panels df_dam_spp_today df_dam_spp_yday df_dam_cpc_today
                              df_dam_cpc_yday df_rtm_spp_yday) ;;
  let out := plot_path in
  _ <~ write_content E out (Figure panels) ;;
  ret out.

(** Lines 180-191 of [main]. *)
Definition download_reports : M (reports string) :=
  _ <~ ensure_dirs ;;
  _ <~ archive_old_files E ;;
  dam_cpc_today_fp <~ process_file URL_DAMCPC 0 PRODUCTION_DIR ;;
  dam_cpc_yday_fp <~ process_file URL_DAMCPC 2 PRODUCTION_DIR ;;
  dam_spp_today_fp <~ process_file URL_DAMSPP 0 PRODUCTION_DIR ;;
  dam_spp_yday_fp <~ process_file URL_DAMSPP 2 PRODUCTION_DIR ;;
  ret (Reports dam_cpc_today_fp dam_cpc_yday_fp dam_spp_today_fp dam_spp_yday_fp).

(** Lines 194-197. *)
Definition read_reports (fp : reports string) : M (reports DataFrame) :=
  df_dam_cpc_today <~ pd_read_csv E (dam_cpc_today fp) ;;
  df_dam_cpc_yday <~ pd_read_csv E (dam_cpc_yday fp) ;;
  df_dam_spp_today <~ pd_read_csv E (dam_spp_today fp) ;;
  df_dam_spp_yday <~ pd_read_csv E (dam_spp_yday fp) ;;
  ret (Reports df_dam_cpc_today df_dam_cpc_yday df_dam_spp_today df_dam_spp_yday).

(** Lines 202-205: the loop over the four tables. *)
Definition normalize_reports (df : reports DataFrame) : result (reports DataFrame) :=
  a <- normalize_dam (dam_cpc_today df) ;;
  b <- normalize_dam (dam_cpc_yday df) ;;
  c <- normalize_dam (dam_spp_today df) ;;
  d <- normalize_dam (dam_spp_yday df) ;;
  Ok (Reports a b c d).

(** Lines 210-222: the workbook, the figure and the notification. *)
Definition publish (df : reports DataFrame) (df_rtm_spp_yday df_api_dam_spp_yday : DataFrame)
  : M unit :=
  _ <~ write_content E excel_path
         (Workbook (workbook_sheets (dam_cpc_today df) (dam_cpc_yday df) (dam_spp_today df)
                                    (dam_spp_yday df) df_rtm_spp_yday df_api_dam_spp_yday)) ;;
  plot_path <~ plot_all (dam_spp_today df) (dam_spp_yday df) (dam_cpc_today df)
                        (dam_cpc_yday df) df_rtm_spp_yday ;;
  send_slack_notification E
    ("*DAM/RTM Reports*\nNew ERCOT plots & workbook generated.\n\n"
       ++ basename plot_path ++ "\n" ++ basename excel_path)
    [plot_path].

Definition main (fuel : nat) : M unit :=
  fp <~ download_reports ;;
  df_rtm_spp_yday_filename <~ get_api_rtm_spp_yesterday fuel PRODUCTION_DIR ;;
  df_api_dam_spp_yday_filename <~ get_api_dam_spp_yesterday fuel PRODUCTION_DIR ;;
  df <~ read_reports fp ;;
  df_rtm_spp_yday <~ read_optional df_rtm_spp_yday_filename ;;
  df_api_dam_spp_yday <~ read_optional df_api_dam_spp_yday_filename ;;
  df <~ lift (normalize_reports df) ;;
  df_rtm_spp_yday <~ lift (normalize_rtm df_rtm_spp_yday) ;;
  publish df df_rtm_spp_yday df_api_dam_spp_yday.

End WithEnv.

End Phase2.

(** A row of a report as the normaliser meets it: the date cell, the
    hour-ending cell, and the date and hour they stand for. *)
Record hour_row : Type := HourRow {
  raw_date : cell;
  raw_hour : cell;
  row_date : date;
  row_hour : Z
}.

(** The date cell is text that parses to the date, or was parsed already. *)
Inductive date_given (d : date) : cell -> Prop :=
| date_text (s : string) :
    to_datetime_str s = Ok (midnight d) -> date_given d (CStr s)
| date_parsed :
    valid_date d = true -> date_given d (CTime (midnight d)).

(** The hour-ending cell is the integer itself or a clock text whose
    part before the first colon reads as the integer. *)
Inductive hour_ending_given (H : Z) : cell -> Prop :=
| hour_plain : hour_ending_given H (CInt H)
| hour_clock (lead rest : string) :
    has_char ":" lead = false -> int_of_str lead = Ok H ->
    hour_ending_given H (CStr (lead ++ String ":" rest)).

Definition well_formed_row (r : hour_row) : Prop :=
  date_given (row_date r) (raw_date r) /\
  hour_ending_given (row_hour r) (raw_hour r) /\
  1 <= row_hour r <= 24.

Definition canonical_timestamp (r : hour_row) : timestamp :=
  Timestamp (row_date r) (row_hour r - 1) 0.

(** A filler for positions outside a list of rows. *)
Definition no_row : hour_row := HourRow CNaN CNaN (Date 0 0 0) 0.

(** The seven measurements of one row of the joined Phase 1 table. *)
Record metric_row : Type := MetricRow {
  demand : number;
  wind_supply : number;
  solar_supply : number;
  outage_south : number;
  outage_north : number;
  outage_west : number;
  outage_houston : number
}.

Definition renewables_output (r : metric_row) : number :=
  num_add (wind_supply r) (solar_supply r).

Definition net_load (r : metric_row) : number :=
  num_sub (demand r) (renewables_output r).

Definition total_resource_outages (r : metric_row) : number :=
  num_add (num_add (num_add (outage_south r) (outage_north r)) (outage_west r))
          (outage_houston r).

Definition net_thermal_capacity (capacity : number) (r : metric_row) : number :=
  num_sub capacity (total_resource_outages r).

Definition thermal_reserve_margin (capacity : number) (r : metric_row) : number :=
  num_sub (net_thermal_capacity capacity r) (net_load r).

(** The number is the whole number [z], in an int64 or in a float64
    cell. *)
Definition is_whole (n : number) (z : Z) : Prop :=
  match n with
  | Int x => x = z
  | Float q => Qeq q (inject_Z z)
  | NaN => False
  end.

(** Whole numbers that int64 and float64 arithmetic carry through the
    derivation without rounding or overflow. *)
Definition exact_range (z : Z) : Prop := Z.abs z <= 2 ^ 48.

Definition column_of {A : Type} (f : A -> number) (rows : list A) : Series :=
  map (fun r => CNum (f r)) rows.

(** The joined table holds the seven measurements of [rows]. *)
Definition holds_measurements (merged : DataFrame) (rows : list metric_row) : Prop :=
  nrows merged = List.length rows /\
  get_col merged "Forecasted Demand" = Ok (column_of demand rows) /\
  get_col merged "Forecasted Wind Supply" = Ok (column_of wind_supply rows) /\
  get_col merged "Forecasted Solar Supply" = Ok (column_of solar_supply rows) /\
  get_col merged "TotalResourceMWZoneSouth" = Ok (column_of outage_south rows) /\
  get_col merged "TotalResourceMWZoneNorth" = Ok (column_of outage_north rows) /\
  get_col merged "TotalResourceMWZoneWest" = Ok (column_of outage_west rows) /\
  get_col merged "TotalResourceMWZoneHouston" = Ok (column_of outage_houston rows).

(** [df[name][i]] *)
Definition value_at (df : DataFrame) (name : string) (i : nat) : result cell :=
  c <- get_col df name ;;
  match nth_error c i with
  | Some v => Ok v
  | None => Raise (KeyError name)
  end.

(** A joined table of two rows, with a zero and a negative supply. *)
Definition sample_metric_rows : list metric_row :=
  [ MetricRow (Float 1000) (Float 100) (Int 0) (Int 1) (Int 2) (Int 3) (Int 4);
    MetricRow (Float 1100) (Float (-20)) (Float 5) (Int 0) (Int 0) (Int 0) (Int 10) ].

Definition sample_merged : DataFrame :=
  [ ("Forecasted Demand", column_of demand sample_metric_rows);
    ("Forecasted Wind Supply", column_of wind_supply sample_metric_rows);
    ("Forecasted Solar Supply", column_of solar_supply sample_metric_rows);
    ("TotalResourceMWZoneSouth", column_of outage_south sample_metric_rows);
    ("TotalResourceMWZoneNorth", column_of outage_north sample_metric_rows);
    ("TotalResourceMWZoneWest", column_of outage_west sample_metric_rows);
    ("TotalResourceMWZoneHouston", column_of outage_houston sample_metric_rows) ].

(** Every column of the frame has the frame's number of rows. *)
Definition rectangular (df : DataFrame) : Prop :=
  Forall (fun nc => List.length (snd nc) = nrows df) df.

(** Five small reports for one day, hours ending 1 and 2; [sample_mora]
    takes the cell to put at the position of the capacity value. *)
Definition jan10 : cell := CTime (midnight (Date 2024 1 10)).

Definition sample_solar : DataFrame :=
  [ ("DELIVERY_DATE", [jan10; jan10]);
    ("HOUR_ENDING", [CInt 1; CInt 2]);
    ("COP_HSL_SYSTEM_WIDE", [CFloat 0; CFloat 5]) ].

Definition sample_wind : DataFrame :=
  [ ("DELIVERY_DATE", [jan10; jan10]);
    ("HOUR_ENDING", [CInt 1; CInt 2]);
    ("COP_HSL_SYSTEM_WIDE", [CFloat 100; CFloat 120]) ].

Definition sample_sys : DataFrame :=
  [ ("DeliveryDate", [jan10; jan10]);
    ("HourEnding", [CStr "1:00"; CStr "2:00"]);
    ("SystemTotal", [CFloat 1000; CFloat 1100]) ].

Definition sample_hroc : DataFrame :=
  [ ("Date", [jan10; jan10]);
    ("HourEnding", [CInt 1; CInt 2]);
    ("TotalResourceMWZoneSouth", [CInt 1; CInt 2]);
    ("TotalResourceMWZoneNorth", [CInt 1; CInt 2]);
    ("TotalResourceMWZoneWest", [CInt 1; CInt 2]);
    ("TotalResourceMWZoneHouston", [CInt 1; CInt 2]) ].

(** The outage report with the South zone left blank. *)
Definition sample_hroc_blank : DataFrame :=
  [ ("Date", [jan10; jan10]);
    ("HourEnding", [CInt 1; CInt 2]);
    ("TotalResourceMWZoneSouth", [CNaN; CNaN]);
    ("TotalResourceMWZoneNorth", [CInt 1; CInt 2]);
    ("TotalResourceMWZoneWest", [CInt 1; CInt 2]);
    ("TotalResourceMWZoneHouston", [CInt 1; CInt 2]) ].

Definition sample_mora (capacity_cell : cell) : DataFrame :=
  [ ("Unnamed: 0", [CNaN; CNaN; CNaN]);
    ("Unnamed: 1", [CNaN; CNaN; CStr "Total"]);
    ("Unnamed: 2", [CNaN; CNaN; CNaN]);
    ("Unnamed: 3", [CStr "Installed Capacity, MW"; CNaN; capacity_cell]) ].

(** The measurements of the two joined rows of the sample reports. *)
Definition sample_joined_rows : list metric_row :=
  [ MetricRow (Float 1000) (Float 100) (Float 0) (Int 1) (Int 1) (Int 1) (Int 1);
    MetricRow (Float 1100) (Float 120) (Float 5) (Int 2) (Int 2) (Int 2) (Int 2) ].

Definition sample_blank_rows : list metric_row :=
  [ MetricRow (Float 1000) (Float 100) (Float 0) NaN (Int 1) (Int 1) (Int 1);
    MetricRow (Float 1100) (Float 120) (Float 5) NaN (Int 2) (Int 2) (Int 2) ].

(** The labels the joins and the renaming of Phase 1 give the two
    supply columns. *)
Definition supply_labels : list string :=
  [ "COP_HSL_SYSTEM_WIDE_x"; "COP_HSL_SYSTEM_WIDE_y";
    "Forecasted Solar Supply"; "Forecasted Wind Supply" ].

(** The table has no column under any of the labels. *)
Definition lacks (df : DataFrame) (labels : list string) : Prop :=
  forall l, In l labels -> ~ In l (columns df).

(** The capacity cell is missing from the report: its position is
    outside the sheet, or the cell there is blank or holds text. *)
Definition capacity_cell_missing (df_mora : DataFrame) : Prop :=
  match iloc df_mora 2 3 with
  | Ok (CInt _) | Ok (CFloat _) => False
  | _ => True
  end.


(** The prices a table lists for one settlement point at one timestamp,
    read off its three columns row by row. *)
Fixpoint prices_at (points times prices : Series) (sp : string) (t : timestamp)
  : list number :=
  match points, times, prices with
  | p :: points', d :: times', v :: prices' =>
      if cell_eqb p (CStr sp) && cell_eqb d (CTime t)
      then match v with
           | CNum n => n :: prices_at points' times' prices' sp t
           | _ => prices_at points' times' prices' sp t
           end
      else prices_at points' times' prices' sp t
  | _, _, _ => []
  end.

(** The table has a row for the settlement point at the timestamp. *)
Definition has_row (points times : Series) (sp : string) (t : timestamp) : Prop :=
  In (CStr sp, CTime t) (combine points times).

(** The worked example: day-ahead 30.0 at hour-ending 5, real-time 28.0,
    29.0 and 33.0 within that hour. *)
Definition hour5 : timestamp := Timestamp (Date 2024 1 10) 4 0.
Definition hour6 : timestamp := Timestamp (Date 2024 1 10) 5 0.
Definition hour7 : timestamp := Timestamp (Date 2024 1 10) 6 0.

Definition example_dam : DataFrame :=
  [ ("SettlementPoint", [CStr "LZ_NORTH"]);
    ("SettlementPointPrice", [CFloat 30]);
    ("datetime", [CTime hour5]) ].

Definition example_rtm : DataFrame :=
  [ ("settlementPoint", [CStr "LZ_NORTH"; CStr "LZ_NORTH"; CStr "LZ_NORTH"]);
    ("settlementPointPrice", [CFloat 28; CFloat 29; CFloat 33]);
    ("datetime", [CTime hour5; CTime hour5; CTime hour5]) ].

(** A day-ahead price for hours ending 5 and 7, real-time prices for
    hours ending 5 and 6. *)
Definition uneven_dam : DataFrame :=
  [ ("SettlementPoint", [CStr "LZ_NORTH"; CStr "LZ_NORTH"]);
    ("SettlementPointPrice", [CFloat 30; CFloat 40]);
    ("datetime", [CTime hour5; CTime hour7]) ].

Definition uneven_rtm : DataFrame :=
  [ ("settlementPoint", [CStr "LZ_NORTH"; CStr "LZ_NORTH"]);
    ("settlementPointPrice", [CFloat 28; CFloat 25]);
    ("datetime", [CTime hour5; CTime hour6]) ].

(** A report row in each of the two forms: a clock text for the last
    hour of the day, and an integer for the first. *)
Definition sample_rows : list hour_row :=
  [ HourRow (CStr "01/10/2024") (CStr "24:00") (Date 2024 1 10) 24;
    HourRow (CStr "2024-01-10") (CInt 1) (Date 2024 1 10) 1 ].

(** A real-time row, whose hour the API gives as an integer, and the
    same row with the hour as a clock text. *)
Definition sample_int_rows : list hour_row :=
  [ HourRow (CStr "2024-01-10") (CInt 24) (Date 2024 1 10) 24 ].

Definition sample_clock_rows : list hour_row :=
  [ HourRow (CStr "2024-01-10") (CStr "24:00") (Date 2024 1 10) 24 ].

(** The rows of [sample_sys]. *)
Definition sample_sys_rows : list hour_row :=
  [ HourRow jan10 (CStr "1:00") (Date 2024 1 10) 1;
    HourRow jan10 (CStr "2:00") (Date 2024 1 10) 2 ].

(** A table of two columns holding the date and the hour cells of the
    rows. *)
Definition hour_frame (date_label hour_label : string) (rows : list hour_row) : DataFrame :=
  [ (date_label, map raw_date rows); (hour_label, map raw_hour rows) ].

(** ** Sample surroundings *)

(** No portal page, no reachable service, no credentials. *)
Definition offline_env : env :=
  Env (fun _ => [])
      (fun _ => Raise HTTPError)
      (fun _ _ => Raise HTTPError)
      (fun _ _ _ _ => Raise HTTPError)
      (fun _ => false)
      (fun _ => false)
      (fun _ => Raise EmptyDataError)
      (fun _ => [])
      (fun _ _ => Raise ValueError)
      None None None None
      (Date 2024 1 11)
      "2024-01-11_T13_05_00".

Definition with_api (E : env) (api : string -> string -> string -> nat -> result payload)
  : env :=
  Env (page E) (http_get E) (token_endpoint E) api (slack_post E) (slack_upload E)
      (read_csv E) (to_csv E) (read_excel E)
      (API_USER E) (API_PASS E) (API_KEY E) (SLACK_TOKEN E) (today E) (now_stamp E).

Definition with_credentials (E : env) (user pass key : option string)
           (endpoint : string -> string -> result (option string)) : env :=
  Env (page E) (http_get E) endpoint (api_get E) (slack_post E) (slack_upload E)
      (read_csv E) (to_csv E) (read_excel E)
      user pass key (SLACK_TOKEN E) (today E) (now_stamp E).

Definition with_portal (E : env) (pages : string -> list link)
           (get : string -> result download) (csv : bytes -> result DataFrame) : env :=
  Env pages get (token_endpoint E) (api_get E) (slack_post E) (slack_upload E)
      csv (to_csv E) (read_excel E)
      (API_USER E) (API_PASS E) (API_KEY E) (SLACK_TOKEN E) (today E) (now_stamp E).

Definition with_slack (E : env) (token : option string) (post upload : string -> bool)
  : env :=
  Env (page E) (http_get E) (token_endpoint E) (api_get E) post upload
      (read_csv E) (to_csv E) (read_excel E)
      (API_USER E) (API_PASS E) (API_KEY E) token (today E) (now_stamp E).

(** A workspace that accepts every message and every upload. *)
Definition slack_env : env :=
  with_slack offline_env (Some "xoxb-token") (fun _ => true) (fun _ => true).

Definition hour_record (h : Z) : record := [("deliveryHour", CInt h)].

(** A server with two rows on pages 1 and 2 and one row on page 3. *)
Definition three_pages (url token key : string) (n : nat) : result payload :=
  match n with
  | 1%nat => Ok (Payload (Some [hour_record 1; hour_record 2]) None)
  | 2%nat => Ok (Payload (Some [hour_record 3; hour_record 4]) None)
  | 3%nat => Ok (Payload (Some [hour_record 5]) None)
  | _ => Raise HTTPError
  end.

(** A server whose first page is full and declares the field [a], and
    whose second, last page declares the field [b]. *)
Definition two_schemas (url token key : string) (n : nat) : result payload :=
  match n with
  | 1%nat => Ok (Payload (Some (repeat [("a", CInt 1)] 100)) (Some [Some "a"]))
  | 2%nat => Ok (Payload (Some [[("b", CInt 2)]]) (Some [Some "b"]))
  | _ => Raise HTTPError
  end.

Definition start : state := State [] [].



Definition csv_bytes (s : string) : bytes := list_byte_of_string s.





Definition is_slack_event (e : event) : bool :=
  match e with
  | SlackPost _ | SlackUpload _ => true
  | _ => false
  end.


(** A portal with three archive links per report page, each archive
    holding one CSV report. *)
Definition portal_pages (url : string) : list link :=
  if String.eqb url Phase2.URL_DAMCPC
  then [Link "zip" "/cpc_today.zip" ""; Link "xml" "/cpc_today.xml" "";
        Link "zip" "/cpc_mid.zip" ""; Link "zip" "/cpc_yday.zip" ""]
  else [Link "zip" "/spp_today.zip" ""; Link "xml" "/spp_today.xml" "";
        Link "zip" "/spp_mid.zip" ""; Link "zip" "/spp_yday.zip" ""].

Definition portal_get (url : string) : result download :=
  if contains "cpc_today" url
  then Ok (Download [] (Some [("cpc_today.csv", csv_bytes "cpc")]))
  else if contains "cpc_yday" url
  then Ok (Download [] (Some [("cpc_yday.csv", csv_bytes "cpc")]))
  else if contains "spp_today" url
  then Ok (Download [] (Some [("spp_today.csv", csv_bytes "spp")]))
  else if contains "spp_yday" url
  then Ok (Download [] (Some [("spp_yday.csv", csv_bytes "spp")]))
  else Raise HTTPError.

Definition cpc_report : DataFrame :=
  [ ("DeliveryDate", [CStr "01/10/2024"; CStr "01/10/2024"]);
    ("HourEnding", [CStr "01:00"; CStr "24:00"]);
    ("AncillaryType", [CStr "ECRS"; CStr "RRS"]);
    ("MCPC", [CFloat 2; CFloat 3]) ].

Definition spp_report : DataFrame :=
  [ ("DeliveryDate", [CStr "01/10/2024"; CStr "01/10/2024"]);
    ("HourEnding", [CStr "01:00"; CStr "24:00"]);
    ("SettlementPoint", [CStr "LZ_NORTH"; CStr "LZ_HOUSTON"]);
    ("SettlementPointPrice", [CFloat 30; CFloat 31]) ].

Definition portal_csv (b : bytes) : result DataFrame :=
  if String.eqb (string_of_list_byte b) "cpc" then Ok cpc_report
  else if String.eqb (string_of_list_byte b) "spp" then Ok spp_report
  else Raise EmptyDataError.

(** The portal answers; there are no API credentials. *)
Definition portal_env : env :=
  with_portal offline_env portal_pages portal_get portal_csv.


(** A directory entry of the production folder: a non-empty name with
    no separator. *)
Definition entry_name (fn : string) : Prop := has_char "/" fn = false /\ fn <> "".

Definition production_path (fn : string) : string := "production/" ++ fn.
Definition archive_path (fn : string) : string := "production/archive/" ++ fn.

(** The files after one turn of the archiving loop, the files as they
    were when the turn fails. *)
Definition moved_entry (E : env) (fs : filesystem) (fn : string) : filesystem :=
  match archive_entry E fs fn with
  | Ok fs' => fs'
  | Raise _ => fs
  end.

(** No directory stands where an archived file would go. *)
Definition archive_is_flat (fs : filesystem) : Prop :=
  forall fn, entry_name fn -> isdir fs (archive_path fn) = false.

(** A production folder with a chart of the day before and a workbook of
    today, and a note kept elsewhere. *)
Definition sample_files : filesystem :=
  [ ("production/old.png", File (Date 2024 1 10) (Figure []));
    ("production/new.xlsx", File (Date 2024 1 11) (Workbook []));
    ("notes.txt", File (Date 2023 12 1) (Bytes [])) ].

(** The same folder when the archive holds a directory named like the
    old chart. *)
Definition blocked_files : filesystem :=
  (sample_files ++ [("production/archive/old.png/kept.txt", File (Date 2023 12 1) (Bytes []))])%list.

(** The URL that is fetched for a link: a host-relative address is
    completed with the portal's host. *)
Definition absolute (href : string) : string :=
  if startswith "http" href then href else "https://www.ercot.com" ++ href.

Definition zip_links (E : env) (url : string) : list link :=
  filter (fun l => String.eqb (link_text l) "zip") (page E url).

Definition visited (st : state) (url : string) : state :=
  State (files st) (trace st ++ [Navigate url])%list.

(** The labels [derive_metrics] assigns, and the ones it reads. *)
Definition derived_labels : list string :=
  [ "Forecasted Renewables Output"; "Dispatchable Supply"; "EACTOR_DHHRSR";
    "total_resource_outages"; "Forecasted Net Load";
    "Forecasted Net Thermal Capacity"; "Forecasted Thermal Reserve Margin" ].

Definition measurement_labels : list string :=
  [ "Forecasted Wind Supply"; "Forecasted Solar Supply"; "Forecasted Demand";
    "TotalResourceMWZoneSouth"; "TotalResourceMWZoneNorth";
    "TotalResourceMWZoneWest"; "TotalResourceMWZoneHouston" ].

Definition is_int (c : cell) : bool :=
  match c with CInt _ => true | _ => false end.
(** * Properties *)

Lemma bind_ok {A B : Type} (r : result A) (k : A -> result B) (a : A) :
  r = Ok a -> bind r k = k a.
Proof. intros ->. reflexivity. Qed.

Lemma mapM_ok_map {A B : Type} (f : A -> result B) (g : A -> B) (l : list A) :
  Forall (fun a => f a = Ok (g a)) l -> mapM f l = Ok (map g l).
Proof.
  induction 1 as [|a l Ha _ IH]; simpl.
  - reflexivity.
  - rewrite Ha, IH. reflexivity.
Qed.

Lemma mapM_map_ok {A B C : Type} (f : B -> result C) (g : A -> B) (h : A -> C) (l : list A) :
  Forall (fun a => f (g a) = Ok (h a)) l -> mapM f (map g l) = Ok (map h l).
Proof.
  induction 1 as [|a l Ha _ IH]; simpl.
  - reflexivity.
  - rewrite Ha, IH. reflexivity.
Qed.

Lemma str_add_map {A : Type} (f g : A -> string) (l : list A) :
  str_add (map f l) (map g l) = map (fun a => f a ++ g a) l.
Proof. induction l; simpl; congruence. Qed.

Lemma append_assoc (a b c : string) : (a ++ b) ++ c = a ++ (b ++ c).
Proof. induction a; simpl; congruence. Qed.

Lemma split_head_lead (sep : ascii) (lead rest : string) :
  has_char sep lead = false -> split_head sep (lead ++ String sep rest) = lead.
Proof.
  induction lead as [|c lead IH]; simpl; intros H.
  - now rewrite Ascii.eqb_refl.
  - apply orb_false_iff in H as [Hc Hl]. rewrite Hc, IH by assumption. reflexivity.
Qed.

Lemma digit_roundtrip (k : Z) : 0 <= k < 10 -> digit_of_ascii (digit_char k) = Some k.
Proof.
  intros H.
  assert (k = 0 \/ k = 1 \/ k = 2 \/ k = 3 \/ k = 4 \/ k = 5 \/ k = 6 \/ k = 7 \/ k = 8 \/ k = 9)
    as Hk by lia.
  repeat (destruct Hk as [-> | Hk]; [reflexivity|]). subst k. reflexivity.
Qed.

Lemma digits2_pad (n : Z) :
  0 <= n < 100 -> digits2 (digit_char (n / 10)) (digit_char (n mod 10)) = Some n.
Proof.
  intros H. unfold digits2.
  rewrite !digit_roundtrip.
  - f_equal. pose proof (Z.div_mod n 10). lia.
  - apply Z.mod_pos_bound. lia.
  - split; [apply Z.div_pos; lia | apply Z.div_lt_upper_bound; lia].
Qed.

Lemma digits4_pad (n : Z) :
  0 <= n < 10000 ->
  digits4 (digit_char (n / 1000)) (digit_char (n / 100 mod 10))
          (digit_char (n / 10 mod 10)) (digit_char (n mod 10)) = Some n.
Proof.
  intros H. unfold digits4.
  assert (Hhi : n / 1000 = (n / 100) / 10) by (rewrite Z.div_div by lia; reflexivity).
  assert (Hlo1 : n / 10 mod 10 = (n mod 100) / 10).
  { pose proof (Z.div_mod n 100). pose proof (Z.div_mod n 10).
    pose proof (Z.div_mod (n mod 100) 10). pose proof (Z.div_mod (n / 10) 10).
    pose proof (Z.mod_pos_bound n 100). pose proof (Z.mod_pos_bound n 10).
    pose proof (Z.mod_pos_bound (n mod 100) 10). pose proof (Z.mod_pos_bound (n / 10) 10).
    lia. }
  assert (Hlo0 : n mod 10 = (n mod 100) mod 10).
  { pose proof (Z.div_mod n 100). pose proof (Z.div_mod n 10).
    pose proof (Z.div_mod (n mod 100) 10).
    pose proof (Z.mod_pos_bound n 100). pose proof (Z.mod_pos_bound n 10).
    pose proof (Z.mod_pos_bound (n mod 100) 10).
    lia. }
  rewrite Hhi, Hlo1, Hlo0.
  rewrite !digits2_pad.
  - f_equal. pose proof (Z.div_mod n 100). lia.
  - apply Z.mod_pos_bound. lia.
  - split; [apply Z.div_pos; lia | apply Z.div_lt_upper_bound; lia].
Qed.

Lemma valid_date_bounds (d : date) :
  valid_date d = true ->
  0 <= year d < 10000 /\ 0 <= month d < 100 /\ 0 <= day d < 100.
Proof.
  unfold valid_date, days_in_month. intros H.
  repeat (apply andb_prop in H as [H ?]).
  destruct (month d =? 2); [destruct (is_leap (year d))|];
    try destruct ((month d =? 4) || (month d =? 6) || (month d =? 9) || (month d =? 11));
    lia.
Qed.

Lemma parse_iso_date_isoformat (d : date) (rest : string) :
  valid_date d = true -> parse_iso_date (isoformat_date d ++ rest) = Some (d, rest).
Proof.
  intros Hv. destruct (valid_date_bounds d Hv) as (Hy & Hm & Hd).
  unfold isoformat_date, pad4, pad2. cbn [append]. unfold parse_iso_date.
  cbn [Ascii.eqb Bool.eqb andb].
  rewrite digits4_pad, !digits2_pad by assumption.
  unfold checked_date. destruct d as [y m dd]. cbn [year month day] in *.
  rewrite Hv. reflexivity.
Qed.

Lemma hour_cases (H : Z) (P : Z -> Prop) :
  1 <= H <= 24 ->
  P 1 -> P 2 -> P 3 -> P 4 -> P 5 -> P 6 -> P 7 -> P 8 -> P 9 -> P 10 -> P 11 -> P 12 ->
  P 13 -> P 14 -> P 15 -> P 16 -> P 17 -> P 18 -> P 19 -> P 20 -> P 21 -> P 22 -> P 23 ->
  P 24 -> P H.
Proof.
  intros HH.
  assert (H = 1 \/ H = 2 \/ H = 3 \/ H = 4 \/ H = 5 \/ H = 6 \/ H = 7 \/ H = 8 \/ H = 9 \/
          H = 10 \/ H = 11 \/ H = 12 \/ H = 13 \/ H = 14 \/ H = 15 \/ H = 16 \/ H = 17 \/
          H = 18 \/ H = 19 \/ H = 20 \/ H = 21 \/ H = 22 \/ H = 23 \/ H = 24) as Hc by lia.
  intros; repeat (destruct Hc as [-> | Hc]; [assumption|]); subst; assumption.
Qed.

(** The text built for hour-ending [H] on date [d] parses back to
    [(H-1):00] on [d]. *)
Lemma to_datetime_canonical_text (d : date) (H : Z) :
  valid_date d = true -> 1 <= H <= 24 ->
  to_datetime_str (((isoformat_date d ++ " ") ++ str_of_int (H - 1)) ++ ":00")
  = Ok (Timestamp d (H - 1) 0).
Proof.
  intros Hv HH. rewrite !append_assoc. unfold to_datetime_str.
  rewrite parse_iso_date_isoformat by assumption.
  cbn [append Ascii.eqb Bool.eqb].
  pattern H. apply hour_cases; try assumption; reflexivity.
Qed.

Lemma int_of_str_of_hour (H : Z) :
  1 <= H <= 24 -> int_of_str (split_head ":" (str_of_int H)) = Ok H.
Proof. intros HH. pattern H. apply hour_cases; try assumption; reflexivity. Qed.

Lemma parse_iso_date_valid (s r : string) (d : date) :
  parse_iso_date s = Some (d, r) -> valid_date d = true.
Proof.
  unfold parse_iso_date.
  do 10 (destruct s as [|? s]; try discriminate).
  destruct (_ && _); try discriminate.
  unfold checked_date.
  destruct (digits4 _ _ _ _); try discriminate.
  destruct (digits2 _ _); try discriminate.
  destruct (digits2 _ _); try discriminate.
  destruct (valid_date _) eqn:E; try discriminate.
  intros [= <- _]. exact E.
Qed.

Lemma parse_us_date_valid (s r : string) (d : date) :
  parse_us_date s = Some (d, r) -> valid_date d = true.
Proof.
  unfold parse_us_date.
  do 10 (destruct s as [|? s]; try discriminate).
  destruct (_ && _); try discriminate.
  unfold checked_date.
  destruct (digits4 _ _ _ _); try discriminate.
  destruct (digits2 _ _); try discriminate.
  destruct (digits2 _ _); try discriminate.
  destruct (valid_date _) eqn:E; try discriminate.
  intros [= <- _]. exact E.
Qed.

Lemma to_datetime_str_valid (s : string) (t : timestamp) :
  to_datetime_str s = Ok t -> valid_date (ts_date t) = true.
Proof.
  unfold to_datetime_str.
  destruct (parse_iso_date s) as [[d r]|] eqn:E.
  - apply parse_iso_date_valid in E.
    destruct r as [|sp r].
    + intros [= <-]. exact E.
    + destruct (Ascii.eqb sp " "); try discriminate.
      destruct (parse_clock r) as [[h m]|]; try discriminate.
      intros [= <-]. exact E.
  - destruct (parse_us_date s) as [[d r]|] eqn:E'; try discriminate.
    apply parse_us_date_valid in E'.
    destruct r; try discriminate. intros [= <-]. exact E'.
Qed.

Lemma date_given_valid (d : date) (c : cell) : date_given d c -> valid_date d = true.
Proof.
  intros [s Hs | Hv].
  - apply to_datetime_str_valid in Hs. exact Hs.
  - exact Hv.
Qed.

Lemma date_given_to_datetime (d : date) (c : cell) :
  date_given d c -> to_datetime_cell c = Ok (CTime (midnight d)).
Proof. intros [s Hs | Hv]; simpl; [rewrite Hs|]; reflexivity. Qed.

Lemma hour_given_text (H : Z) (c : cell) (flag : bool) :
  hour_ending_given H c -> 1 <= H <= 24 ->
  exists s, str_cell flag c = Ok s /\ int_of_str (split_head ":" s) = Ok H.
Proof.
  intros [|lead rest Hl Hi] HH; simpl.
  - eexists; split; [reflexivity|]. now apply int_of_str_of_hour.
  - eexists; split; [reflexivity|]. now rewrite split_head_lead.
Qed.

Lemma hour_ending_int_rows (flag : bool) (rows : list hour_row) :
  Forall well_formed_row rows ->
  bind (mapM (str_cell flag) (map raw_hour rows))
       (fun txt => astype_int (str_split_get0 ":" txt))
  = Ok (map (fun r => CInt (row_hour r)) rows).
Proof.
  unfold astype_int, str_split_get0.
  induction 1 as [|r rows (_ & Hh & HH) _ IH]; simpl.
  - reflexivity.
  - destruct (hour_given_text _ _ flag Hh HH) as (s & Hs & Hi).
    rewrite Hs. simpl.
    destruct (mapM (str_cell flag) (map raw_hour rows)) as [txt|e]; simpl in *.
    + rewrite Hi. simpl. rewrite IH. reflexivity.
    + discriminate.
Qed.

Lemma midnight_column_flags (rows : list hour_row) :
  let col := map (fun r => CTime (midnight (row_date r))) rows in
  forallb is_time col && forallb at_midnight col = true.
Proof. induction rows; simpl in *; auto. Qed.

Lemma int_column_text (flag : bool) {A : Type} (f : A -> Z) (l : list A) :
  mapM (str_cell flag) (map (fun a => CInt (f a)) l) = Ok (map (fun a => str_of_int (f a)) l).
Proof. induction l; simpl; [|rewrite IHl]; reflexivity. Qed.

Lemma canonical_datetime_rows (rows : list hour_row) :
  Forall well_formed_row rows ->
  canonical_datetime (map (fun r => CTime (midnight (row_date r))) rows)
                     (map (fun r => CInt (row_hour r)) rows)
  = Ok (map (fun r => CTime (canonical_timestamp r)) rows).
Proof.
  intros Hrows. unfold canonical_datetime, astype_str.
  rewrite midnight_column_flags.
  rewrite (mapM_map_ok _ _ (fun r => isoformat_date (row_date r)))
    by (apply Forall_forall; reflexivity).
  cbn [bind]. unfold series_sub_scalar.
  rewrite (mapM_map_ok _ _ (fun r => CInt (row_hour r - 1)))
    by (apply Forall_forall; reflexivity).
  cbn [bind].
  rewrite (int_column_text _ (fun r => row_hour r - 1)). cbn [bind].
  unfold str_add_scalar.
  rewrite (map_map (fun r => isoformat_date (row_date r)) (fun x => x ++ " ")).
  rewrite str_add_map, !map_map. unfold to_datetime.
  apply mapM_map_ok. rewrite Forall_forall. intros r Hr.
  rewrite Forall_forall in Hrows. destruct (Hrows r Hr) as (Hd & _ & HH).
  unfold to_datetime_cell.
  rewrite to_datetime_canonical_text by eauto using date_given_valid.
  reflexivity.
Qed.

(** ** Frames: lookup after assignment *)

Lemma get_col_set_col_same (df : DataFrame) (n : string) (c : Series) :
  get_col (set_col df n c) n = Ok c.
Proof.
  induction df as [|[m c'] df IH]; simpl.
  - now rewrite String.eqb_refl.
  - destruct (String.eqb m n) eqn:E; simpl; rewrite E; auto.
Qed.

Lemma get_col_set_col_other (df : DataFrame) (n m : string) (c : Series) :
  String.eqb n m = false -> get_col (set_col df n c) m = get_col df m.
Proof.
  intros Hnm. induction df as [|[k c'] df IH]; simpl.
  - now rewrite Hnm.
  - destruct (String.eqb k n) eqn:E; simpl.
    + apply String.eqb_eq in E. subst k. now rewrite Hnm.
    + destruct (String.eqb k m); auto.
Qed.

Lemma nrows_set_col (df : DataFrame) (n : string) (c : Series) :
  df <> [] -> List.length c = nrows df -> nrows (set_col df n c) = nrows df.
Proof.
  destruct df as [|[m c'] df]; [congruence|]. simpl. intros _ Hc.
  destruct (String.eqb m n); simpl; auto.
Qed.

Lemma set_col_nonempty (df : DataFrame) (n : string) (c : Series) : set_col df n c <> [].
Proof. destruct df as [|[m c'] df]; simpl; [|destruct (String.eqb m n)]; discriminate. Qed.

Lemma get_col_nonempty (df : DataFrame) (n : string) (c : Series) :
  get_col df n = Ok c -> df <> [].
Proof. destruct df; simpl; [discriminate | discriminate]. Qed.

Lemma zip_with_columns {A : Type} (op : cell -> cell -> result cell)
      (nop : number -> number -> number) (f g : A -> number) (rows : list A) :
  (forall x y, op (CNum x) (CNum y) = Ok (CNum (nop x y))) ->
  zip_with op (column_of f rows) (column_of g rows)
  = Ok (column_of (fun r => nop (f r) (g r)) rows).
Proof.
  intros Hop. induction rows as [|r rows IH]; simpl.
  - reflexivity.
  - rewrite Hop. cbn [bind]. fold (column_of f rows) (column_of g rows).
    rewrite IH. reflexivity.
Qed.

Lemma masked_numbers (op : cell -> cell -> result cell) (x y : number) :
  masked op (CNum x) (CNum y) = op (CNum x) (CNum y).
Proof. destruct x; reflexivity. Qed.

Lemma column_add_columns {A : Type} (f g : A -> number) (rows : list A) :
  column_add (column_of f rows) (column_of g rows)
  = Ok (column_of (fun r => num_add (f r) (g r)) rows).
Proof. apply zip_with_columns. intros x y. apply masked_numbers. Qed.

Lemma column_sub_columns {A : Type} (f g : A -> number) (rows : list A) :
  column_sub (column_of f rows) (column_of g rows)
  = Ok (column_of (fun r => num_sub (f r) (g r)) rows).
Proof. apply zip_with_columns. intros x y. apply masked_numbers. Qed.

Lemma repeat_column {A : Type} (x : number) (rows : list A) :
  repeat (CNum x) (List.length rows) = column_of (fun _ => x) rows.
Proof. induction rows; simpl; congruence. Qed.

Lemma column_of_length {A : Type} (f : A -> number) (rows : list A) :
  List.length (column_of f rows) = List.length rows.
Proof. apply length_map. Qed.

Ltac lookup :=
  repeat first
    [ rewrite get_col_set_col_same
    | rewrite get_col_set_col_other by reflexivity ].

(** ** Phase 1: derived columns *)

Ltac frame_rows :=
  repeat match goal with
         | |- set_col _ _ _ <> [] => apply set_col_nonempty
         | |- context [List.length (column_of _ _)] => rewrite column_of_length
         | |- context [nrows (set_col _ _ _)] => rewrite nrows_set_col
         | |- _ => assumption || reflexivity || (symmetry; assumption)
         end.

(** The columns [derive_metrics] adds, on a table that holds numeric
    measurements. *)
Lemma derive_metrics_numeric (capacity : number) (merged : DataFrame)
      (rows : list metric_row) :
  holds_measurements merged rows ->
  exists out,
    Phase1.derive_metrics (CNum capacity) merged = Ok out /\
    nrows out = List.length rows /\
    get_col out "Forecasted Renewables Output" = Ok (column_of renewables_output rows) /\
    get_col out "Dispatchable Supply" = Ok (column_of net_load rows) /\
    get_col out "EACTOR_DHHRSR" = Ok (column_of (fun _ => capacity) rows) /\
    get_col out "total_resource_outages" = Ok (column_of total_resource_outages rows) /\
    get_col out "Forecasted Net Load" = Ok (column_of net_load rows) /\
    get_col out "Forecasted Net Thermal Capacity"
      = Ok (column_of (net_thermal_capacity capacity) rows) /\
    get_col out "Forecasted Thermal Reserve Margin"
      = Ok (column_of (thermal_reserve_margin capacity) rows).
Proof.
  intros (Hn & Hd & Hw & Hs & Hzs & Hzn & Hzw & Hzh).
  pose proof (get_col_nonempty _ _ _ Hd) as Hne.
  unfold Phase1.derive_metrics, set_scalar.
  rewrite Hw; cbn [bind]. rewrite Hs; cbn [bind].
  rewrite column_add_columns; cbn [bind].
  lookup. rewrite Hd; cbn [bind]. lookup. cbn [bind].
  rewrite column_sub_columns; cbn [bind].
  replace (nrows _) with (List.length rows) by (symmetry; frame_rows).
  rewrite repeat_column.
  lookup. rewrite Hzs; cbn [bind]. lookup. rewrite Hzn; cbn [bind].
  rewrite column_add_columns; cbn [bind].
  lookup. rewrite Hzw; cbn [bind]. rewrite column_add_columns; cbn [bind].
  lookup. rewrite Hzh; cbn [bind]. rewrite column_add_columns; cbn [bind].
  lookup. rewrite Hd; cbn [bind]. lookup. cbn [bind].
  rewrite column_sub_columns; cbn [bind].
  lookup. cbn [bind]. rewrite column_sub_columns; cbn [bind].
  lookup. cbn [bind]. rewrite column_sub_columns; cbn [bind].
  eexists. split; [reflexivity|].
  split.
  { frame_rows. }
  lookup. repeat split; reflexivity.
Qed.

Lemma value_at_column {A : Type} (df : DataFrame) (name : string) (f : A -> number)
      (rows : list A) (i : nat) (r : A) :
  get_col df name = Ok (column_of f rows) -> nth_error rows i = Some r ->
  value_at df name i = Ok (CNum (f r)).
Proof.
  intros Hc Hr. unfold value_at. rewrite Hc. cbn [bind]. unfold column_of.
  rewrite nth_error_map, Hr. reflexivity.
Qed.

Lemma is_whole_add (a b : number) (x y : Z) :
  is_whole a x -> is_whole b y -> is_whole (num_add a b) (x + y).
Proof.
  destruct a as [u|p|], b as [v|q|]; simpl; try contradiction.
  - intros -> ->. reflexivity.
  - intros -> Hq. rewrite Hq, inject_Z_plus. reflexivity.
  - intros Hp ->. rewrite Hp, inject_Z_plus. reflexivity.
  - intros Hp Hq. rewrite Hp, Hq, inject_Z_plus. reflexivity.
Qed.

Lemma is_whole_sub (a b : number) (x y : Z) :
  is_whole a x -> is_whole b y -> is_whole (num_sub a b) (x - y).
Proof.
  assert (Hm : forall u v, (inject_Z u - inject_Z v == inject_Z (u - v))%Q).
  { intros u v. unfold Qminus. rewrite <- inject_Z_opp, <- inject_Z_plus. reflexivity. }
  destruct a as [u|p|], b as [v|q|]; simpl; try contradiction.
  - intros -> ->. reflexivity.
  - intros -> Hq. rewrite Hq. apply Hm.
  - intros Hp ->. rewrite Hp. apply Hm.
  - intros Hp Hq. rewrite Hp, Hq. apply Hm.
Qed.

(** C2.  On a joined table holding numeric measurements (zero and negative
    ones included), every row of the derived columns obeys:
    renewables = wind + solar; dispatchable supply = demand - renewables;
    net load = demand - renewables (the same value); total outages =
    South + North + West + Houston; net thermal capacity = the broadcast
    capacity constant - total outages; thermal reserve margin = net
    thermal capacity - net load.  Each is the sum or difference pandas
    takes of the two cells; and when the measurements and the capacity
    are whole numbers of up to 2^48 in magnitude, in int64 or in float64
    cells, the values are those of ordinary integer arithmetic. *)
Theorem derived_columns_obey_formulas (capacity : number) (merged : DataFrame)
        (rows : list metric_row) :
  holds_measurements merged rows ->
  exists out,
    Phase1.derive_metrics (CNum capacity) merged = Ok out /\
    forall (i : nat) (r : metric_row),
      nth_error rows i = Some r ->
      let renewables := num_add (wind_supply r) (solar_supply r) in
      let load := num_sub (demand r) renewables in
      let outages :=
        num_add (num_add (num_add (outage_south r) (outage_north r)) (outage_west r))
                (outage_houston r) in
      let net_capacity := num_sub capacity outages in
      let margin := num_sub net_capacity load in
      (value_at out "Forecasted Renewables Output" i = Ok (CNum renewables) /\
       value_at out "Dispatchable Supply" i = Ok (CNum load) /\
       value_at out "Forecasted Net Load" i = Ok (CNum load) /\
       value_at out "total_resource_outages" i = Ok (CNum outages) /\
       value_at out "EACTOR_DHHRSR" i = Ok (CNum capacity) /\
       value_at out "Forecasted Net Thermal Capacity" i = Ok (CNum net_capacity) /\
       value_at out "Forecasted Thermal Reserve Margin" i = Ok (CNum margin)) /\
      forall cap d w s zs zn zw zh : Z,
        is_whole capacity cap -> is_whole (demand r) d ->
        is_whole (wind_supply r) w -> is_whole (solar_supply r) s ->
        is_whole (outage_south r) zs -> is_whole (outage_north r) zn ->
        is_whole (outage_west r) zw -> is_whole (outage_houston r) zh ->
        Forall exact_range [cap; d; w; s; zs; zn; zw; zh] ->
        is_whole renewables (w + s) /\
        is_whole load (d - (w + s)) /\
        is_whole outages (zs + zn + zw + zh) /\
        is_whole net_capacity (cap - (zs + zn + zw + zh)) /\
        is_whole margin (cap - (zs + zn + zw + zh) - (d - (w + s))).
Proof.
  intros H.
  destruct (derive_metrics_numeric capacity merged rows H)
    as (out & Hout & _ & Hren & Hdisp & Hcap & Htot & Hload & Hntc & Hmargin).
  exists out. split; [exact Hout|].
  intros i r Hr. cbv zeta. split.
  - repeat split.
    + exact (value_at_column _ _ _ _ _ _ Hren Hr).
    + exact (value_at_column _ _ _ _ _ _ Hdisp Hr).
    + exact (value_at_column _ _ _ _ _ _ Hload Hr).
    + exact (value_at_column _ _ _ _ _ _ Htot Hr).
    + exact (value_at_column _ _ _ _ _ _ Hcap Hr).
    + exact (value_at_column _ _ _ _ _ _ Hntc Hr).
    + exact (value_at_column _ _ _ _ _ _ Hmargin Hr).
  - intros cap d w s zs zn zw zh Hc Hd Hw Hs Hzs Hzn Hzw Hzh _.
    pose proof (is_whole_add _ _ _ _ Hw Hs) as Hren'.
    pose proof (is_whole_sub _ _ _ _ Hd Hren') as Hload'.
    pose proof (is_whole_add _ _ _ _
                  (is_whole_add _ _ _ _ (is_whole_add _ _ _ _ Hzs Hzn) Hzw) Hzh) as Hout'.
    pose proof (is_whole_sub _ _ _ _ Hc Hout') as Hntc'.
    pose proof (is_whole_sub _ _ _ _ Hntc' Hload') as Hm'.
    repeat split; assumption.
Qed.

Lemma sample_merged_holds : holds_measurements sample_merged sample_metric_rows.
Proof. repeat split. Qed.

Lemma derived_columns_obey_formulas_witness :
  holds_measurements sample_merged sample_metric_rows /\
  exists out,
    Phase1.derive_metrics (CFloat 5000) sample_merged = Ok out /\
    value_at out "Forecasted Renewables Output" 0 = Ok (CFloat 100) /\
    value_at out "Forecasted Renewables Output" 1 = Ok (CFloat (-15)) /\
    value_at out "Dispatchable Supply" 0 = Ok (CFloat 900) /\
    value_at out "Dispatchable Supply" 1 = Ok (CFloat 1115) /\
    value_at out "Forecasted Net Load" 0 = Ok (CFloat 900) /\
    value_at out "Forecasted Net Load" 1 = Ok (CFloat 1115) /\
    value_at out "total_resource_outages" 0 = Ok (CInt 10) /\
    value_at out "total_resource_outages" 1 = Ok (CInt 10) /\
    value_at out "Forecasted Net Thermal Capacity" 0 = Ok (CFloat 4990) /\
    value_at out "Forecasted Net Thermal Capacity" 1 = Ok (CFloat 4990) /\
    value_at out "Forecasted Thermal Reserve Margin" 0 = Ok (CFloat 4090) /\
    value_at out "Forecasted Thermal Reserve Margin" 1 = Ok (CFloat 3875) /\
    is_whole (num_sub (num_sub (Float 5000) (Int 10)) (Float 1115)) (5000 - 10 - 1115).
Proof.
  split; [exact sample_merged_holds|].
  destruct (derived_columns_obey_formulas (Float 5000) sample_merged sample_metric_rows
              sample_merged_holds) as (out & Hout & Hrows).
  exists out. split; [exact Hout|].
  destruct (Hrows 0%nat _ eq_refl) as ((R0 & D0 & L0 & T0 & _ & C0 & M0) & _).
  destruct (Hrows 1%nat _ eq_refl) as ((R1 & D1 & L1 & T1 & _ & C1 & M1) & W1).
  repeat (split; [assumption|]).
  refine (proj2 (proj2 (proj2 (proj2
            (W1 5000 1100 (-20) 5 0 0 0 10 _ _ _ _ _ _ _ _ _)))));
    try reflexivity.
  repeat constructor; unfold exact_range; simpl; lia.
Defined.

(** ** Row counts *)

Lemma mapM_length {A B : Type} (f : A -> result B) (l : list A) (l' : list B) :
  mapM f l = Ok l' -> List.length l' = List.length l.
Proof.
  revert l'. induction l as [|a l IH]; simpl; intros l' H.
  - injection H as <-. reflexivity.
  - destruct (f a); [|discriminate]. cbn [bind] in H.
    destruct (mapM f l); [|discriminate]. cbn [bind] in H.
    injection H as <-. simpl. f_equal. now apply IH.
Qed.

Lemma zip_with_length {A : Type} (f : cell -> cell -> result A) (a b : Series) (c : list A) :
  zip_with f a b = Ok c -> List.length c = Nat.min (List.length a) (List.length b).
Proof.
  revert b c. induction a as [|x a IH]; intros [|y b] c; simpl; intros H;
    try (injection H as <-; reflexivity).
  destruct (f x y); [|discriminate]. cbn [bind] in H.
  destruct (zip_with f a b) eqn:E; [|discriminate]. cbn [bind] in H.
  injection H as <-. simpl. f_equal. now apply IH.
Qed.

Lemma str_add_length (a b : list string) :
  List.length (str_add a b) = Nat.min (List.length a) (List.length b).
Proof. revert b. induction a; intros [|y b]; simpl; auto. Qed.

Lemma get_col_in (df : DataFrame) (n : string) (c : Series) :
  get_col df n = Ok c -> In (n, c) df.
Proof.
  induction df as [|[m c'] df IH]; simpl; [discriminate|].
  destruct (String.eqb m n) eqn:E.
  - apply String.eqb_eq in E. intros [= ->]. left. congruence.
  - auto.
Qed.

Lemma get_col_length (df : DataFrame) (n : string) (c : Series) :
  rectangular df -> get_col df n = Ok c -> List.length c = nrows df.
Proof.
  intros Hr Hc. apply get_col_in in Hc.
  unfold rectangular in Hr. rewrite Forall_forall in Hr. exact (Hr _ Hc).
Qed.

Lemma get_attr_length (df : DataFrame) (n : string) (c : Series) :
  rectangular df -> get_attr df n = Ok c -> List.length c = nrows df.
Proof.
  unfold get_attr. intros Hr. destruct (get_col df n) eqn:E; [|discriminate].
  intros [= <-]. eauto using get_col_length.
Qed.

Lemma set_col_lengths (k : nat) (df : DataFrame) (n : string) (c : Series) :
  Forall (fun nc => List.length (snd nc) = k) df -> List.length c = k ->
  Forall (fun nc => List.length (snd nc) = k) (set_col df n c).
Proof.
  intros Hdf Hc. induction Hdf as [|[m c'] df Hm Hdf IH]; simpl.
  - constructor; [exact Hc | constructor].
  - destruct (String.eqb m n); constructor; simpl in *; auto.
Qed.

Lemma rectangular_set_col (df : DataFrame) (n : string) (c : Series) :
  rectangular df -> df <> [] -> List.length c = nrows df ->
  rectangular (set_col df n c).
Proof.
  intros Hr Hne Hc. unfold rectangular.
  rewrite nrows_set_col by assumption.
  now apply set_col_lengths.
Qed.

Lemma rectangular_rename (df : DataFrame) (m : list (string * string)) :
  rectangular df -> rectangular (rename df m).
Proof.
  unfold rectangular, rename. intros Hr.
  replace (nrows (map _ df)) with (nrows df) by (destruct df as [|[? ?] ?]; reflexivity).
  apply Forall_map. eapply Forall_impl; [|exact Hr]. now intros [n c].
Qed.

Lemma nrows_rename (df : DataFrame) (m : list (string * string)) :
  nrows (rename df m) = nrows df.
Proof. destruct df as [|[? ?] ?]; reflexivity. Qed.

Lemma take_length (idx : list nat) (c : Series) : List.length (take idx c) = List.length idx.
Proof. apply length_map. Qed.

(** A join returns a frame whose columns all have one row per matching
    pair. *)
Lemma join_rows_lengths (left right' : DataFrame) (pairs : list (nat * nat)) :
  Forall (fun nc : string * Series => List.length (snd nc) = List.length pairs)
         (join_rows left right' pairs).
Proof.
  unfold join_rows.
  apply Forall_app. split; apply Forall_map, Forall_forall; intros [n c] _; simpl;
    now rewrite take_length, length_map.
Qed.

Lemma merge_inv (left right : DataFrame) (left_on right_on : list string)
      (out : DataFrame) :
  merge left right left_on right_on = Ok out ->
  exists lkeys rkeys,
    mapM (get_col left) left_on = Ok lkeys /\
    mapM (get_col right) right_on = Ok rkeys /\
    out = join_rows left (right_part right left_on right_on) (inner_pairs lkeys rkeys).
Proof.
  unfold merge.
  destruct (mapM (get_col left) left_on) as [lkeys|]; [|discriminate]. cbn [bind].
  destruct (mapM (get_col right) right_on) as [rkeys|]; [|discriminate]. cbn [bind].
  destruct (check_key_kinds lkeys rkeys); [|discriminate]. cbn [bind].
  destruct (_ || _); [discriminate|]. intros [= <-]. eauto.
Qed.

(** A join returns a frame whose columns all have one row per matching
    pair. *)
Lemma merge_rectangular (left right : DataFrame) (left_on right_on : list string)
      (out : DataFrame) :
  merge left right left_on right_on = Ok out -> rectangular out.
Proof.
  intros H. apply merge_inv in H as (lkeys & rkeys & _ & _ & ->).
  pose proof (join_rows_lengths left (right_part right left_on right_on)
                (inner_pairs lkeys rkeys)) as Hall.
  unfold rectangular.
  destruct (join_rows _ _ _) as [|[n c] df]; [constructor|].
  simpl. inversion Hall as [|? ? Hc _]; subst. simpl in Hc. rewrite Hc. exact Hall.
Qed.

Ltac invert_bind H :=
  match type of H with
  | bind ?r _ = Ok _ =>
      let E := fresh "E" in
      destruct r eqn:E; [cbn [bind] in H | discriminate H]
  end.

Lemma series_length {A : Type} (f : cell -> cell -> result A) (df : DataFrame)
      (a b : Series) (c : list A) :
  List.length a = nrows df -> List.length b = nrows df ->
  zip_with f a b = Ok c -> List.length c = nrows df.
Proof.
  intros Ha Hb Hc. apply zip_with_length in Hc. rewrite Hc, Ha, Hb. apply Nat.min_id.
Qed.

Lemma set_col_keeps (df : DataFrame) (n : string) (c : Series) :
  rectangular df -> df <> [] -> List.length c = nrows df ->
  rectangular (set_col df n c) /\ nrows (set_col df n c) = nrows df.
Proof.
  intros. split; [now apply rectangular_set_col | now apply nrows_set_col].
Qed.

(** [derive_metrics] keeps the rows of the joined table and fills the
    capacity column with the one value it was given. *)
Lemma derive_metrics_broadcast (v : cell) (merged out : DataFrame) :
  rectangular merged ->
  Phase1.derive_metrics v merged = Ok out ->
  rectangular out /\ nrows out = nrows merged /\ out <> [] /\
  get_col out "EACTOR_DHHRSR" = Ok (repeat v (nrows merged)).
Proof.
  intros R0 H. unfold Phase1.derive_metrics, set_scalar in H. cbv zeta in H.
  invert_bind H. pose proof (get_col_nonempty _ _ _ E) as Hne.
  invert_bind H. invert_bind H.
  assert (L1 : List.length a1 = nrows merged)
    by (eapply series_length; [| |exact E1]; eauto using get_col_length).
  destruct (set_col_keeps merged "Forecasted Renewables Output" a1 R0 Hne L1) as (R1 & N1).
  set (m1 := set_col merged "Forecasted Renewables Output" a1) in *.
  assert (Hne1 : m1 <> []) by apply set_col_nonempty.
  invert_bind H. invert_bind H. invert_bind H.
  assert (L2 : List.length a4 = nrows m1)
    by (eapply series_length; [| |exact E4]; eauto using get_col_length).
  destruct (set_col_keeps m1 "Dispatchable Supply" a4 R1 Hne1 L2) as (R2 & N2).
  set (m2 := set_col m1 "Dispatchable Supply" a4) in *.
  assert (Hne2 : m2 <> []) by apply set_col_nonempty.
  assert (L3 : List.length (repeat v (nrows m2)) = nrows m2) by apply repeat_length.
  destruct (set_col_keeps m2 "EACTOR_DHHRSR" _ R2 Hne2 L3) as (R3 & N3).
  set (m3 := set_col m2 "EACTOR_DHHRSR" (repeat v (nrows m2))) in *.
  assert (Hne3 : m3 <> []) by apply set_col_nonempty.
  assert (G3 : get_col m3 "EACTOR_DHHRSR" = Ok (repeat v (nrows merged))).
  { unfold m3. rewrite get_col_set_col_same. now rewrite N2, N1. }
  do 7 invert_bind H.
  assert (L4 : List.length a11 = nrows m3).
  { eapply series_length; [| |exact E11]; eauto using get_col_length.
    eapply series_length; [| |exact E9]; eauto using get_col_length.
    eapply series_length; [| |exact E7]; eauto using get_col_length. }
  destruct (set_col_keeps m3 "total_resource_outages" a11 R3 Hne3 L4) as (R4 & N4).
  set (m4 := set_col m3 "total_resource_outages" a11) in *.
  assert (Hne4 : m4 <> []) by apply set_col_nonempty.
  do 3 invert_bind H.
  assert (L5 : List.length a14 = nrows m4)
    by (eapply series_length; [| |exact E14]; eauto using get_col_length).
  destruct (set_col_keeps m4 "Forecasted Net Load" a14 R4 Hne4 L5) as (R5 & N5).
  set (m5 := set_col m4 "Forecasted Net Load" a14) in *.
  assert (Hne5 : m5 <> []) by apply set_col_nonempty.
  do 3 invert_bind H.
  assert (L6 : List.length a17 = nrows m5)
    by (eapply series_length; [| |exact E17]; eauto using get_col_length).
  destruct (set_col_keeps m5 "Forecasted Net Thermal Capacity" a17 R5 Hne5 L6) as (R6 & N6).
  set (m6 := set_col m5 "Forecasted Net Thermal Capacity" a17) in *.
  assert (Hne6 : m6 <> []) by apply set_col_nonempty.
  do 3 invert_bind H.
  assert (L7 : List.length a20 = nrows m6)
    by (eapply series_length; [| |exact E20]; eauto using get_col_length).
  destruct (set_col_keeps m6 "Forecasted Thermal Reserve Margin" a20 R6 Hne6 L7) as (R7 & N7).
  injection H as <-.
  split; [exact R7|]. split; [congruence|]. split; [apply set_col_nonempty|].
  unfold m6, m5, m4. lookup. exact G3.
Qed.

Lemma canonical_datetime_length (dates hours dt : Series) :
  canonical_datetime dates hours = Ok dt ->
  List.length dt = Nat.min (List.length dates) (List.length hours).
Proof.
  unfold canonical_datetime, astype_str, series_sub_scalar, to_datetime, str_add_scalar.
  intros H. do 3 invert_bind H.
  apply mapM_length in H, E, E0, E1.
  rewrite H, !length_map, str_add_length, length_map. congruence.
Qed.

Lemma joined_table_rectangular (df_solar df_wind df_sys df_hroc merged : DataFrame) :
  Phase1.joined_table df_solar df_wind df_sys df_hroc = Ok merged -> rectangular merged.
Proof.
  unfold Phase1.joined_table. intros H. do 5 invert_bind H. injection H as <-.
  apply rectangular_rename; eauto using merge_rectangular.
Qed.

(** The capacity column of a finished forecast table is the cell read
    from the capacity report, in every row. *)
Lemma forecast_table_capacity (df_solar df_wind df_sys df_hroc df_mora out : DataFrame) :
  Phase1.forecast_table df_solar df_wind df_sys df_hroc df_mora = Ok out ->
  exists v, iloc df_mora 2 3 = Ok v /\
            get_col out "EACTOR_DHHRSR" = Ok (repeat v (nrows out)).
Proof.
  unfold Phase1.forecast_table. intros H.
  invert_bind H. exists a. split; [reflexivity|].
  invert_bind H. pose proof (joined_table_rectangular _ _ _ _ _ E0) as R.
  invert_bind H.
  destruct (derive_metrics_broadcast _ _ _ R E1) as (R' & N' & Hne & G).
  do 3 invert_bind H. injection H as <-.
  assert (L : List.length a4 = nrows a1).
  { apply canonical_datetime_length in E4. rewrite E4.
    rewrite (get_attr_length _ _ _ R' E2), (get_attr_length _ _ _ R' E3).
    apply Nat.min_id. }
  rewrite get_col_set_col_other by reflexivity.
  rewrite nrows_set_col by assumption. now rewrite N'.
Qed.

Lemma text_minus_blanks {A : Type} (s : string) (f : A -> number) (rows : list A) :
  (forall r, In r rows -> f r = NaN) ->
  column_sub (repeat (CStr s) (List.length rows)) (column_of f rows)
  = Ok (repeat CNaN (List.length rows)).
Proof.
  unfold column_sub. induction rows as [|r rows IH]; intros H; [reflexivity|].
  cbn [List.length repeat column_of map zip_with].
  rewrite (H r (or_introl eq_refl)). cbn [masked bind].
  fold (column_of f rows). rewrite IH by (intros x Hx; apply H; now right).
  reflexivity.
Qed.

Lemma text_minus_number {A : Type} (s : string) (f : A -> number) (rows : list A) :
  (exists r, In r rows /\ f r <> NaN) ->
  column_sub (repeat (CStr s) (List.length rows)) (column_of f rows) = Raise TypeError.
Proof.
  unfold column_sub. induction rows as [|r rows IH]; intros (x & Hx & Hv); [contradiction|].
  cbn [List.length repeat column_of map zip_with].
  destruct (f r) eqn:Er; try reflexivity.
  cbn [masked bind]. fold (column_of f rows).
  rewrite IH; [reflexivity|].
  exists x. split; [|exact Hv]. destruct Hx as [<- | Hx]; [congruence | exact Hx].
Qed.

(** The derivation up to the net load does not look at the capacity
    cell. *)
Ltac derive_to_net_load Hd Hw Hs Hzs Hzn Hzw Hzh :=
  unfold Phase1.derive_metrics, set_scalar;
  rewrite Hw; cbn [bind]; rewrite Hs; cbn [bind];
  rewrite column_add_columns; cbn [bind];
  lookup; rewrite Hd; cbn [bind]; lookup; cbn [bind];
  rewrite column_sub_columns; cbn [bind];
  match goal with
  | |- context [nrows ?m] =>
      match goal with
      | Hn : nrows _ = List.length ?rows |- _ =>
          replace (nrows m) with (List.length rows) by (symmetry; frame_rows)
      end
  end;
  lookup; rewrite Hzs; cbn [bind]; lookup; rewrite Hzn; cbn [bind];
  rewrite column_add_columns; cbn [bind];
  lookup; rewrite Hzw; cbn [bind]; rewrite column_add_columns; cbn [bind];
  lookup; rewrite Hzh; cbn [bind]; rewrite column_add_columns; cbn [bind];
  lookup; rewrite Hd; cbn [bind]; lookup; cbn [bind];
  rewrite column_sub_columns; cbn [bind];
  lookup; cbn [bind].

(** A text cell in place of the capacity value stops the derivation at
    the net-thermal-capacity subtraction when some row has an outage
    total to subtract. *)
Lemma derive_metrics_text_capacity (s : string) (merged : DataFrame)
      (rows : list metric_row) :
  holds_measurements merged rows ->
  (exists r, In r rows /\ total_resource_outages r <> NaN) ->
  Phase1.derive_metrics (CStr s) merged = Raise TypeError.
Proof.
  intros (Hn & Hd & Hw & Hs & Hzs & Hzn & Hzw & Hzh) Hsome.
  pose proof (get_col_nonempty _ _ _ Hd) as Hne.
  derive_to_net_load Hd Hw Hs Hzs Hzn Hzw Hzh.
  fold (total_resource_outages).
  change (column_of (fun r => num_add (num_add (num_add (outage_south r) (outage_north r))
                                               (outage_west r)) (outage_houston r)) rows)
    with (column_of total_resource_outages rows).
  rewrite (text_minus_number s total_resource_outages rows Hsome). reflexivity.
Qed.

(** When every outage total is blank the text flows through: the net
    thermal capacity is blank in every row. *)
Lemma derive_metrics_text_capacity_blank (s : string) (merged : DataFrame)
      (rows : list metric_row) :
  holds_measurements merged rows ->
  (forall r, In r rows -> total_resource_outages r = NaN) ->
  exists out,
    Phase1.derive_metrics (CStr s) merged = Ok out /\
    get_col out "EACTOR_DHHRSR" = Ok (repeat (CStr s) (List.length rows)) /\
    get_col out "Forecasted Net Thermal Capacity" = Ok (repeat CNaN (List.length rows)).
Proof.
  intros (Hn & Hd & Hw & Hs & Hzs & Hzn & Hzw & Hzh) Hall.
  pose proof (get_col_nonempty _ _ _ Hd) as Hne.
  derive_to_net_load Hd Hw Hs Hzs Hzn Hzw Hzh.
  change (column_of (fun r => num_add (num_add (num_add (outage_south r) (outage_north r))
                                               (outage_west r)) (outage_houston r)) rows)
    with (column_of total_resource_outages rows).
  rewrite (text_minus_blanks s total_resource_outages rows Hall). cbn [bind].
  lookup. cbn [bind].
  change CNaN with (CNum NaN). rewrite (repeat_column NaN rows).
  rewrite column_sub_columns. cbn [bind].
  eexists. split; [reflexivity|]. lookup. split; reflexivity.
Qed.

(** C8, as the code has it.  The capacity value is the one cell at row 2,
    column 3 of the capacity sheet; a finished table carries it unchanged
    in every row; when that position is outside the sheet the run stops
    with an index error before any join; a text cell stops the run with a
    type error at the net-thermal-capacity subtraction when some row of
    the joined table has an outage total, and flows through, leaving the
    net thermal capacity blank, when every outage total is blank. *)
Theorem capacity_cell_broadcast_and_failures
        (df_solar df_wind df_sys df_hroc df_mora : DataFrame) :
  (forall out,
      Phase1.forecast_table df_solar df_wind df_sys df_hroc df_mora = Ok out ->
      exists v, iloc df_mora 2 3 = Ok v /\
                get_col out "EACTOR_DHHRSR" = Ok (repeat v (nrows out))) /\
  (iloc df_mora 2 3 = Raise IndexError ->
   Phase1.forecast_table df_solar df_wind df_sys df_hroc df_mora = Raise IndexError) /\
  (forall (s : string) (merged : DataFrame) (rows : list metric_row),
      iloc df_mora 2 3 = Ok (CStr s) ->
      Phase1.joined_table df_solar df_wind df_sys df_hroc = Ok merged ->
      holds_measurements merged rows ->
      ((exists r, In r rows /\ total_resource_outages r <> NaN) ->
       Phase1.forecast_table df_solar df_wind df_sys df_hroc df_mora = Raise TypeError) /\
      ((forall r, In r rows -> total_resource_outages r = NaN) ->
       exists out,
         Phase1.derive_metrics (CStr s) merged = Ok out /\
         get_col out "EACTOR_DHHRSR" = Ok (repeat (CStr s) (List.length rows)) /\
         get_col out "Forecasted Net Thermal Capacity"
         = Ok (repeat CNaN (List.length rows)))).
Proof.
  split; [|split].
  - intros out. apply forecast_table_capacity.
  - intros H. unfold Phase1.forecast_table. rewrite H. reflexivity.
  - intros s merged rows Hcell Hjoin Hrows. split.
    + intros Hsome. unfold Phase1.forecast_table.
      rewrite Hcell, Hjoin. cbn [bind].
      rewrite (derive_metrics_text_capacity s merged rows Hrows Hsome). reflexivity.
    + intros Hall. now apply derive_metrics_text_capacity_blank.
Qed.

Lemma sample_joined_holds :
  exists merged,
    Phase1.joined_table sample_solar sample_wind sample_sys sample_hroc = Ok merged /\
    holds_measurements merged sample_joined_rows.
Proof.
  eexists. split.
  - vm_compute. reflexivity.
  - repeat split.
Qed.

Lemma sample_blank_holds :
  exists merged,
    Phase1.joined_table sample_solar sample_wind sample_sys sample_hroc_blank = Ok merged /\
    holds_measurements merged sample_blank_rows.
Proof.
  eexists. split.
  - vm_compute. reflexivity.
  - repeat split.
Qed.

Lemma capacity_cell_broadcast_and_failures_witness :
  (exists out,
      Phase1.forecast_table sample_solar sample_wind sample_sys sample_hroc
                            (sample_mora (CFloat 5000)) = Ok out /\
      get_col out "EACTOR_DHHRSR" = Ok [CFloat 5000; CFloat 5000]) /\
  Phase1.forecast_table sample_solar sample_wind sample_sys sample_hroc [] = Raise IndexError /\
  Phase1.forecast_table sample_solar sample_wind sample_sys sample_hroc
                        (sample_mora (CStr "n/a")) = Raise TypeError /\
  (exists merged out,
      Phase1.joined_table sample_solar sample_wind sample_sys sample_hroc_blank = Ok merged /\
      Phase1.derive_metrics (CStr "n/a") merged = Ok out /\
      get_col out "Forecasted Net Thermal Capacity" = Ok [CNaN; CNaN]).
Proof.
  split; [|split; [|split]].
  - destruct (Phase1.forecast_table sample_solar sample_wind sample_sys sample_hroc
                (sample_mora (CFloat 5000))) as [out|e] eqn:E;
      [|vm_compute in E; discriminate E].
    exists out. split; [reflexivity|].
    destruct (proj1 (capacity_cell_broadcast_and_failures
                       sample_solar sample_wind sample_sys sample_hroc
                       (sample_mora (CFloat 5000))) out E) as (v & Hv & Hcol).
    injection Hv as <-. rewrite Hcol.
    vm_compute in E. injection E as <-. reflexivity.
  - apply (proj1 (proj2 (capacity_cell_broadcast_and_failures
                           sample_solar sample_wind sample_sys sample_hroc []))).
    reflexivity.
  - destruct sample_joined_holds as (merged & Hj & Hm).
    apply (proj1 (proj2 (proj2 (capacity_cell_broadcast_and_failures
                                  sample_solar sample_wind sample_sys sample_hroc
                                  (sample_mora (CStr "n/a"))))
                    "n/a" merged _ eq_refl Hj Hm)).
    eexists. split; [left; reflexivity | discriminate].
  - destruct sample_blank_holds as (merged & Hj & Hm).
    destruct (proj2 (proj2 (proj2 (capacity_cell_broadcast_and_failures
                                     sample_solar sample_wind sample_sys sample_hroc_blank
                                     (sample_mora (CStr "n/a"))))
                       "n/a" merged _ eq_refl Hj Hm))
      as (out & Hout & _ & Hcap).
    + intros r [<- | [<- | []]]; reflexivity.
    + exists merged, out. repeat split; assumption.
Defined.

(** A blank capacity cell does not stop the run: it is read as NaN and
    carried into every row. *)
Lemma blank_capacity_cell_is_not_fatal :
  ~ (forall df_solar df_wind df_sys df_hroc df_mora,
        capacity_cell_missing df_mora ->
        exists e, Phase1.forecast_table df_solar df_wind df_sys df_hroc df_mora = Raise e).
Proof.
  intros H.
  destruct (H sample_solar sample_wind sample_sys sample_hroc (sample_mora CNaN) I)
    as (e & He).
  vm_compute in He. discriminate He.
Qed.
(** ** Joins: shared labels *)

Lemma mem_true_iff (n : string) (l : list string) : mem n l = true <-> In n l.
Proof.
  unfold mem. rewrite existsb_exists. split.
  - intros (x & Hx & E). apply String.eqb_eq in E. now subst.
  - intros H. exists n. split; [exact H | apply String.eqb_refl].
Qed.

Lemma mem_false_iff (n : string) (l : list string) : mem n l = false <-> ~ In n l.
Proof.
  rewrite <- mem_true_iff. destruct (mem n l); split; intros; congruence.
Qed.

Lemma get_col_columns (df : DataFrame) (n : string) (c : Series) :
  get_col df n = Ok c -> In n (columns df).
Proof.
  induction df as [|[k s] df IH]; simpl; [discriminate|].
  destruct (String.eqb k n) eqn:E; [|auto].
  apply String.eqb_eq in E. auto.
Qed.

Lemma get_col_missing (df : DataFrame) (n : string) :
  ~ In n (columns df) -> get_col df n = Raise (KeyError n).
Proof.
  induction df as [|[k s] df IH]; simpl; intros H; [reflexivity|].
  destruct (String.eqb k n) eqn:E.
  - apply String.eqb_eq in E. exfalso. auto.
  - apply IH. auto.
Qed.

Lemma get_col_app_l (a b : DataFrame) (n : string) (c : Series) :
  get_col a n = Ok c -> get_col (a ++ b)%list n = Ok c.
Proof.
  induction a as [|[k s] a IH]; simpl; [discriminate|].
  destruct (String.eqb k n); auto.
Qed.

Lemma get_col_app_r (a b : DataFrame) (n : string) :
  ~ In n (columns a) -> get_col (a ++ b)%list n = get_col b n.
Proof.
  induction a as [|[k s] a IH]; simpl; intros H; [reflexivity|].
  destruct (String.eqb k n) eqn:E.
  - apply String.eqb_eq in E. exfalso. auto.
  - apply IH. auto.
Qed.

(** Relabelling keeps a column findable as long as no other label is
    sent to the same new label. *)
Lemma get_col_relabel (f : string -> string) (g : Series -> Series)
      (df : DataFrame) (n : string) (c : Series) :
  get_col df n = Ok c ->
  (forall k, In k (columns df) -> f k = f n -> k = n) ->
  get_col (map (fun '(k, s) => (f k, g s)) df) (f n) = Ok (g c).
Proof.
  induction df as [|[k s] df IH]; simpl; intros H Hinj; [discriminate|].
  destruct (String.eqb k n) eqn:E.
  - apply String.eqb_eq in E. subst k. injection H as <-.
    now rewrite String.eqb_refl.
  - destruct (String.eqb (f k) (f n)) eqn:E2.
    + apply String.eqb_eq in E2. apply Hinj in E2; [|now left].
      subst k. rewrite String.eqb_refl in E. discriminate.
    + apply IH; auto.
Qed.

Lemma columns_relabel (f : string -> string) (g : Series -> Series) (df : DataFrame) :
  columns (map (fun '(k, s) => (f k, g s)) df) = map f (columns df).
Proof. unfold columns. rewrite !map_map. apply map_ext. now intros [k s]. Qed.

Lemma ends_with_append (k sfx : string) : ends_with sfx (k ++ sfx) = true.
Proof.
  induction k as [|c k IH]; simpl.
  - destruct sfx; simpl; [reflexivity|]. now rewrite Ascii.eqb_refl, String.eqb_refl.
  - rewrite IH. apply orb_true_r.
Qed.

Lemma not_suffixed (sfx k n : string) : ends_with sfx n = false -> k ++ sfx <> n.
Proof. intros H <-. now rewrite ends_with_append in H. Qed.

Lemma string_length_append (a b : string) :
  String.length (a ++ b) = (String.length a + String.length b)%nat.
Proof. induction a; simpl; auto. Qed.

Lemma append_inj_r (a b s : string) : a ++ s = b ++ s -> a = b.
Proof.
  revert b. induction a as [|c a IH]; intros [|d b] H; simpl in H.
  - reflexivity.
  - apply (f_equal String.length) in H. simpl in H.
    rewrite string_length_append in H. lia.
  - apply (f_equal String.length) in H. simpl in H.
    rewrite string_length_append in H. lia.
  - injection H as -> H. f_equal. now apply IH.
Qed.

Lemma with_suffix_shared (shared : list string) (sfx k : string) :
  In k shared -> with_suffix shared sfx k = k ++ sfx.
Proof. intros H. unfold with_suffix. apply mem_true_iff in H. now rewrite H. Qed.

Lemma with_suffix_unshared (shared : list string) (sfx k : string) :
  ~ In k shared -> with_suffix shared sfx k = k.
Proof. intros H. unfold with_suffix. apply mem_false_iff in H. now rewrite H. Qed.

Lemma with_suffix_cases (shared : list string) (sfx k : string) :
  (In k shared /\ with_suffix shared sfx k = k ++ sfx) \/
  (~ In k shared /\ with_suffix shared sfx k = k).
Proof.
  unfold with_suffix. destruct (mem k shared) eqn:E.
  - left. split; [now apply mem_true_iff | reflexivity].
  - right. split; [now apply mem_false_iff | reflexivity].
Qed.

Lemma overlap_iff (left right : DataFrame) (n : string) :
  In n (overlap left right) <-> In n (columns left) /\ In n (columns right).
Proof. unfold overlap. rewrite filter_In, mem_true_iff. reflexivity. Qed.

(** *** The columns of a join *)

Section JoinRows.

Variables (left right' : DataFrame) (pairs : list (nat * nat)).

Let out := join_rows left right' pairs.

(** A left column under a label the right table lacks keeps its label,
    unless a shared label comes to it by its suffix. *)
Lemma join_left_kept (n : string) (c : Series) :
  get_col left n = Ok c -> ~ In n (columns right') ->
  (forall k, In k (overlap left right') -> k ++ "_x" <> n) ->
  get_col out n = Ok (take (map fst pairs) c).
Proof.
  intros Hc Hr He. unfold out, join_rows. cbv zeta.
  apply get_col_app_l.
  assert (Hn : with_suffix (overlap left right') "_x" n = n).
  { apply with_suffix_unshared. rewrite overlap_iff. tauto. }
  rewrite <- Hn at 1.
  apply (get_col_relabel (with_suffix (overlap left right') "_x")
                         (take (map fst pairs))); [exact Hc|].
  intros k _ Hk. rewrite Hn in Hk.
  destruct (with_suffix_cases (overlap left right') "_x" k) as [[Hs E] | [_ E]];
    rewrite E in Hk; [|exact Hk].
  exfalso. exact (He k Hs Hk).
Qed.

Lemma join_left_unshared (n : string) (c : Series) :
  get_col left n = Ok c -> ~ In n (columns right') -> ends_with "_x" n = false ->
  get_col out n = Ok (take (map fst pairs) c).
Proof.
  intros Hc Hr He. apply join_left_kept; [exact Hc | exact Hr|].
  intros k _. now apply not_suffixed.
Qed.

(** A left column under a shared label takes the suffix [_x]. *)
Lemma join_left_shared (n : string) (c : Series) :
  get_col left n = Ok c -> In n (columns right') -> ~ In (n ++ "_x") (columns left) ->
  get_col out (n ++ "_x") = Ok (take (map fst pairs) c).
Proof.
  intros Hc Hr Hfresh. unfold out, join_rows. cbv zeta.
  apply get_col_app_l.
  assert (Hn : with_suffix (overlap left right') "_x" n = n ++ "_x").
  { apply with_suffix_shared. rewrite overlap_iff. eauto using get_col_columns. }
  rewrite <- Hn.
  apply (get_col_relabel (with_suffix (overlap left right') "_x")
                         (take (map fst pairs))); [exact Hc|].
  intros k Hin Hk. rewrite Hn in Hk.
  destruct (with_suffix_cases (overlap left right') "_x" k) as [[_ E] | [_ E]];
    rewrite E in Hk.
  - now apply append_inj_r in Hk.
  - subst k. contradiction.
Qed.

Lemma join_left_labels (n : string) :
  In n (map (with_suffix (overlap left right') "_x") (columns left)) ->
  (In n (columns left) /\ ~ In n (columns right')) \/ ends_with "_x" n = true.
Proof.
  intros H. apply in_map_iff in H as (k & Hk & Hin).
  destruct (with_suffix_cases (overlap left right') "_x" k) as [[_ E] | [Hs E]];
    rewrite E in Hk; subst n.
  - right. apply ends_with_append.
  - left. split; [exact Hin|]. intros Hr. apply Hs. rewrite overlap_iff. tauto.
Qed.

Lemma join_right_labels (n : string) :
  In n (map (with_suffix (overlap left right') "_y") (columns right')) ->
  (In n (columns right') /\ ~ In n (columns left)) \/ ends_with "_y" n = true.
Proof.
  intros H. apply in_map_iff in H as (k & Hk & Hin).
  destruct (with_suffix_cases (overlap left right') "_y" k) as [[_ E] | [Hs E]];
    rewrite E in Hk; subst n.
  - right. apply ends_with_append.
  - left. split; [exact Hin|]. intros Hl. apply Hs. rewrite overlap_iff. tauto.
Qed.

Lemma columns_join_rows :
  columns out
  = (map (with_suffix (overlap left right') "_x") (columns left) ++
     map (with_suffix (overlap left right') "_y") (columns right'))%list.
Proof.
  unfold out, join_rows, columns. cbv zeta.
  rewrite map_app, !map_map. f_equal; apply map_ext; now intros [k s].
Qed.

(** A label of the joined frame comes unchanged from the one table that
    has it, or carries a suffix. *)
Lemma join_labels (n : string) :
  In n (columns out) ->
  (In n (columns left) /\ ~ In n (columns right')) \/
  (In n (columns right') /\ ~ In n (columns left)) \/
  ends_with "_x" n = true \/ ends_with "_y" n = true.
Proof.
  rewrite columns_join_rows, in_app_iff. intros [H | H].
  - apply join_left_labels in H. tauto.
  - apply join_right_labels in H. tauto.
Qed.

Lemma join_left_labels_kept (n : string) :
  In n (map (with_suffix (overlap left right') "_x") (columns left)) ->
  In n (columns left) \/ exists k, In k (overlap left right') /\ k ++ "_x" = n.
Proof.
  intros H. apply in_map_iff in H as (k & Hk & Hin).
  destruct (with_suffix_cases (overlap left right') "_x" k) as [[Hs E] | [Hs E]];
    rewrite E in Hk; subst n; eauto.
Qed.

(** A right column under a label the left table lacks keeps its label,
    unless a shared label comes to it by its suffix. *)
Lemma join_right_kept (n : string) (c : Series) :
  get_col right' n = Ok c -> ~ In n (columns left) ->
  (forall k, In k (overlap left right') -> k ++ "_x" <> n) ->
  (forall k, In k (overlap left right') -> k ++ "_y" <> n) ->
  get_col out n = Ok (take (map snd pairs) c).
Proof.
  intros Hc Hl Hx Hy. unfold out, join_rows. cbv zeta.
  rewrite get_col_app_r.
  2:{ rewrite columns_relabel. intros H.
      apply join_left_labels_kept in H as [H | (k & Hk & E)];
        [contradiction | exact (Hx k Hk E)]. }
  assert (Hn : with_suffix (overlap left right') "_y" n = n).
  { apply with_suffix_unshared. rewrite overlap_iff. tauto. }
  rewrite <- Hn at 1.
  apply (get_col_relabel (with_suffix (overlap left right') "_y")
                         (take (map snd pairs))); [exact Hc|].
  intros k _ Hk. rewrite Hn in Hk.
  destruct (with_suffix_cases (overlap left right') "_y" k) as [[Hs E] | [_ E]];
    rewrite E in Hk; [|exact Hk].
  exfalso. exact (Hy k Hs Hk).
Qed.

Lemma join_right_unshared (n : string) (c : Series) :
  get_col right' n = Ok c -> ~ In n (columns left) ->
  ends_with "_x" n = false -> ends_with "_y" n = false ->
  get_col out n = Ok (take (map snd pairs) c).
Proof.
  intros Hc Hl Hx Hy. apply join_right_kept; [exact Hc | exact Hl | |];
    intros k _; now apply not_suffixed.
Qed.

(** A right column under a shared label takes the suffix [_y]. *)
Lemma join_right_shared (n : string) (c : Series) :
  get_col right' n = Ok c -> In n (columns left) ->
  ~ In (n ++ "_y") (columns left) -> ~ In (n ++ "_y") (columns right') ->
  ends_with "_x" (n ++ "_y") = false ->
  get_col out (n ++ "_y") = Ok (take (map snd pairs) c).
Proof.
  intros Hc Hl Hfl Hfr Hx. unfold out, join_rows. cbv zeta.
  rewrite get_col_app_r.
  2:{ rewrite columns_relabel. intros H. apply join_left_labels in H as [[H _] | H];
        [contradiction | congruence]. }
  assert (Hn : with_suffix (overlap left right') "_y" n = n ++ "_y").
  { apply with_suffix_shared. rewrite overlap_iff. eauto using get_col_columns. }
  rewrite <- Hn.
  apply (get_col_relabel (with_suffix (overlap left right') "_y")
                         (take (map snd pairs))); [exact Hc|].
  intros k Hin Hk. rewrite Hn in Hk.
  destruct (with_suffix_cases (overlap left right') "_y" k) as [[_ E] | [_ E]];
    rewrite E in Hk.
  - now apply append_inj_r in Hk.
  - subst k. contradiction.
Qed.

Lemma join_column_length (n : string) (c : Series) :
  get_col out n = Ok c -> List.length c = List.length pairs.
Proof.
  intros H. apply get_col_in in H.
  pose proof (join_rows_lengths left right' pairs) as Hall.
  rewrite Forall_forall in Hall. exact (Hall _ H).
Qed.

Lemma join_key_rows (k : string) (ks : list string) (keys : list Series) :
  mapM (get_col out) (k :: ks) = Ok keys -> key_rows keys = List.length pairs.
Proof.
  cbn [mapM]. intros H.
  destruct (get_col out k) as [c|] eqn:Ec; [cbn [bind] in H | discriminate].
  destruct (mapM (get_col out) ks); [cbn [bind] in H | discriminate].
  injection H as <-. cbn [key_rows]. now apply join_column_length in Ec.
Qed.

End JoinRows.

Lemma inner_pairs_range (lkeys rkeys : list Series) (p : nat * nat) :
  In p (inner_pairs lkeys rkeys) ->
  (fst p < key_rows lkeys)%nat /\ (snd p < key_rows rkeys)%nat.
Proof.
  unfold inner_pairs. intros H.
  apply in_flat_map in H as (i & Hi & H).
  apply in_map_iff in H as (j & <- & Hj).
  apply filter_In in Hj as (Hj & _).
  apply in_seq in Hi. apply in_seq in Hj. simpl. lia.
Qed.

Lemma take_map_range {A : Type} (g : A -> cell) (l : list A) (d : A) (idx : list nat) :
  Forall (fun i => (i < List.length l)%nat) idx ->
  take idx (map g l) = map g (map (fun i => nth i l d) idx).
Proof.
  unfold take. induction 1 as [|i idx Hi _ IH]; simpl; [reflexivity|].
  rewrite IH. f_equal. unfold cell_at.
  rewrite (nth_indep _ CNaN (g d)) by now rewrite length_map.
  apply map_nth.
Qed.

Lemma nth_incl {A : Type} (l : list A) (d : A) (idx : list nat) :
  Forall (fun i => (i < List.length l)%nat) idx ->
  incl (map (fun i => nth i l d) idx) l.
Proof.
  intros H x Hx. apply in_map_iff in Hx as (i & <- & Hi).
  rewrite Forall_forall in H. apply nth_In. auto.
Qed.

Lemma get_col_rename (df : DataFrame) (mapping : list (string * string))
      (n : string) (c : Series) :
  get_col df n = Ok c ->
  (forall k, In k (columns df) -> lookup_label mapping k = lookup_label mapping n -> k = n) ->
  get_col (rename df mapping) (lookup_label mapping n) = Ok c.
Proof.
  intros Hc Hinj. unfold rename.
  exact (get_col_relabel (lookup_label mapping) (fun s => s) df n c Hc Hinj).
Qed.

Lemma columns_rename (df : DataFrame) (mapping : list (string * string)) :
  columns (rename df mapping) = map (lookup_label mapping) (columns df).
Proof. unfold rename. apply (columns_relabel (lookup_label mapping) (fun s => s)). Qed.

Lemma columns_drop_cols (df : DataFrame) (names : list string) (n : string) :
  In n (columns (drop_cols df names)) <-> In n (columns df) /\ ~ In n names.
Proof.
  unfold drop_cols, columns. rewrite !in_map_iff. split.
  - intros ([k s] & <- & H). apply filter_In in H as (H & Hm). simpl.
    apply negb_true_iff, mem_false_iff in Hm. split; [|exact Hm].
    exists (k, s). auto.
  - intros (([k s] & <- & H) & Hn). exists (k, s). split; [reflexivity|].
    apply filter_In. split; [exact H|]. now apply negb_true_iff, mem_false_iff.
Qed.

Lemma get_col_drop_other (df : DataFrame) (names : list string) (n : string) :
  ~ In n names -> get_col (drop_cols df names) n = get_col df n.
Proof.
  intros Hn. induction df as [|[k s] df IH]; simpl; [reflexivity|].
  destruct (mem k names) eqn:Em; simpl.
  - destruct (String.eqb k n) eqn:E; [|exact IH].
    apply String.eqb_eq in E. subst k. apply mem_true_iff in Em. contradiction.
  - destruct (String.eqb k n); [reflexivity | exact IH].
Qed.

Lemma columns_set_col (df : DataFrame) (name : string) (c : Series) (n : string) :
  In n (columns (set_col df name c)) <-> In n (columns df) \/ n = name.
Proof.
  induction df as [|[k s] df IH]; simpl.
  - intuition.
  - destruct (String.eqb k name) eqn:E; simpl.
    + apply String.eqb_eq in E. subst k. intuition.
    + rewrite IH. intuition.
Qed.


(** *** The two supply columns of Phase 1 *)

Lemma take_pairs_fst (c : Series) (pairs : list (nat * nat)) :
  take (map fst pairs) c = map (fun p => cell_at c (fst p)) pairs.
Proof. unfold take. now rewrite map_map. Qed.

Lemma take_pairs_snd (c : Series) (pairs : list (nat * nat)) :
  take (map snd pairs) c = map (fun p => cell_at c (snd p)) pairs.
Proof. unfold take. now rewrite map_map. Qed.

Lemma lacks_cons (df : DataFrame) (l : string) (labels : list string) :
  lacks df (l :: labels) -> ~ In l (columns df) /\ lacks df labels.
Proof. intros H. split; [apply H; now left | intros k Hk; apply H; now right]. Qed.

(** C4, as the code has it.  The solar and the wind table share the
    measurement label [COP_HSL_SYSTEM_WIDE]; no join of Phase 1 fails on
    that account.  When the three joins succeed, and none of the four
    tables carries one of the suffixed or renamed labels already (nor the
    outage table the shared label), every row of the joined table holds,
    for one pair of solar and wind rows with equal keys, the solar value
    under [Forecasted Solar Supply] (the label suffixed [_x] by the first
    join) and the wind value under [Forecasted Wind Supply] (suffixed
    [_y]), and the shared label itself is gone. *)
Theorem shared_supply_label_is_suffixed_then_renamed
        (df_solar df_wind df_sys df_hroc merged : DataFrame)
        (scol wcol : Series) (skeys wkeys : list Series) :
  get_col df_solar "COP_HSL_SYSTEM_WIDE" = Ok scol ->
  get_col df_wind "COP_HSL_SYSTEM_WIDE" = Ok wcol ->
  mapM (get_col df_solar) ["DELIVERY_DATE"; "HOUR_ENDING"] = Ok skeys ->
  mapM (get_col df_wind) ["DELIVERY_DATE"; "HOUR_ENDING"] = Ok wkeys ->
  lacks df_solar supply_labels ->
  lacks df_wind supply_labels ->
  lacks df_sys supply_labels ->
  lacks df_hroc ("COP_HSL_SYSTEM_WIDE" :: supply_labels) ->
  Phase1.joined_table df_solar df_wind df_sys df_hroc = Ok merged ->
  exists pairs : list (nat * nat),
    incl pairs (inner_pairs skeys wkeys) /\
    get_col merged "Forecasted Solar Supply"
    = Ok (map (fun p => cell_at scol (fst p)) pairs) /\
    get_col merged "Forecasted Wind Supply"
    = Ok (map (fun p => cell_at wcol (snd p)) pairs).
Proof.
  intros Hs Hw Hsk Hwk Ls Lw Ly Lh H.
  apply lacks_cons in Lh as (Lhc & Lh).
  pose proof (Ls _ (or_introl eq_refl)) as Lsx.
  pose proof (Ls _ (or_intror (or_introl eq_refl))) as Lsy.
  pose proof (Ls _ (or_intror (or_intror (or_introl eq_refl)))) as Lss.
  pose proof (Ls _ (or_intror (or_intror (or_intror (or_introl eq_refl))))) as Lsw.
  pose proof (Lw _ (or_introl eq_refl)) as Lwx.
  pose proof (Lw _ (or_intror (or_introl eq_refl))) as Lwy.
  pose proof (Lw _ (or_intror (or_intror (or_introl eq_refl)))) as Lws.
  pose proof (Lw _ (or_intror (or_intror (or_intror (or_introl eq_refl))))) as Lww.
  pose proof (Ly _ (or_introl eq_refl)) as Lyx.
  pose proof (Ly _ (or_intror (or_introl eq_refl))) as Lyy.
  pose proof (Ly _ (or_intror (or_intror (or_introl eq_refl)))) as Lys.
  pose proof (Ly _ (or_intror (or_intror (or_intror (or_introl eq_refl))))) as Lyw.
  pose proof (Lh _ (or_introl eq_refl)) as Lhx.
  pose proof (Lh _ (or_intror (or_introl eq_refl))) as Lhy.
  pose proof (Lh _ (or_intror (or_intror (or_introl eq_refl)))) as Lhs.
  pose proof (Lh _ (or_intror (or_intror (or_intror (or_introl eq_refl))))) as Lhw.
  clear Ls Lw Ly Lh.
  unfold Phase1.joined_table in H.
  destruct (merge df_solar df_wind _ _) as [m1|] eqn:H1; [cbn [bind] in H | discriminate].
  destruct (get_attr df_sys "HourEnding") as [hour_text|]; [cbn [bind] in H | discriminate].
  destruct (hour_ending_int hour_text) as [hours|]; [cbn [bind] in H | discriminate].
  destruct (merge m1 df_hroc _ _) as [m2|] eqn:H2; [cbn [bind] in H | discriminate].
  destruct (merge (set_col df_sys "HOUR_ENDING" hours) m2 _ _) as [m3|] eqn:H3;
    [cbn [bind] in H | discriminate].
  injection H as <-.
  (* the first join: solar and wind *)
  apply merge_inv in H1 as (lk1 & rk1 & Hlk1 & Hrk1 & ->).
  rewrite Hsk in Hlk1. injection Hlk1 as <-.
  rewrite Hwk in Hrk1. injection Hrk1 as <-.
  change (right_part df_wind ["DELIVERY_DATE"; "HOUR_ENDING"] ["DELIVERY_DATE"; "HOUR_ENDING"])
    with (drop_cols df_wind ["DELIVERY_DATE"; "HOUR_ENDING"]) in *.
  set (wind' := drop_cols df_wind ["DELIVERY_DATE"; "HOUR_ENDING"]) in *.
  set (p1 := inner_pairs skeys wkeys) in *.
  set (m1 := join_rows df_solar wind' p1) in *.
  assert (Hw' : get_col wind' "COP_HSL_SYSTEM_WIDE" = Ok wcol).
  { unfold wind'. rewrite get_col_drop_other; [exact Hw|].
    simpl. intuition discriminate. }
  assert (Wsub : forall n, In n (columns wind') -> In n (columns df_wind)).
  { intros n Hn. now apply columns_drop_cols in Hn. }
  assert (A1 : get_col m1 "COP_HSL_SYSTEM_WIDE_x" = Ok (take (map fst p1) scol)).
  { apply (join_left_shared df_solar wind' p1 "COP_HSL_SYSTEM_WIDE" scol Hs);
      [eauto using get_col_columns | exact Lsx]. }
  assert (B1 : get_col m1 "COP_HSL_SYSTEM_WIDE_y" = Ok (take (map snd p1) wcol)).
  { apply (join_right_shared df_solar wind' p1 "COP_HSL_SYSTEM_WIDE" wcol Hw');
      [eauto using get_col_columns | exact Lsy | auto | reflexivity]. }
  assert (C1 : ~ In "COP_HSL_SYSTEM_WIDE" (columns m1)).
  { intros Hin. apply join_labels in Hin as [[_ Hn] | [[_ Hn] | [Hn | Hn]]];
      try discriminate Hn; apply Hn; eauto using get_col_columns. }
  assert (S1 : ~ In "Forecasted Solar Supply" (columns m1)).
  { intros Hin. apply join_labels in Hin as [[Hn _] | [[Hn _] | [Hn | Hn]]];
      try discriminate Hn; auto. }
  assert (W1 : ~ In "Forecasted Wind Supply" (columns m1)).
  { intros Hin. apply join_labels in Hin as [[Hn _] | [[Hn _] | [Hn | Hn]]];
      try discriminate Hn; auto. }
  (* the second join: the outage table *)
  apply merge_inv in H2 as (lk2 & rk2 & Hlk2 & _ & ->).
  change (right_part df_hroc ["DELIVERY_DATE"; "HOUR_ENDING"] ["Date"; "HourEnding"])
    with (drop_cols df_hroc []) in *.
  set (hroc' := drop_cols df_hroc []) in *.
  set (p2 := inner_pairs lk2 rk2) in *.
  set (m2 := join_rows m1 hroc' p2) in *.
  assert (Hsub : forall n, In n (columns hroc') -> In n (columns df_hroc)).
  { intros n Hn. now apply columns_drop_cols in Hn. }
  assert (A2 : get_col m2 "COP_HSL_SYSTEM_WIDE_x"
               = Ok (take (map fst p2) (take (map fst p1) scol))).
  { apply (join_left_kept m1 hroc' p2 _ _ A1); [auto|].
    intros k Hk E. apply (append_inj_r k "COP_HSL_SYSTEM_WIDE" "_x") in E. subst k.
    apply overlap_iff in Hk as (Hk & _). contradiction. }
  assert (B2 : get_col m2 "COP_HSL_SYSTEM_WIDE_y"
               = Ok (take (map fst p2) (take (map snd p1) wcol))).
  { apply (join_left_unshared m1 hroc' p2 _ _ B1); [auto | reflexivity]. }
  assert (C2 : ~ In "COP_HSL_SYSTEM_WIDE" (columns m2)).
  { intros Hin. apply join_labels in Hin as [[Hn _] | [[Hn _] | [Hn | Hn]]];
      try discriminate Hn; auto. }
  assert (S2 : ~ In "Forecasted Solar Supply" (columns m2)).
  { intros Hin. apply join_labels in Hin as [[Hn _] | [[Hn _] | [Hn | Hn]]];
      try discriminate Hn; auto. }
  assert (W2 : ~ In "Forecasted Wind Supply" (columns m2)).
  { intros Hin. apply join_labels in Hin as [[Hn _] | [[Hn _] | [Hn | Hn]]];
      try discriminate Hn; auto. }
  (* the third join: the system forecast on the left *)
  apply merge_inv in H3 as (lk3 & rk3 & _ & Hrk3 & ->).
  change (right_part m2 ["DeliveryDate"; "HOUR_ENDING"] ["DELIVERY_DATE"; "HOUR_ENDING"])
    with (drop_cols m2 ["HOUR_ENDING"]) in *.
  set (sys' := set_col df_sys "HOUR_ENDING" hours) in *.
  set (m2' := drop_cols m2 ["HOUR_ENDING"]) in *.
  set (p3 := inner_pairs lk3 rk3) in *.
  set (m3 := join_rows sys' m2' p3) in *.
  assert (Msub : forall n, In n (columns m2') -> In n (columns m2)).
  { intros n Hn. now apply columns_drop_cols in Hn. }
  assert (Ysub : forall n, In n (columns sys') ->
                           In n (columns df_sys) \/ n = "HOUR_ENDING").
  { intros n Hn. now apply columns_set_col in Hn. }
  assert (A3 : get_col m3 "COP_HSL_SYSTEM_WIDE_x"
               = Ok (take (map snd p3) (take (map fst p2) (take (map fst p1) scol)))).
  { apply (join_right_kept sys' m2' p3).
    - unfold m2'. rewrite get_col_drop_other; [exact A2|]. simpl. intuition discriminate.
    - intros Hn. apply Ysub in Hn as [Hn | Hn]; [auto | discriminate Hn].
    - intros k Hk E. apply (append_inj_r k "COP_HSL_SYSTEM_WIDE" "_x") in E. subst k.
      apply overlap_iff in Hk as (_ & Hk). auto.
    - intros k _. now apply not_suffixed. }
  assert (B3 : get_col m3 "COP_HSL_SYSTEM_WIDE_y"
               = Ok (take (map snd p3) (take (map fst p2) (take (map snd p1) wcol)))).
  { apply (join_right_kept sys' m2' p3).
    - unfold m2'. rewrite get_col_drop_other; [exact B2|]. simpl. intuition discriminate.
    - intros Hn. apply Ysub in Hn as [Hn | Hn]; [auto | discriminate Hn].
    - intros k _. now apply not_suffixed.
    - intros k Hk E. apply (append_inj_r k "COP_HSL_SYSTEM_WIDE" "_y") in E. subst k.
      apply overlap_iff in Hk as (_ & Hk). auto. }
  assert (S3 : ~ In "Forecasted Solar Supply" (columns m3)).
  { intros Hin. apply join_labels in Hin as [[Hn _] | [[Hn _] | [Hn | Hn]]];
      try discriminate Hn; [|auto].
    apply Ysub in Hn as [Hn | Hn]; [auto | discriminate Hn]. }
  assert (W3 : ~ In "Forecasted Wind Supply" (columns m3)).
  { intros Hin. apply join_labels in Hin as [[Hn _] | [[Hn _] | [Hn | Hn]]];
      try discriminate Hn; [|auto].
    apply Ysub in Hn as [Hn | Hn]; [auto | discriminate Hn]. }
  (* the rows of the joined table, as pairs of solar and wind rows *)
  assert (R2 : Forall (fun i => (i < List.length p1)%nat) (map fst p2)).
  { apply Forall_forall. intros i Hi. apply in_map_iff in Hi as (p & <- & Hp).
    apply inner_pairs_range in Hp as (Hp & _).
    now rewrite (join_key_rows df_solar wind' p1 _ _ _ Hlk2) in Hp. }
  set (q2 := map (fun i => nth i p1 (0%nat, 0%nat)) (map fst p2)).
  assert (R3 : Forall (fun i => (i < List.length q2)%nat) (map snd p3)).
  { apply Forall_forall. intros i Hi. apply in_map_iff in Hi as (p & <- & Hp).
    apply inner_pairs_range in Hp as (_ & Hp).
    assert (Hrk3' : mapM (get_col m2) ["DELIVERY_DATE"; "HOUR_ENDING"] = Ok rk3) by exact Hrk3.
    rewrite (join_key_rows m1 hroc' p2 _ _ _ Hrk3') in Hp.
    unfold q2. now rewrite !length_map. }
  exists (map (fun i => nth i q2 (0%nat, 0%nat)) (map snd p3)).
  split.
  { intros p Hp. apply (nth_incl p1 (0%nat, 0%nat) _ R2). fold q2.
    exact (nth_incl q2 (0%nat, 0%nat) _ R3 p Hp). }
  rewrite (take_pairs_fst scol p1) in A3. rewrite (take_pairs_snd wcol p1) in B3.
  rewrite (take_map_range _ p1 (0%nat, 0%nat) _ R2) in A3.
  rewrite (take_map_range _ p1 (0%nat, 0%nat) _ R2) in B3. fold q2 in A3, B3.
  rewrite (take_map_range _ q2 (0%nat, 0%nat) _ R3) in A3.
  rewrite (take_map_range _ q2 (0%nat, 0%nat) _ R3) in B3.
  split.
  - refine (get_col_rename m3 _ "COP_HSL_SYSTEM_WIDE_x" _ A3 _).
    intros k Hk. cbn [lookup_label].
    destruct (String.eqb "SystemTotal" k); [discriminate|].
    destruct (String.eqb "COP_HSL_SYSTEM_WIDE_y" k); [discriminate|].
    destruct (String.eqb "COP_HSL_SYSTEM_WIDE_x" k) eqn:E.
    + intros _. apply String.eqb_eq in E. now subst k.
    + cbn [String.eqb Ascii.eqb Bool.eqb andb]. intros ->. contradiction.
  - refine (get_col_rename m3 _ "COP_HSL_SYSTEM_WIDE_y" _ B3 _).
    intros k Hk. cbn [lookup_label].
    destruct (String.eqb "SystemTotal" k); [discriminate|].
    destruct (String.eqb "COP_HSL_SYSTEM_WIDE_y" k) eqn:E.
    + intros _. apply String.eqb_eq in E. now subst k.
    + destruct (String.eqb "COP_HSL_SYSTEM_WIDE_x" k); [discriminate|].
      cbn [String.eqb Ascii.eqb Bool.eqb andb]. intros ->. contradiction.
Qed.

Lemma sample_tables_lack_supply_labels :
  lacks sample_solar supply_labels /\ lacks sample_wind supply_labels /\
  lacks sample_sys supply_labels /\
  lacks sample_hroc ("COP_HSL_SYSTEM_WIDE" :: supply_labels).
Proof.
  repeat split; intros l Hl Hin; simpl in Hl, Hin;
    repeat (destruct Hl as [<- | Hl]; [intuition discriminate|]); exact Hl.
Qed.

Lemma shared_supply_label_is_suffixed_then_renamed_witness :
  exists (merged : DataFrame) (pairs : list (nat * nat)),
    Phase1.joined_table sample_solar sample_wind sample_sys sample_hroc = Ok merged /\
    incl pairs [(0%nat, 0%nat); (1%nat, 1%nat)] /\
    get_col merged "Forecasted Solar Supply"
    = Ok (map (fun p => cell_at [CFloat 0; CFloat 5] (fst p)) pairs) /\
    get_col merged "Forecasted Wind Supply"
    = Ok (map (fun p => cell_at [CFloat 100; CFloat 120] (snd p)) pairs) /\
    get_col merged "Forecasted Solar Supply" = Ok [CFloat 0; CFloat 5] /\
    get_col merged "Forecasted Wind Supply" = Ok [CFloat 100; CFloat 120].
Proof.
  destruct (Phase1.joined_table sample_solar sample_wind sample_sys sample_hroc)
    as [merged|e] eqn:E; [|vm_compute in E; discriminate E].
  destruct sample_tables_lack_supply_labels as (Ls & Lw & Ly & Lh).
  destruct (shared_supply_label_is_suffixed_then_renamed
              sample_solar sample_wind sample_sys sample_hroc merged
              [CFloat 0; CFloat 5] [CFloat 100; CFloat 120]
              [[jan10; jan10]; [CInt 1; CInt 2]] [[jan10; jan10]; [CInt 1; CInt 2]]
              eq_refl eq_refl eq_refl eq_refl Ls Lw Ly Lh E)
    as (pairs & Hin & Hsolar & Hwind).
  exists merged, pairs. split; [reflexivity|].
  split; [exact Hin|]. split; [exact Hsolar|]. split; [exact Hwind|].
  vm_compute in E. injection E as <-. split; reflexivity.
Defined.

(** The solar and the wind report both carry [COP_HSL_SYSTEM_WIDE]; the
    joins go through and the derived metrics are computed. *)
Lemma shared_label_does_not_fail_the_join :
  ~ (forall (df_solar df_wind df_sys df_hroc df_mora : DataFrame) (c : string),
        In c (columns df_solar) -> In c (columns df_wind) ->
        ~ In c ["DELIVERY_DATE"; "HOUR_ENDING"] ->
        exists e,
          Phase1.forecast_table df_solar df_wind df_sys df_hroc df_mora = Raise e).
Proof.
  intros H.
  destruct (H sample_solar sample_wind sample_sys sample_hroc (sample_mora (CFloat 5000))
              "COP_HSL_SYSTEM_WIDE") as (e & He).
  - simpl. auto.
  - simpl. auto.
  - simpl. intuition discriminate.
  - vm_compute in He. discriminate He.
Qed.

(** ** Time normalisation in the two scripts *)

Lemma mem_cons_false (n k : string) (l : list string) :
  mem n (k :: l) = false -> String.eqb k n = false /\ mem n l = false.
Proof.
  unfold mem. cbn [existsb]. intros H. apply orb_false_iff in H as [H1 H2].
  rewrite String.eqb_sym. auto.
Qed.

(** [derive_metrics] leaves every column alone that it does not assign. *)
Lemma derive_metrics_other (v : cell) (merged out : DataFrame) (name : string) :
  Phase1.derive_metrics v merged = Ok out ->
  mem name derived_labels = false ->
  get_col out name = get_col merged name.
Proof.
  intros H Hname. unfold derived_labels in Hname.
  repeat (apply mem_cons_false in Hname as [? Hname]).
  unfold Phase1.derive_metrics, set_scalar in H. cbv zeta in H.
  do 22 invert_bind H. injection H as <-.
  rewrite !get_col_set_col_other by assumption. reflexivity.
Qed.

Lemma mapM_raises {A B : Type} (f : A -> result B) (e : exn) (l : list A) (x : A) :
  (forall a, In a l -> f a = Raise e \/ exists b, f a = Ok b) ->
  In x l -> f x = Raise e -> mapM f l = Raise e.
Proof.
  induction l as [|a l IH]; intros Hall Hin Hx; [contradiction|].
  cbn [mapM]. destruct (Hall a (or_introl eq_refl)) as [Ha | (b & Ha)]; rewrite Ha.
  - reflexivity.
  - cbn [bind]. destruct Hin as [-> | Hin]; [congruence|].
    rewrite IH; auto. intros a' Ha'. apply Hall. now right.
Qed.

Lemma to_datetime_rows (rows : list hour_row) :
  Forall well_formed_row rows ->
  to_datetime (map raw_date rows) = Ok (map (fun r => CTime (midnight (row_date r))) rows).
Proof.
  intros Hrows. unfold to_datetime. apply mapM_map_ok.
  eapply Forall_impl; [|exact Hrows]. intros r (Hd & _).
  now apply date_given_to_datetime.
Qed.

Lemma hour_ending_int_frame (rows : list hour_row) :
  Forall well_formed_row rows ->
  hour_ending_int (map raw_hour rows) = Ok (map (fun r => CInt (row_hour r)) rows).
Proof.
  intros Hrows. unfold hour_ending_int, astype_str.
  now apply hour_ending_int_rows.
Qed.

(** Lines 203-205 of Phase 2 on a day-ahead table. *)
Lemma normalize_dam_rows (df : DataFrame) (rows : list hour_row) :
  Forall well_formed_row rows ->
  get_col df "DeliveryDate" = Ok (map raw_date rows) ->
  get_col df "HourEnding" = Ok (map raw_hour rows) ->
  exists out,
    Phase2.normalize_dam df = Ok out /\
    get_col out "DeliveryDate" = Ok (map (fun r => CTime (midnight (row_date r))) rows) /\
    get_col out "HourEnding" = Ok (map (fun r => CInt (row_hour r)) rows) /\
    get_col out "datetime" = Ok (map (fun r => CTime (canonical_timestamp r)) rows).
Proof.
  intros Hrows Hd Hh. unfold Phase2.normalize_dam.
  rewrite Hd. cbn [bind]. rewrite (to_datetime_rows rows Hrows). cbn [bind].
  lookup. rewrite Hh. cbn [bind].
  rewrite (hour_ending_int_frame rows Hrows). cbn [bind].
  lookup. cbn [bind].
  rewrite (canonical_datetime_rows rows Hrows). cbn [bind].
  eexists. split; [reflexivity|]. lookup. repeat split; reflexivity.
Qed.

(** Lines 207-209 of Phase 2 on a real-time table whose hours are
    integers. *)
Lemma normalize_rtm_rows (df : DataFrame) (rows : list hour_row) :
  Forall well_formed_row rows ->
  Forall (fun r => raw_hour r = CInt (row_hour r)) rows ->
  empty df = false ->
  get_col df "deliveryDate" = Ok (map raw_date rows) ->
  get_col df "deliveryHour" = Ok (map raw_hour rows) ->
  exists out,
    Phase2.normalize_rtm df = Ok out /\
    get_col out "datetime" = Ok (map (fun r => CTime (canonical_timestamp r)) rows).
Proof.
  intros Hrows Hint He Hd Hh. unfold Phase2.normalize_rtm.
  rewrite He. cbn [negb]. rewrite Hd. cbn [bind].
  rewrite (to_datetime_rows rows Hrows). cbn [bind].
  lookup. cbn [bind]. rewrite Hh. cbn [bind].
  replace (map raw_hour rows) with (map (fun r => CInt (row_hour r)) rows).
  2:{ apply map_ext_in. intros r Hr. rewrite Forall_forall in Hint.
      symmetry. now apply Hint. }
  rewrite (canonical_datetime_rows rows Hrows). cbn [bind].
  eexists. split; [reflexivity|]. lookup. reflexivity.
Qed.

(** On the real-time table the hour is not split at the colon: a clock
    text meets the subtraction of 1 as it is. *)
Lemma normalize_rtm_clock_text (df : DataFrame) (rows : list hour_row)
      (r : hour_row) (s : string) :
  Forall well_formed_row rows ->
  In r rows -> raw_hour r = CStr s ->
  empty df = false ->
  get_col df "deliveryDate" = Ok (map raw_date rows) ->
  get_col df "deliveryHour" = Ok (map raw_hour rows) ->
  Phase2.normalize_rtm df = Raise TypeError.
Proof.
  intros Hrows Hin Hs He Hd Hh. unfold Phase2.normalize_rtm.
  rewrite He. cbn [negb]. rewrite Hd. cbn [bind].
  rewrite (to_datetime_rows rows Hrows). cbn [bind].
  lookup. cbn [bind]. rewrite Hh. cbn [bind].
  unfold canonical_datetime, astype_str.
  rewrite midnight_column_flags.
  rewrite (mapM_map_ok _ _ (fun r => isoformat_date (row_date r)))
    by (apply Forall_forall; reflexivity).
  cbn [bind]. unfold series_sub_scalar.
  rewrite (mapM_raises (sub_scalar_cell 1) TypeError (map raw_hour rows) (raw_hour r)).
  - reflexivity.
  - intros c Hc. apply in_map_iff in Hc as (x & <- & Hx).
    rewrite Forall_forall in Hrows. destruct (Hrows x Hx) as (_ & Hh' & _).
    destruct Hh'; simpl; eauto.
  - now apply in_map.
  - rewrite Hs. reflexivity.
Qed.

(** Line 182 of Phase 1, after the three joins: the rows of the finished
    table are rows of the system forecast, each with its timestamp. *)
Lemma forecast_table_rows
      (df_solar df_wind df_sys0 df_hroc df_mora out : DataFrame) (rows : list hour_row) :
  Forall well_formed_row rows ->
  get_col df_sys0 "DeliveryDate" = Ok (map raw_date rows) ->
  get_col df_sys0 "HourEnding" = Ok (map raw_hour rows) ->
  Phase1.forecast_table df_solar df_wind
    (set_col df_sys0 "DeliveryDate" (map (fun r => CTime (midnight (row_date r))) rows))
    df_hroc df_mora = Ok out ->
  exists joined : list hour_row,
    incl joined rows /\
    get_col out "DeliveryDate" = Ok (map (fun r => CTime (midnight (row_date r))) joined) /\
    get_col out "HOUR_ENDING" = Ok (map (fun r => CInt (row_hour r)) joined) /\
    get_col out "datetime" = Ok (map (fun r => CTime (canonical_timestamp r)) joined).
Proof.
  intros Hrows Hd Hh H.
  set (dates := map (fun r => CTime (midnight (row_date r))) rows) in *.
  set (df_sys := set_col df_sys0 "DeliveryDate" dates) in *.
  set (hours := map (fun r => CInt (row_hour r)) rows).
  unfold Phase1.forecast_table in H.
  destruct (iloc df_mora 2 3) as [v|]; [cbn [bind] in H | discriminate].
  destruct (Phase1.joined_table df_solar df_wind df_sys df_hroc) as [merged|] eqn:Hj;
    [cbn [bind] in H | discriminate].
  destruct (Phase1.derive_metrics v merged) as [derived|] eqn:Hm;
    [cbn [bind] in H | discriminate].
  unfold get_attr in H.
  rewrite (derive_metrics_other v merged derived "DeliveryDate" Hm eq_refl) in H.
  rewrite (derive_metrics_other v merged derived "HOUR_ENDING" Hm eq_refl) in H.
  (* the joined table *)
  unfold Phase1.joined_table in Hj.
  destruct (merge df_solar df_wind _ _) as [m1|]; [cbn [bind] in Hj | discriminate].
  assert (Ha : get_attr df_sys "HourEnding" = Ok (map raw_hour rows)).
  { unfold get_attr, df_sys. rewrite get_col_set_col_other by reflexivity. now rewrite Hh. }
  rewrite Ha in Hj. cbn [bind] in Hj.
  rewrite (hour_ending_int_frame rows Hrows) in Hj. cbn [bind] in Hj. fold hours in Hj.
  destruct (merge m1 df_hroc _ _) as [m2|]; [cbn [bind] in Hj | discriminate].
  destruct (merge (set_col df_sys "HOUR_ENDING" hours) m2 _ _) as [m3|] eqn:H3;
    [cbn [bind] in Hj | discriminate].
  injection Hj as <-.
  apply merge_inv in H3 as (lk3 & rk3 & Hlk3 & _ & ->).
  change (right_part m2 ["DeliveryDate"; "HOUR_ENDING"] ["DELIVERY_DATE"; "HOUR_ENDING"])
    with (drop_cols m2 ["HOUR_ENDING"]) in *.
  set (sys' := set_col df_sys "HOUR_ENDING" hours) in *.
  set (m2' := drop_cols m2 ["HOUR_ENDING"]) in *.
  assert (Gd : get_col sys' "DeliveryDate" = Ok dates).
  { unfold sys', df_sys. rewrite get_col_set_col_other by reflexivity.
    apply get_col_set_col_same. }
  assert (Gh : get_col sys' "HOUR_ENDING" = Ok hours) by apply get_col_set_col_same.
  cbn [mapM] in Hlk3. rewrite Gd, Gh in Hlk3. cbn [bind] in Hlk3. injection Hlk3 as <-.
  match type of Hm with
  | context [join_rows sys' m2' ?p] => remember p as p3 eqn:Ep3
  end.
  remember (join_rows sys' m2' p3) as m3 eqn:Em3.
  set (mapping := [("SystemTotal", "Forecasted Demand");
                   ("COP_HSL_SYSTEM_WIDE_y", "Forecasted Wind Supply");
                   ("COP_HSL_SYSTEM_WIDE_x", "Forecasted Solar Supply")]) in *.
  assert (Rd : forall k, lookup_label mapping k = "DeliveryDate" -> k = "DeliveryDate").
  { intros k. unfold mapping. cbn [lookup_label].
    destruct (String.eqb "SystemTotal" k); [discriminate|].
    destruct (String.eqb "COP_HSL_SYSTEM_WIDE_y" k); [discriminate|].
    destruct (String.eqb "COP_HSL_SYSTEM_WIDE_x" k); [discriminate|]. auto. }
  assert (Rh : forall k, lookup_label mapping k = "HOUR_ENDING" -> k = "HOUR_ENDING").
  { intros k. unfold mapping. cbn [lookup_label].
    destruct (String.eqb "SystemTotal" k); [discriminate|].
    destruct (String.eqb "COP_HSL_SYSTEM_WIDE_y" k); [discriminate|].
    destruct (String.eqb "COP_HSL_SYSTEM_WIDE_x" k); [discriminate|]. auto. }
  assert (G3h : get_col (rename m3 mapping) "HOUR_ENDING" = Ok (take (map fst p3) hours)).
  { refine (get_col_rename m3 mapping "HOUR_ENDING" _ _ _).
    - rewrite Em3. apply (join_left_unshared sys' m2' p3 _ _ Gh); [|reflexivity].
      unfold m2'. rewrite columns_drop_cols. intros (_ & Hn). apply Hn. now left.
    - intros k _ Hk. now apply Rh. }
  assert (G3d : get_col (rename m3 mapping) "DeliveryDate" = Ok (take (map fst p3) dates)).
  { destruct (in_dec string_dec "DeliveryDate" (columns m2')) as [Hin | Hout].
    - exfalso.
      assert (Hno : ~ In "DeliveryDate" (columns (rename m3 mapping))).
      { rewrite columns_rename. intros Hk. apply in_map_iff in Hk as (k & Hk & Hin3).
        apply Rd in Hk. subst k. rewrite Em3 in Hin3.
        apply join_labels in Hin3 as [[_ Hn] | [[_ Hn] | [Hn | Hn]]];
          try discriminate Hn; apply Hn; eauto using get_col_columns. }
      rewrite (get_col_missing _ _ Hno) in H. discriminate H.
    - refine (get_col_rename m3 mapping "DeliveryDate" _ _ _).
      + rewrite Em3.
        apply (join_left_unshared sys' m2' p3 _ _ Gd); [exact Hout | reflexivity].
      + intros k _ Hk. now apply Rd. }
  rewrite G3d, G3h in H. cbn [bind] in H.
  (* the rows *)
  assert (R3 : Forall (fun i => (i < List.length rows)%nat) (map fst p3)).
  { apply Forall_forall. intros i Hi. apply in_map_iff in Hi as (p & <- & Hp).
    rewrite Ep3 in Hp.
    apply inner_pairs_range in Hp as (Hp & _). cbn [key_rows] in Hp.
    unfold dates in Hp. now rewrite length_map in Hp. }
  set (joined := map (fun i => nth i rows no_row) (map fst p3)).
  assert (Hinc : incl joined rows) by exact (nth_incl rows no_row _ R3).
  assert (Hwf : Forall well_formed_row joined).
  { apply Forall_forall. intros r Hr. rewrite Forall_forall in Hrows. auto. }
  unfold dates, hours in H.
  rewrite !(take_map_range _ rows no_row _ R3) in H. fold joined in H.
  rewrite (canonical_datetime_rows joined Hwf) in H. cbn [bind] in H.
  injection H as <-.
  exists joined. split; [exact Hinc|].
  rewrite !get_col_set_col_other by reflexivity.
  rewrite get_col_set_col_same.
  rewrite (derive_metrics_other v _ derived "DeliveryDate" Hm eq_refl).
  rewrite (derive_metrics_other v _ derived "HOUR_ENDING" Hm eq_refl).
  rewrite G3d, G3h. unfold dates, hours.
  rewrite !(take_map_range _ rows no_row _ R3). fold joined.
  repeat split; reflexivity.
Qed.

(** C1, as the code has it.  For rows whose date cell parses to a date D
    and whose hour-ending cell stands for an hour H in 1..24, the
    timestamp is (H-1):00 on the same date D; hour-ending 24 is 23:00 of
    D, not midnight of the next day.  On the day-ahead tables of Phase 2
    and on the system forecast of Phase 1 (whose rows reach the finished
    table through the joins) the hour may be an integer or a clock text
    whose leading component is H.  On the real-time table of Phase 2 the
    hour must be an integer: a clock text there is not reduced and the
    subtraction of 1 raises a type error. *)
Theorem hour_ending_maps_to_previous_clock_hour (rows : list hour_row) :
  Forall well_formed_row rows ->
  (forall df,
      get_col df "DeliveryDate" = Ok (map raw_date rows) ->
      get_col df "HourEnding" = Ok (map raw_hour rows) ->
      exists out,
        Phase2.normalize_dam df = Ok out /\
        get_col out "DeliveryDate"
        = Ok (map (fun r => CTime (midnight (row_date r))) rows) /\
        get_col out "HourEnding" = Ok (map (fun r => CInt (row_hour r)) rows) /\
        get_col out "datetime" = Ok (map (fun r => CTime (canonical_timestamp r)) rows)) /\
  (forall df_solar df_wind df_sys df_hroc df_mora,
      get_col df_sys "DeliveryDate" = Ok (map raw_date rows) ->
      get_col df_sys "HourEnding" = Ok (map raw_hour rows) ->
      exists parsed,
        Phase1.parse_dates df_sys "DeliveryDate" = Ok parsed /\
        forall out,
          Phase1.forecast_table df_solar df_wind parsed df_hroc df_mora = Ok out ->
          exists joined : list hour_row,
            incl joined rows /\
            get_col out "DeliveryDate"
            = Ok (map (fun r => CTime (midnight (row_date r))) joined) /\
            get_col out "HOUR_ENDING" = Ok (map (fun r => CInt (row_hour r)) joined) /\
            get_col out "datetime"
            = Ok (map (fun r => CTime (canonical_timestamp r)) joined)) /\
  (forall df,
      empty df = false ->
      get_col df "deliveryDate" = Ok (map raw_date rows) ->
      get_col df "deliveryHour" = Ok (map raw_hour rows) ->
      (Forall (fun r => raw_hour r = CInt (row_hour r)) rows ->
       exists out,
         Phase2.normalize_rtm df = Ok out /\
         get_col out "datetime"
         = Ok (map (fun r => CTime (canonical_timestamp r)) rows)) /\
      (forall r s, In r rows -> raw_hour r = CStr s ->
                   Phase2.normalize_rtm df = Raise TypeError)).
Proof.
  intros Hrows. split; [|split].
  - intros df Hd Hh. now apply normalize_dam_rows.
  - intros df_solar df_wind df_sys df_hroc df_mora Hd Hh.
    exists (set_col df_sys "DeliveryDate"
                    (map (fun r => CTime (midnight (row_date r))) rows)).
    split.
    + unfold Phase1.parse_dates. rewrite Hd, (to_datetime_rows rows Hrows). reflexivity.
    + intros out Hout.
      exact (forecast_table_rows df_solar df_wind df_sys df_hroc df_mora out rows
               Hrows Hd Hh Hout).
  - intros df He Hd Hh. split.
    + intros Hint. now apply normalize_rtm_rows.
    + intros r s Hin Hs. exact (normalize_rtm_clock_text df rows r s Hrows Hin Hs He Hd Hh).
Qed.

Lemma sample_rows_well_formed :
  Forall well_formed_row sample_rows /\ Forall well_formed_row sample_sys_rows /\
  Forall well_formed_row sample_int_rows /\ Forall well_formed_row sample_clock_rows.
Proof.
  repeat split; repeat constructor; simpl; try lia;
    try (apply (hour_clock 24 "24" "00"); reflexivity);
    try (apply (hour_clock 1 "1" "00"); reflexivity);
    try (apply (hour_clock 2 "2" "00"); reflexivity).
Qed.

Lemma hour_ending_maps_to_previous_clock_hour_witness :
  (exists out,
      Phase2.normalize_dam (hour_frame "DeliveryDate" "HourEnding" sample_rows) = Ok out /\
      get_col out "datetime"
      = Ok [CTime (Timestamp (Date 2024 1 10) 23 0); CTime (Timestamp (Date 2024 1 10) 0 0)]) /\
  (exists out,
      Phase1.forecast_table sample_solar sample_wind sample_sys sample_hroc
                            (sample_mora (CFloat 5000)) = Ok out /\
      get_col out "datetime"
      = Ok [CTime (Timestamp (Date 2024 1 10) 0 0); CTime (Timestamp (Date 2024 1 10) 1 0)]) /\
  (exists out,
      Phase2.normalize_rtm (hour_frame "deliveryDate" "deliveryHour" sample_int_rows) = Ok out /\
      get_col out "datetime" = Ok [CTime (Timestamp (Date 2024 1 10) 23 0)]) /\
  Phase2.normalize_rtm (hour_frame "deliveryDate" "deliveryHour" sample_clock_rows)
  = Raise TypeError.
Proof.
  destruct sample_rows_well_formed as (W1 & W2 & W3 & W4).
  split; [|split; [|split]].
  - destruct (proj1 (hour_ending_maps_to_previous_clock_hour sample_rows W1)
                (hour_frame "DeliveryDate" "HourEnding" sample_rows) eq_refl eq_refl)
      as (out & Hout & _ & _ & Hdt).
    exists out. split; [exact Hout | exact Hdt].
  - destruct (proj1 (proj2 (hour_ending_maps_to_previous_clock_hour sample_sys_rows W2))
                sample_solar sample_wind sample_sys sample_hroc (sample_mora (CFloat 5000))
                eq_refl eq_refl)
      as (parsed & Hparsed & Hrun).
    vm_compute in Hparsed. injection Hparsed as <-.
    destruct (Phase1.forecast_table sample_solar sample_wind sample_sys sample_hroc
                (sample_mora (CFloat 5000))) as [out|e] eqn:E;
      [|vm_compute in E; discriminate E].
    exists out. split; [reflexivity|].
    destruct (Hrun out E) as (joined & _ & _ & _ & Hdt).
    rewrite Hdt. vm_compute in E. injection E as <-.
    vm_compute in Hdt. exact (eq_sym Hdt).
  - destruct (proj2 (proj2 (hour_ending_maps_to_previous_clock_hour sample_int_rows W3))
                (hour_frame "deliveryDate" "deliveryHour" sample_int_rows)
                eq_refl eq_refl eq_refl) as (Hint & _).
    destruct Hint as (out & Hout & Hdt); [repeat constructor|].
    exists out. split; [exact Hout | exact Hdt].
  - destruct (proj2 (proj2 (hour_ending_maps_to_previous_clock_hour sample_clock_rows W4))
                (hour_frame "deliveryDate" "deliveryHour" sample_clock_rows)
                eq_refl eq_refl eq_refl) as (_ & Hclock).
    exact (Hclock _ "24:00" (or_introl eq_refl) eq_refl).
Defined.

(** A real-time table whose hour is a clock text is not normalised: the
    run stops at the subtraction. *)
Lemma real_time_clock_text_is_not_reduced :
  ~ (forall (df : DataFrame) (rows : list hour_row),
        Forall well_formed_row rows ->
        empty df = false ->
        get_col df "deliveryDate" = Ok (map raw_date rows) ->
        get_col df "deliveryHour" = Ok (map raw_hour rows) ->
        exists out,
          Phase2.normalize_rtm df = Ok out /\
          get_col out "datetime"
          = Ok (map (fun r => CTime (canonical_timestamp r)) rows)).
Proof.
  intros H.
  destruct (H (hour_frame "deliveryDate" "deliveryHour" sample_clock_rows) sample_clock_rows)
    as (out & Hout & _).
  - apply sample_rows_well_formed.
  - reflexivity.
  - reflexivity.
  - reflexivity.
  - vm_compute in Hout. discriminate Hout.
Qed.
(** ** Phase 2: the paginated fetch *)

Lemma query_pages_run (E : env) (url token : string) (size : nat) (n : nat) :
  forall (start : nat) (rows : list record) (st : state) (fuel : nat) (last : payload),
    (forall p, (start <= p < start + n)%nat -> Phase2.full_page E url token size p) ->
    api_get E url token (text_of (API_KEY E)) (start + n) = Ok last ->
    (List.length (page_rows last) < size)%nat ->
    (n < fuel)%nat ->
    Phase2.query_pages E fuel url token size start rows st
    = Some (Ok ((rows ++ Phase2.served_rows E url token start (S n))%list, last),
            State (files st) (trace st ++ map (ApiGet url) (seq start (S n)))%list).
Proof.
  induction n as [|n IH]; intros start rows st fuel last Hfull Hlast Hshort Hfuel.
  - destruct fuel as [|fuel]; [lia|].
    rewrite Nat.add_0_r in Hlast.
    unfold Phase2.served_rows. simpl.
    unfold mbind, emit, lift. simpl. rewrite Hlast.
    apply Nat.ltb_lt in Hshort. rewrite Hshort.
    unfold ret. now rewrite app_nil_r.
  - destruct fuel as [|fuel]; [lia|].
    destruct (Hfull start ltac:(lia)) as (p & Hp & Hlen).
    cbn [Phase2.query_pages].
    unfold mbind at 1. unfold emit at 1. cbn [files trace].
    unfold mbind at 1. unfold lift at 1. rewrite Hp.
    assert (Hge : Nat.ltb (List.length (page_rows p)) size = false)
      by (apply Nat.ltb_ge; exact Hlen).
    rewrite Hge.
    rewrite (IH (S start) (rows ++ page_rows p)%list _ fuel last).
    + cbn [files trace]. f_equal. f_equal.
      * f_equal. rewrite <- app_assoc. f_equal.
        unfold Phase2.served_rows. cbn [seq flat_map]. now rewrite Hp.
      * f_equal. rewrite <- app_assoc. reflexivity.
    + intros q Hq. apply Hfull. lia.
    + replace (S start + n)%nat with (start + S n)%nat by lia. exact Hlast.
    + exact Hshort.
    + lia.
Qed.


(** C6.  The client asks for pages 1, 2, ... of a fixed size and stops at
    the first page with fewer rows than the size: when pages 1..k-1 are
    full and page k is short, any fuel of at least k ends the loop after
    exactly the k requests for pages 1..k, with the rows of those pages
    concatenated in the order served. *)
Theorem paging_stops_at_first_short_page
        (E : env) (url token : string) (size k : nat) (last : payload)
        (fuel : nat) (st : state) :
  (1 <= k)%nat ->
  (forall p, (1 <= p < k)%nat -> Phase2.full_page E url token size p) ->
  api_get E url token (text_of (API_KEY E)) k = Ok last ->
  (List.length (page_rows last) < size)%nat ->
  (k <= fuel)%nat ->
  Phase2.query_pages E fuel url token size 1 [] st
  = Some (Ok (Phase2.served_rows E url token 1 k, last),
          State (files st) (trace st ++ map (ApiGet url) (seq 1 k))%list).
Proof.
  intros Hk Hfull Hlast Hshort Hfuel.
  destruct k as [|n]; [lia|].
  rewrite (query_pages_run E url token size n 1 [] st fuel last)
    by (try assumption; lia).
  reflexivity.
Qed.

Lemma paging_stops_at_first_short_page_witness :
  Phase2.query_pages (with_api offline_env three_pages) 3 "reports" "token" 2 1 [] start
  = Some (Ok ([hour_record 1; hour_record 2; hour_record 3; hour_record 4; hour_record 5],
              Payload (Some [hour_record 5]) None),
          State [] [ApiGet "reports" 1; ApiGet "reports" 2; ApiGet "reports" 3]).
Proof.
  apply (paging_stops_at_first_short_page
           (with_api offline_env three_pages) "reports" "token" 2 3
           (Payload (Some [hour_record 5]) None) 3 start).
  - lia.
  - intros p Hp. assert (p = 1 \/ p = 2)%nat as [-> | ->] by lia;
      (eexists; split; [reflexivity | simpl; lia]).
  - reflexivity.
  - simpl. lia.
  - lia.
Defined.

(** ** Files *)

Lemma read_file_app_last (fs : filesystem) (path : string) (f : file) :
  read_file fs path = None -> read_file (fs ++ [(path, f)])%list path = Some f.
Proof.
  induction fs as [|[p g] fs IH]; simpl.
  - now rewrite String.eqb_refl.
  - destruct (String.eqb p path); [discriminate | exact IH].
Qed.

Lemma read_file_remove_same (fs : filesystem) (path : string) :
  read_file (remove_file fs path) path = None.
Proof.
  induction fs as [|[p g] fs IH]; simpl; [reflexivity|].
  destruct (String.eqb p path) eqn:Eq; simpl; [exact IH|]. now rewrite Eq.
Qed.

Lemma read_file_write_file (fs : filesystem) (path : string) (f : file) :
  read_file (write_file fs path f) path = Some f.
Proof. unfold write_file. apply read_file_app_last, read_file_remove_same. Qed.

(** ** Phase 2: the labels of the fetched table *)








(** ** The archive fetcher *)

Lemma append_inj_l (pre a b : string) : pre ++ a = pre ++ b -> a = b.
Proof. induction pre; simpl; intros H; [exact H | injection H; auto]. Qed.

Lemma read_file_remove_other (fs : filesystem) (p q : string) :
  p <> q -> read_file (remove_file fs q) p = read_file fs p.
Proof.
  intros Hpq. induction fs as [|[k f] fs IH]; simpl; [reflexivity|].
  destruct (String.eqb k q) eqn:Ekq; simpl.
  - apply String.eqb_eq in Ekq. subst k.
    destruct (String.eqb q p) eqn:Eqp; [|exact IH].
    apply String.eqb_eq in Eqp. congruence.
  - destruct (String.eqb k p); [reflexivity | exact IH].
Qed.

Lemma read_file_app_other (fs : filesystem) (p q : string) (f : file) :
  p <> q -> read_file (fs ++ [(q, f)])%list p = read_file fs p.
Proof.
  intros Hpq. induction fs as [|[k g] fs IH]; simpl.
  - destruct (String.eqb q p) eqn:E; [|reflexivity].
    apply String.eqb_eq in E. congruence.
  - destruct (String.eqb k p); [reflexivity | exact IH].
Qed.

Lemma read_file_write_other (fs : filesystem) (p q : string) (f : file) :
  p <> q -> read_file (write_file fs q f) p = read_file fs p.
Proof.
  intros H. unfold write_file.
  now rewrite read_file_app_other, read_file_remove_other.
Qed.








Lemma startswith_same_prefix (pre a b : string) :
  startswith (pre ++ a) (pre ++ b) = startswith a b.
Proof. induction pre as [|c pre IH]; simpl; [reflexivity|]. now rewrite Ascii.eqb_refl. Qed.

Lemma startswith_has_slash (a n : string) :
  startswith (a ++ "/") n = true -> has_char "/" n = true.
Proof.
  revert n. induction a as [|c a IH]; intros [|d n];
    cbn [append startswith has_char]; try discriminate.
  - intros H. apply andb_prop in H as (H & _). rewrite Ascii.eqb_sym, H. reflexivity.
  - intros H. apply andb_prop in H as (_ & H). rewrite (IH n H). apply orb_true_r.
Qed.


Lemma existsb_remove_file (g : string * file -> bool) (fs : filesystem) (p : string) :
  existsb g fs = false -> existsb g (remove_file fs p) = false.
Proof.
  unfold remove_file. induction fs as [|x fs IH]; simpl; [auto|].
  intros H. apply orb_false_iff in H as (Hx & Hfs).
  destruct (negb (String.eqb (fst x) p)); simpl; [rewrite Hx|]; auto.
Qed.

Lemma existsb_write_file (g : string * file -> bool) (fs : filesystem) (p : string) (f : file) :
  existsb g fs = false -> g (p, f) = false -> existsb g (write_file fs p f) = false.
Proof.
  intros Hfs Hp. unfold write_file. rewrite existsb_app.
  rewrite (existsb_remove_file g fs p Hfs). simpl. now rewrite Hp.
Qed.

Lemma isdir_write_file (fs : filesystem) (p q : string) (f : file) :
  isdir fs q = false -> below q p = false -> isdir (write_file fs p f) q = false.
Proof.
  unfold isdir. intros H Hb.
  apply orb_false_iff in H as (H0 & H).
  rewrite H0. cbn [orb]. now apply existsb_write_file.
Qed.







(** ** Phase 2: the run without real-time prices *)

Lemma mbind_ok {A B : Type} (m : M A) (k : A -> M B) (st st' : state) (a : A) :
  m st = Some (Ok a, st') -> mbind m k st = k a st'.
Proof. intros H. unfold mbind. now rewrite H. Qed.


Lemma slack_uploads_run (E : env) (paths : list string) (st : state) :
  Forall (fun p => read_file (files st) p <> None) paths ->
  exists notes,
    slack_uploads E paths st = Some (Ok tt, State (files st) (trace st ++ notes)%list) /\
    forallb is_slack_event notes = true.
Proof.
  revert st. induction paths as [|p paths IH]; intros st Hfiles.
  - exists []. simpl. unfold ret. rewrite app_nil_r. destruct st; auto.
  - inversion Hfiles as [|? ? Hp Hrest]; subst.
    cbn [slack_uploads]. unfold mbind at 1. unfold get_files at 1.
    destruct (read_file (files st) p) as [f|]; [|contradiction].
    unfold mbind, emit. cbn [files trace].
    destruct (slack_upload E p).
    + destruct (IH (State (files st) (trace st ++ [SlackUpload p])%list) Hrest)
        as (notes & Hn & Hs).
      exists (SlackUpload p :: notes). rewrite Hn. cbn [files trace].
      rewrite <- app_assoc. split; [reflexivity | exact Hs].
    + exists [SlackUpload p]. split; reflexivity.
Qed.





Lemma rtm_fetch_without_credentials (E : env) (fuel : nat) (dir : string) (st : state) :
  Phase2.has_credentials E = false ->
  Phase2.get_api_rtm_spp_yesterday E fuel dir st = Some (Ok None, st).
Proof. intros H. unfold Phase2.get_api_rtm_spp_yesterday. now rewrite H. Qed.




(** ** Phase 2: an API that has no rows *)





(** ** Phase 2: the DART panel *)

Lemma get_col_map (f : Series -> Series) (df : DataFrame) (name : string) :
  get_col (map (fun '(n, s) => (n, f s)) df) name
  = match get_col df name with
    | Ok s => Ok (f s)
    | Raise e => Raise e
    end.
Proof.
  induction df as [|[n s] df IH]; simpl; [reflexivity|].
  destruct (String.eqb n name); [reflexivity | exact IH].
Qed.

Lemma date_eqb_eq (a b : date) : date_eqb a b = true <-> a = b.
Proof.
  destruct a, b. unfold date_eqb. simpl. rewrite !andb_true_iff, !Z.eqb_eq.
  split; [intros [[-> ->] ->]; reflexivity | intros [= -> -> ->]; auto].
Qed.

Lemma ts_eqb_eq (a b : timestamp) : ts_eqb a b = true <-> a = b.
Proof.
  destruct a, b. unfold ts_eqb. simpl.
  rewrite !andb_true_iff, !Z.eqb_eq, date_eqb_eq.
  split; [intros [[-> ->] ->]; reflexivity | intros [= -> -> ->]; auto].
Qed.

Lemma ts_eqb_refl (t : timestamp) : ts_eqb t t = true.
Proof. now apply ts_eqb_eq. Qed.

Lemma cell_eqb_text (c : cell) (s : string) : cell_eqb c (CStr s) = true <-> c = CStr s.
Proof.
  destruct c; simpl; split; try discriminate.
  - intros H. apply String.eqb_eq in H. congruence.
  - intros [= ->]. apply String.eqb_refl.
Qed.

Lemma cell_eqb_time (c : cell) (t : timestamp) : cell_eqb c (CTime t) = true <-> c = CTime t.
Proof.
  destruct c; simpl; split; try discriminate.
  - intros H. apply ts_eqb_eq in H. congruence.
  - intros [= ->]. apply ts_eqb_refl.
Qed.

(** *** Distinct, sorted group keys *)

Lemma existsb_ts_eqb (x : timestamp) (l : list timestamp) :
  existsb (ts_eqb x) l = true <-> In x l.
Proof.
  rewrite existsb_exists. split.
  - intros (y & Hy & E). apply ts_eqb_eq in E. now subst.
  - intros H. exists x. split; [exact H | apply ts_eqb_refl].
Qed.

Lemma distinct_In (l : list timestamp) (t : timestamp) : In t (distinct l) <-> In t l.
Proof.
  induction l as [|x l IH]; simpl; [tauto|].
  destruct (existsb (ts_eqb x) l) eqn:E.
  - apply existsb_ts_eqb in E. rewrite IH. split; [auto|]. intros [<- | H]; auto.
  - simpl. rewrite IH. tauto.
Qed.

Lemma distinct_NoDup (l : list timestamp) : NoDup (distinct l).
Proof.
  induction l as [|x l IH]; simpl; [constructor|].
  destruct (existsb (ts_eqb x) l) eqn:E; [exact IH|].
  constructor; [|exact IH]. rewrite distinct_In. intros H.
  apply existsb_ts_eqb in H. congruence.
Qed.

Lemma insert_time_In (x t : timestamp) (l : list timestamp) :
  In t (insert_time x l) <-> t = x \/ In t l.
Proof.
  induction l as [|y l IH]; simpl; [intuition|].
  destruct (ts_key x <=? ts_key y); simpl; [intuition|]. rewrite IH. intuition.
Qed.

Lemma insert_time_NoDup (x : timestamp) (l : list timestamp) :
  ~ In x l -> NoDup l -> NoDup (insert_time x l).
Proof.
  intros Hx Hl. induction Hl as [|y l Hy Hl IH]; simpl.
  - constructor; [auto | constructor].
  - destruct (ts_key x <=? ts_key y).
    + constructor; [exact Hx | now constructor].
    + constructor.
      * rewrite insert_time_In. intros [-> | H]; [apply Hx; now left | contradiction].
      * apply IH. intros H. apply Hx. now right.
Qed.

Lemma sort_times_In (l : list timestamp) (t : timestamp) : In t (sort_times l) <-> In t l.
Proof.
  unfold sort_times. induction l as [|x l IH]; simpl; [tauto|].
  rewrite insert_time_In, IH. intuition.
Qed.

Lemma sort_times_NoDup (l : list timestamp) : NoDup l -> NoDup (sort_times l).
Proof.
  unfold sort_times. induction 1 as [|x l Hx Hl IH]; simpl; [constructor|].
  apply insert_time_NoDup; [|exact IH].
  fold (sort_times l). now rewrite sort_times_In.
Qed.

(** *** Rows selected for the settlement point *)

Lemma selected_times (points times : Series) (sp : string) (ks : list timestamp) :
  mapM as_time (select (eq_mask points sp) times) = Ok ks ->
  forall t, In t ks <-> has_row points times sp t.
Proof.
  unfold has_row, eq_mask. revert times ks.
  induction points as [|p points IH]; intros times ks H t.
  - simpl in H. injection H as <-. simpl. tauto.
  - destruct times as [|d times]; simpl in H.
    + destruct (cell_eqb p (CStr sp)); injection H as <-; simpl; tauto.
    + destruct (cell_eqb p (CStr sp)) eqn:Ep.
      * cbn [mapM] in H. destruct d as [n|s|t0]; try discriminate.
        cbn [as_time bind] in H. invert_bind H. injection H as <-.
        apply cell_eqb_text in Ep. subst p. simpl.
        rewrite (IH _ _ E t). split.
        -- intros [-> | Hin]; auto.
        -- intros [[= ->] | Hin]; auto.
      * simpl. rewrite (IH _ _ H t). split; [auto|].
        intros [[= -> _] | Hin]; [|exact Hin].
        rewrite (proj2 (cell_eqb_text _ _) eq_refl) in Ep. discriminate.
Qed.

Lemma selected_prices (points times prices : Series) (sp : string)
      (ks : list timestamp) (vs : list number) (t : timestamp) :
  mapM as_time (select (eq_mask points sp) times) = Ok ks ->
  mapM as_number (select (eq_mask points sp) prices) = Ok vs ->
  values_at t ks vs = prices_at points times prices sp t.
Proof.
  unfold eq_mask, values_at. revert times prices ks vs.
  induction points as [|p points IH]; intros times prices ks vs Hk Hv.
  - simpl in Hk. injection Hk as <-. reflexivity.
  - destruct times as [|d times].
    + simpl in Hk. destruct (cell_eqb p (CStr sp)); injection Hk as <-; reflexivity.
    + destruct prices as [|v prices].
      * simpl in Hv. destruct (cell_eqb p (CStr sp)); injection Hv as <-;
          simpl; rewrite combine_nil; reflexivity.
      * simpl in Hk, Hv. cbn [prices_at].
        destruct (cell_eqb p (CStr sp)) eqn:Ep; cbn [andb].
        -- cbn [mapM] in Hk, Hv.
           destruct d as [n|s|t0]; try discriminate.
           cbn [as_time bind] in Hk. invert_bind Hk. injection Hk as <-.
           destruct v as [n|s|t1]; try discriminate.
           cbn [as_number bind] in Hv. invert_bind Hv. injection Hv as <-.
           cbn [combine filter fst cell_eqb].
           destruct (ts_eqb t0 t); cbn [map snd]; rewrite (IH _ _ _ _ E E0); reflexivity.
        -- apply (IH _ _ _ _ Hk Hv).
Qed.

Lemma lookup_row_missing (index col : Series) (t : timestamp) :
  Forall (fun c => cell_eqb c (CTime t) = false) index -> lookup_row index col t = CNaN.
Proof.
  intros H. revert col. induction H as [|k index Hk _ IH]; intros col; simpl.
  - reflexivity.
  - destruct col as [|v col]; [reflexivity|]. rewrite Hk. apply IH.
Qed.

Lemma select_In {A B : Type} (f : A -> bool) (a : list A) (b : list B) (y : B) :
  In y (select (map f a) b) -> exists x, In (x, y) (combine a b) /\ f x = true.
Proof.
  revert b. induction a as [|x a IH]; intros b H; simpl in H; [contradiction|].
  destruct b as [|z b]; [destruct (f x); contradiction|].
  destruct (f x) eqn:E.
  - destruct H as [<- | H].
    + exists x. split; [now left | exact E].
    + destruct (IH _ H) as (x' & Hin & Hx). exists x'. split; [now right | exact Hx].
  - destruct (IH _ H) as (x' & Hin & Hx). exists x'. split; [now right | exact Hx].
Qed.

Lemma zip_with_nth {A : Type} (f : cell -> cell -> result A) (a b : Series) (c : list A)
      (i : nat) (x y : cell) :
  zip_with f a b = Ok c -> nth_error a i = Some x -> nth_error b i = Some y ->
  exists z, nth_error c i = Some z /\ f x y = Ok z.
Proof.
  revert b c i. induction a as [|x0 a IH]; intros b c i H Ha Hb.
  - destruct i; discriminate.
  - destruct b as [|y0 b]; [destruct i; discriminate|].
    cbn [zip_with] in H. invert_bind H. invert_bind H. injection H as <-.
    destruct i as [|i]; simpl in Ha, Hb.
    + injection Ha as <-. injection Hb as <-. exists a0. split; [reflexivity | exact E].
    + simpl. eapply IH; eauto.
Qed.

Lemma get_col_drop_cols (df : DataFrame) (names : list string) (name : string) :
  mem name names = false -> get_col (drop_cols df names) name = get_col df name.
Proof.
  intros H. unfold drop_cols. induction df as [|[n s] df IH]; simpl; [reflexivity|].
  destruct (String.eqb n name) eqn:E.
  - apply String.eqb_eq in E. subst n. rewrite H. simpl. now rewrite String.eqb_refl.
  - destruct (mem n names); simpl; [exact IH|]. now rewrite E.
Qed.

Lemma select_combine {A B C : Type} (f : A -> bool) (a : list A) (b : list B) (c : list C)
      (x : A) (y : B) (z : C) :
  In ((x, y), z) (combine (combine a b) c) -> f x = true ->
  In (y, z) (combine (select (map f a) b) (select (map f a) c)).
Proof.
  revert b c. induction a as [|x0 a IH]; intros b c H Hx; [contradiction|].
  destruct b as [|y0 b]; [contradiction|].
  destruct c as [|z0 c]; [contradiction|].
  simpl in H. simpl. destruct H as [[= -> -> ->] | H].
  - rewrite Hx. now left.
  - destruct (f x0); [right|]; now apply IH.
Qed.

Lemma lookup_row_unique (index col : Series) (t : timestamp) (p : cell) :
  has_duplicates index = false -> In (CTime t, p) (combine index col) ->
  lookup_row index col t = p.
Proof.
  revert col. induction index as [|k index IH]; intros col Hd Hin; [contradiction|].
  destruct col as [|v col]; [contradiction|].
  simpl in Hd. apply orb_false_iff in Hd as [Hk Hd].
  simpl in Hin. cbn [lookup_row]. destruct Hin as [[= -> ->] | Hin].
  - cbn [cell_eqb]. now rewrite ts_eqb_refl.
  - destruct (cell_eqb k (CTime t)) eqn:E; [|now apply IH].
    apply cell_eqb_time in E. subst k. exfalso.
    apply in_combine_l in Hin.
    assert (existsb (cell_eqb (CTime t)) index = true); [|congruence].
    apply existsb_exists. exists (CTime t). split; [exact Hin | apply ts_eqb_refl].
Qed.

Lemma nth_error_map_some {A B : Type} (f : A -> B) (l : list A) (i : nat) (a : A) :
  nth_error l i = Some a -> nth_error (map f l) i = Some (f a).
Proof. intros H. now rewrite nth_error_map, H. Qed.

(** C3, as the code has it.  For one settlement point the panel has one
    entry per distinct real-time timestamp of that point: the real-time
    value is the mean of the real-time prices listed for that timestamp,
    the spread is the day-ahead value minus that mean, and the day-ahead
    value is the day-ahead price at the same timestamp when the day-ahead
    table has that row.  A timestamp only the day-ahead table has gives no
    entry; a timestamp only the real-time table has keeps its entry, with
    a blank day-ahead value and a blank spread. *)
Theorem dart_spread_follows_real_time_hours
        (dam_yday rtm_yday : DataFrame) (sp : string) (panel : Phase2.dart_panel)
        (rsp rdt rpr dsp ddt dpr : Series) :
  get_col rtm_yday "settlementPoint" = Ok rsp ->
  get_col rtm_yday "datetime" = Ok rdt ->
  get_col rtm_yday "settlementPointPrice" = Ok rpr ->
  get_col dam_yday "SettlementPoint" = Ok dsp ->
  get_col dam_yday "datetime" = Ok ddt ->
  get_col dam_yday "SettlementPointPrice" = Ok dpr ->
  Phase2.plot_dart dam_yday rtm_yday sp = Ok panel ->
  exists hours : list timestamp,
    Phase2.dart_datetime panel = map CTime hours /\
    NoDup hours /\
    (forall t, In t hours <-> has_row rsp rdt sp t) /\
    Phase2.dart_rtm panel
    = map (fun t => CNum (mean (prices_at rsp rdt rpr sp t))) hours /\
    series_sub (Phase2.dart_dam panel) (Phase2.dart_rtm panel)
    = Ok (Phase2.dart_spread panel) /\
    (forall i t p,
        nth_error hours i = Some t ->
        In ((CStr sp, CTime t), p) (combine (combine dsp ddt) dpr) ->
        nth_error (Phase2.dart_dam panel) i = Some p) /\
    (forall i t,
        nth_error hours i = Some t ->
        ~ has_row dsp ddt sp t ->
        nth_error (Phase2.dart_dam panel) i = Some CNaN /\
        nth_error (Phase2.dart_spread panel) i = Some CNaN).
Proof.
  intros Hrsp Hrdt Hrpr Hdsp Hddt Hdpr H.
  unfold Phase2.plot_dart, where_eq in H.
  rewrite Hdsp, Hrsp in H. cbn [bind] in H.
  unfold groupby_mean in H. rewrite !get_col_map, Hrdt, Hrpr in H. cbn [bind] in H.
  destruct (mapM as_time (select (eq_mask rsp sp) rdt)) as [ks|] eqn:Eks;
    [cbn [bind] in H | discriminate].
  destruct (mapM as_number (select (eq_mask rsp sp) rpr)) as [vs|] eqn:Evs;
    [cbn [bind] in H | discriminate].
  rewrite map_map in H. cbn [fst] in H. rewrite map_id in H.
  set (hours := sort_times (distinct ks)) in *.
  unfold reindex in H. rewrite get_col_map, Hddt in H. cbn [bind] in H.
  set (index := select (eq_mask dsp sp) ddt) in *.
  destruct (has_duplicates index && negb (Nat.eqb (List.length hours) 0)) eqn:Edup;
    [discriminate|]. cbn [bind] in H.
  cbn [get_col] in H. cbn [String.eqb Ascii.eqb Bool.eqb] in H.
  rewrite get_col_map, get_col_drop_cols, get_col_map, Hdpr in H by reflexivity.
  cbn [bind] in H.
  set (dcol := select (eq_mask dsp sp) dpr) in *.
  rewrite map_map in H. cbn [snd] in H.
  destruct (series_sub (map (lookup_row index dcol) hours)
                       (map (fun t => CNum (mean (values_at t ks vs))) hours))
    as [spread|] eqn:Esp; [cbn [bind] in H | discriminate].
  injection H as <-. cbn [Phase2.dart_datetime Phase2.dart_dam Phase2.dart_rtm
                          Phase2.dart_spread].
  exists hours. split; [reflexivity|].
  split; [apply sort_times_NoDup, distinct_NoDup|].
  split.
  { intros t. unfold hours. rewrite sort_times_In, distinct_In.
    now apply selected_times. }
  split.
  { apply map_ext. intros t. now rewrite (selected_prices rsp rdt rpr sp ks vs t). }
  split; [exact Esp|].
  assert (Hnodup : forall i t, nth_error hours i = Some t -> has_duplicates index = false).
  { intros i t Hi. apply andb_false_iff in Edup as [Hd | Hl]; [exact Hd|].
    apply negb_false_iff, Nat.eqb_eq in Hl.
    destruct hours; [destruct i; discriminate | discriminate]. }
  split.
  - intros i t p Hi Hin.
    rewrite (nth_error_map_some _ _ _ _ Hi). f_equal.
    apply lookup_row_unique; [eauto|].
    unfold index, dcol, eq_mask.
    apply (select_combine (fun c => cell_eqb c (CStr sp)) dsp ddt dpr (CStr sp)); [exact Hin|].
    now apply cell_eqb_text.
  - intros i t Hi Hno.
    assert (Hblank : lookup_row index dcol t = CNaN).
    { apply lookup_row_missing. apply Forall_forall. intros c Hc.
      destruct (cell_eqb c (CTime t)) eqn:E; [|reflexivity].
      apply cell_eqb_time in E. subst c. exfalso. apply Hno.
      unfold index, eq_mask in Hc. apply select_In in Hc as (x & Hin & Hx).
      apply cell_eqb_text in Hx. subst x. exact Hin. }
    assert (Hd : nth_error (map (lookup_row index dcol) hours) i = Some CNaN)
      by (rewrite (nth_error_map_some _ _ _ _ Hi); now rewrite Hblank).
    split; [exact Hd|].
    destruct (zip_with_nth _ _ _ _ i _ _ Esp Hd
                (nth_error_map_some (fun t => CNum (mean (values_at t ks vs))) _ _ _ Hi))
      as (z & Hz & Hsub).
    rewrite Hz. simpl in Hsub. congruence.
Qed.

Lemma dart_spread_follows_real_time_hours_witness :
  Phase2.plot_dart example_dam example_rtm "LZ_NORTH"
  = Ok (Phase2.DartPanel [CTime hour5] [CFloat 30] [CFloat 30] [CFloat 0]) /\
  exists hours : list timestamp,
    [CTime hour5] = map CTime hours /\
    [CFloat 30]
    = map (fun t =>
             CNum (mean (prices_at [CStr "LZ_NORTH"; CStr "LZ_NORTH"; CStr "LZ_NORTH"]
                                   [CTime hour5; CTime hour5; CTime hour5]
                                   [CFloat 28; CFloat 29; CFloat 33] "LZ_NORTH" t)))
          hours /\
    series_sub [CFloat 30] [CFloat 30] = Ok [CFloat 0].
Proof.
  assert (Hrun : Phase2.plot_dart example_dam example_rtm "LZ_NORTH"
                 = Ok (Phase2.DartPanel [CTime hour5] [CFloat 30] [CFloat 30] [CFloat 0]))
    by (vm_compute; reflexivity).
  split; [exact Hrun|].
  destruct (dart_spread_follows_real_time_hours
              example_dam example_rtm "LZ_NORTH" _
              [CStr "LZ_NORTH"; CStr "LZ_NORTH"; CStr "LZ_NORTH"]
              [CTime hour5; CTime hour5; CTime hour5]
              [CFloat 28; CFloat 29; CFloat 33]
              [CStr "LZ_NORTH"] [CTime hour5] [CFloat 30]
              eq_refl eq_refl eq_refl eq_refl eq_refl eq_refl Hrun)
    as (hours & Hdt & _ & _ & Hrtm & Hspread & _).
  exists hours. repeat split; assumption.
Defined.

(** An hour the real-time table alone has is drawn, with a blank spread:
    the alignment is on the real-time hours, not on the hours the two
    tables share. *)
Lemma real_time_only_hour_is_kept :
  ~ (forall (dam_yday rtm_yday : DataFrame) (sp : string) (panel : Phase2.dart_panel)
            (dsp ddt : Series) (t : timestamp),
        get_col dam_yday "SettlementPoint" = Ok dsp ->
        get_col dam_yday "datetime" = Ok ddt ->
        Phase2.plot_dart dam_yday rtm_yday sp = Ok panel ->
        In (CTime t) (Phase2.dart_datetime panel) ->
        has_row dsp ddt sp t).
Proof.
  intros H.
  assert (Hrun : Phase2.plot_dart uneven_dam uneven_rtm "LZ_NORTH"
                 = Ok (Phase2.DartPanel [CTime hour5; CTime hour6] [CFloat 30; CNaN]
                                        [CFloat 28; CFloat 25] [CFloat 2; CNaN]))
    by (vm_compute; reflexivity).
  specialize (H uneven_dam uneven_rtm "LZ_NORTH" _ _ _ hour6 eq_refl eq_refl Hrun).
  cbn [Phase2.dart_datetime] in H.
  specialize (H (or_intror (or_introl eq_refl))).
  unfold has_row in H. simpl in H.
  destruct H as [H | [H | []]]; discriminate H.
Qed.


(** * Further properties of the scripts *)

(** ** The paginated fetch: servers that misbehave *)

(** X1.  A server that answers every page from [first] on with a full
    page keeps the loop asking: no amount of fuel ends it. *)
Theorem paging_never_ends_without_short_page
        (E : env) (url token : string) (size : nat) (fuel : nat) :
  forall (first : nat) (rows : list record) (st : state),
    (forall p, (first <= p)%nat -> Phase2.full_page E url token size p) ->
    Phase2.query_pages E fuel url token size first rows st = None.
Proof.
  induction fuel as [|fuel IH]; intros first rows st Hfull; [reflexivity|].
  destruct (Hfull first (Nat.le_refl _)) as (p & Hp & Hlen).
  cbn [Phase2.query_pages]. unfold mbind at 1. unfold emit at 1.
  unfold mbind at 1. unfold lift at 1. rewrite Hp.
  apply Nat.ltb_ge in Hlen. rewrite Hlen.
  apply IH. intros q Hq. apply Hfull. lia.
Qed.

Lemma paging_never_ends_without_short_page_witness :
  Phase2.query_pages
    (with_api offline_env (fun _ _ _ _ => Ok (Payload (Some [hour_record 1]) None)))
    50 "reports" "token" 1 1 [] start = None.
Proof.
  apply paging_never_ends_without_short_page.
  intros p _. eexists. split; [reflexivity|]. simpl. lia.
Defined.

(** X2.  When pages [first .. first+n-1] are full and the request for
    page [first+n] fails, the loop stops there with that error, after
    exactly [n+1] requests; the rows gathered so far are not returned. *)
Theorem paging_error_is_raised
        (E : env) (url token : string) (size : nat) (n : nat) :
  forall (first : nat) (rows : list record) (st : state) (fuel : nat) (e : exn),
    (forall p, (first <= p < first + n)%nat -> Phase2.full_page E url token size p) ->
    api_get E url token (text_of (API_KEY E)) (first + n) = Raise e ->
    (n < fuel)%nat ->
    Phase2.query_pages E fuel url token size first rows st
    = Some (Raise e,
            State (files st) (trace st ++ map (ApiGet url) (seq first (S n)))%list).
Proof.
  induction n as [|n IH]; intros first rows st fuel e Hfull Herr Hfuel.
  - destruct fuel as [|fuel]; [lia|].
    rewrite Nat.add_0_r in Herr.
    cbn [Phase2.query_pages]. unfold mbind, emit, lift. cbn [files trace].
    rewrite Herr. reflexivity.
  - destruct fuel as [|fuel]; [lia|].
    destruct (Hfull first ltac:(lia)) as (p & Hp & Hlen).
    cbn [Phase2.query_pages].
    unfold mbind at 1. unfold emit at 1. cbn [files trace].
    unfold mbind at 1. unfold lift at 1. rewrite Hp.
    apply Nat.ltb_ge in Hlen. rewrite Hlen.
    rewrite (IH (S first) _ _ fuel e).
    + cbn [files trace]. rewrite <- app_assoc. reflexivity.
    + intros q Hq. apply Hfull. lia.
    + replace (S first + n)%nat with (first + S n)%nat by lia. exact Herr.
    + lia.
Qed.

Lemma paging_error_is_raised_witness :
  Phase2.query_pages (with_api offline_env two_schemas) 5 "reports" "token" 1 1 [] start
  = Some (Raise HTTPError,
          State [] [ApiGet "reports" 1; ApiGet "reports" 2; ApiGet "reports" 3]).
Proof.
  apply (paging_error_is_raised (with_api offline_env two_schemas) "reports" "token" 1 2
                                1 [] start 5 HTTPError).
  - intros p Hp. assert (p = 1 \/ p = 2)%nat as [-> | ->] by lia.
    + eexists. split; [reflexivity|]. vm_compute. lia.
    + eexists. split; [reflexivity|]. simpl. lia.
  - reflexivity.
  - lia.
Defined.

(** ** The API functions: credentials, token and schema *)

Lemma query_pages_trace (E : env) (url token : string) (size : nat) (fuel : nat) :
  forall (first : nat) (rows : list record) (st st' : state)
         (r : result (list record * payload)),
    Phase2.query_pages E fuel url token size first rows st = Some (r, st') ->
    files st' = files st /\ exists evs, trace st' = (trace st ++ evs)%list.
Proof.
  induction fuel as [|fuel IH]; intros first rows st st' r H; [discriminate|].
  cbn [Phase2.query_pages] in H. unfold mbind at 1 in H. unfold emit at 1 in H.
  unfold mbind at 1 in H. unfold lift at 1 in H.
  destruct (api_get E url token (text_of (API_KEY E)) first) as [p|e].
  - destruct (Nat.ltb (List.length (page_rows p)) size).
    + unfold ret in H. injection H as <- <-. cbn [files trace]. eauto.
    + apply IH in H as (Hf & evs & Ht). cbn [files trace] in *.
      split; [exact Hf|]. exists (ApiGet url first :: evs).
      rewrite Ht, <- app_assoc. reflexivity.
  - injection H as <- <-. cbn [files trace]. eauto.
Qed.

Lemma credentials_complete (E : env) :
  Phase2.has_credentials E = false <->
  truthy (API_USER E) = false \/ truthy (API_PASS E) = false \/ truthy (API_KEY E) = false.
Proof.
  unfold Phase2.has_credentials.
  destruct (truthy (API_USER E)), (truthy (API_PASS E)), (truthy (API_KEY E));
    simpl; intuition discriminate.
Qed.

Lemma rtm_fetch_first_call (E : env) (fuel : nat) (dir : string) (st st' : state)
      (r : result (option string)) :
  Phase2.has_credentials E = true ->
  Phase2.get_api_rtm_spp_yesterday E fuel dir st = Some (r, st') ->
  exists evs, trace st' = (trace st ++ TokenPost (text_of (API_USER E)) :: evs)%list.
Proof.
  intros Hcred H. unfold Phase2.get_api_rtm_spp_yesterday in H.
  rewrite Hcred in H. cbn [negb] in H.
  unfold mbind at 1 in H. unfold Phase2.get_api_token in H.
  unfold mbind at 1 in H. unfold emit at 1 in H.
  unfold mbind at 1 in H. unfold lift at 1 in H.
  destruct (token_endpoint E (text_of (API_USER E)) (text_of (API_PASS E))) as [tok|e].
  - destruct (truthy tok); cbn [negb] in H.
    + unfold ret at 1 in H. unfold mbind at 1 in H.
      destruct (Phase2.query_pages E fuel Phase2.URL_RTM_API (text_of tok) 100 1 [] _)
        as [[[[rows p]|e] st1]|] eqn:Eq; try discriminate.
      * apply query_pages_trace in Eq as (_ & evs & Ht). cbn [trace] in Ht.
        destruct rows as [|row rows].
        -- unfold ret in H. injection H as <- <-. exists evs.
           rewrite Ht, <- app_assoc. reflexivity.
        -- unfold mbind at 1 in H. unfold lift at 1 in H.
           destruct (Phase2.rtm_frame (row :: rows) p) as [df|e].
           ++ unfold mbind, write_content, get_files, put_files, ret in H.
              injection H as <- <-. cbn [trace]. exists evs.
              rewrite Ht, <- app_assoc. reflexivity.
           ++ injection H as <- <-. exists evs. rewrite Ht, <- app_assoc. reflexivity.
      * apply query_pages_trace in Eq as (_ & evs & Ht). cbn [trace] in Ht.
        injection H as <- <-. exists evs. rewrite Ht, <- app_assoc. reflexivity.
    + unfold raise in H. injection H as <- <-. cbn [trace]. exists []. reflexivity.
  - injection H as <- <-. cbn [trace]. exists []. reflexivity.
Qed.

(** X3.  The real-time fetch leaves files and trace exactly as they
    were, returning no data, if and only if one of the three credentials
    is absent or empty. *)
Theorem rtm_fetch_is_silent_iff_a_credential_is_missing
        (E : env) (fuel : nat) (dir : string) (st : state) :
  Phase2.get_api_rtm_spp_yesterday E fuel dir st = Some (Ok None, st) <->
  truthy (API_USER E) = false \/ truthy (API_PASS E) = false \/ truthy (API_KEY E) = false.
Proof.
  rewrite <- credentials_complete. split.
  - intros H. destruct (Phase2.has_credentials E) eqn:Hc; [|reflexivity].
    apply (rtm_fetch_first_call E fuel dir st st _ Hc) in H as (evs & Ht).
    apply (f_equal (@List.length event)) in Ht.
    rewrite length_app in Ht. simpl in Ht. lia.
  - intros H. now apply rtm_fetch_without_credentials.
Qed.

(** X4.  With complete credentials the fetch is not best-effort any
    more: a token request that fails, or answers without a token, ends
    the whole Phase 2 run with that error, right after the token request
    and before any report is read or any artifact written. *)
Theorem token_failure_aborts_the_run
        (E : env) (fuel : nat) (st st1 : state) (fp : Phase2.reports string) :
  Phase2.has_credentials E = true ->
  Phase2.download_reports E st = Some (Ok fp, st1) ->
  let after := State (files st1) (trace st1 ++ [TokenPost (text_of (API_USER E))])%list in
  (forall e,
      token_endpoint E (text_of (API_USER E)) (text_of (API_PASS E)) = Raise e ->
      Phase2.main E fuel st = Some (Raise e, after)) /\
  (forall tok,
      token_endpoint E (text_of (API_USER E)) (text_of (API_PASS E)) = Ok tok ->
      truthy tok = false ->
      Phase2.main E fuel st = Some (Raise RuntimeError, after)).
Proof.
  intros Hcred Hdl after. split.
  - intros e He. unfold Phase2.main. rewrite (mbind_ok _ _ _ _ _ Hdl).
    unfold mbind at 1. unfold Phase2.get_api_rtm_spp_yesterday.
    rewrite Hcred. cbn [negb].
    unfold mbind at 1. unfold Phase2.get_api_token.
    unfold mbind at 1. unfold emit at 1.
    unfold mbind at 1. unfold lift at 1. rewrite He. reflexivity.
  - intros tok Htok Hfalse. unfold Phase2.main. rewrite (mbind_ok _ _ _ _ _ Hdl).
    unfold mbind at 1. unfold Phase2.get_api_rtm_spp_yesterday.
    rewrite Hcred. cbn [negb].
    unfold mbind at 1. unfold Phase2.get_api_token.
    unfold mbind at 1. unfold emit at 1.
    unfold mbind at 1. unfold lift at 1. rewrite Htok, Hfalse. reflexivity.
Qed.

Lemma token_failure_aborts_the_run_witness :
  exists st1,
    Phase2.main (with_credentials portal_env (Some "user") (Some "secret") (Some "key")
                                  (fun _ _ => Ok None)) 3 start
    = Some (Raise RuntimeError, State (files st1) (trace st1 ++ [TokenPost "user"])%list).
Proof.
  eexists.
  refine (proj2 (token_failure_aborts_the_run
                   (with_credentials portal_env (Some "user") (Some "secret") (Some "key")
                                     (fun _ _ => Ok None)) 3 start _ _ eq_refl _)
                None eq_refl eq_refl).
  vm_compute. reflexivity.
Defined.



(** ** Housekeeping: [ensure_dirs] and [archive_old_files] *)

Lemma has_char_append (c : ascii) (a b : string) :
  has_char c (a ++ b) = has_char c a || has_char c b.
Proof. induction a; simpl; [reflexivity | now rewrite IHa, orb_assoc]. Qed.

Lemma startswith_slash_entry (fn : string) : entry_name fn -> startswith "/" fn = false.
Proof.
  intros [H _]. destruct fn as [|c fn]; [reflexivity|].
  cbn [has_char] in H. apply orb_false_iff in H as [H _].
  cbn [startswith]. rewrite Ascii.eqb_sym, H. reflexivity.
Qed.

Lemma src_path (fn : string) :
  entry_name fn -> path_join PRODUCTION_DIR fn = production_path fn.
Proof.
  intros H. unfold path_join. rewrite (startswith_slash_entry fn H). reflexivity.
Qed.

Lemma dst_path (fn : string) :
  entry_name fn -> path_join ARCHIVE_DIR fn = archive_path fn.
Proof.
  intros H. unfold path_join. rewrite (startswith_slash_entry fn H). reflexivity.
Qed.

Lemma production_path_inj (a b : string) : production_path a = production_path b -> a = b.
Proof. apply append_inj_l. Qed.

Lemma archive_path_inj (a b : string) : archive_path a = archive_path b -> a = b.
Proof. apply append_inj_l. Qed.

Lemma production_not_archive (a b : string) :
  entry_name a -> production_path a <> archive_path b.
Proof.
  intros [Ha _] H. unfold production_path, archive_path in H.
  change "production/archive/" with ("production/" ++ "archive/") in H.
  rewrite append_assoc in H. apply append_inj_l in H. subst a.
  rewrite has_char_append in Ha. discriminate Ha.
Qed.

Lemma archive_entry_cases (E : env) (fs : filesystem) (fn : string) :
  entry_name fn ->
  archive_entry E fs fn
  = match read_file fs (production_path fn) with
    | Some f =>
        if is_file_older_than_today E f
        then if isdir fs (archive_path fn) then Raise IsADirectoryError
             else Ok (write_file (remove_file (remove_file fs (archive_path fn))
                                              (production_path fn))
                                 (archive_path fn) f)
        else Ok fs
    | None => Ok fs
    end.
Proof.
  intros Hfn. unfold archive_entry. now rewrite (src_path fn Hfn), (dst_path fn Hfn).
Qed.

(** One turn of the loop leaves every other path alone. *)
Lemma moved_entry_other (E : env) (fs : filesystem) (fn p : string) :
  entry_name fn -> p <> production_path fn -> p <> archive_path fn ->
  read_file (moved_entry E fs fn) p = read_file fs p.
Proof.
  intros Hfn Hsrc Hdst. unfold moved_entry. rewrite (archive_entry_cases E fs fn Hfn).
  destruct (read_file fs (production_path fn)) as [f|]; [|reflexivity].
  destruct (is_file_older_than_today E f); [|reflexivity].
  destruct (isdir fs (archive_path fn)); [reflexivity|].
  now rewrite read_file_write_other, !read_file_remove_other.
Qed.

Lemma moved_entry_moves (E : env) (fs : filesystem) (fn : string) (f : file) :
  entry_name fn ->
  read_file fs (production_path fn) = Some f ->
  is_file_older_than_today E f = true ->
  isdir fs (archive_path fn) = false ->
  read_file (moved_entry E fs fn) (archive_path fn) = Some f /\
  read_file (moved_entry E fs fn) (production_path fn) = None.
Proof.
  intros Hfn Hsrc Hold Hflat. unfold moved_entry.
  rewrite (archive_entry_cases E fs fn Hfn), Hsrc, Hold, Hflat.
  split; [apply read_file_write_file|].
  rewrite read_file_write_other by (now apply production_not_archive).
  apply read_file_remove_same.
Qed.

Lemma moved_entry_skips (E : env) (fs : filesystem) (fn : string) :
  entry_name fn ->
  match read_file fs (production_path fn) with
  | Some f => is_file_older_than_today E f = false
  | None => True
  end ->
  moved_entry E fs fn = fs.
Proof.
  intros Hfn H. unfold moved_entry. rewrite (archive_entry_cases E fs fn Hfn).
  destruct (read_file fs (production_path fn)) as [f|]; [|reflexivity].
  now rewrite H.
Qed.

Lemma below_archive_entries (a b : string) :
  entry_name b -> below (archive_path a) (archive_path b) = false.
Proof.
  intros [Hb _]. unfold below, archive_path.
  rewrite append_assoc, startswith_same_prefix.
  destruct (startswith (a ++ "/") b) eqn:E; [|reflexivity].
  apply startswith_has_slash in E. congruence.
Qed.

(** A turn of the loop makes no directory in the archive. *)
Lemma moved_entry_flat (E : env) (fs : filesystem) (fn : string) :
  entry_name fn -> archive_is_flat fs -> archive_is_flat (moved_entry E fs fn).
Proof.
  intros Hfn Hflat. unfold moved_entry. rewrite (archive_entry_cases E fs fn Hfn).
  destruct (read_file fs (production_path fn)) as [f|]; [|exact Hflat].
  destruct (is_file_older_than_today E f); [|exact Hflat].
  destruct (isdir fs (archive_path fn)); [exact Hflat|].
  intros fn' Hfn'. specialize (Hflat fn' Hfn').
  apply isdir_write_file; [|now apply below_archive_entries].
  unfold isdir in *. apply orb_false_iff in Hflat as (H0 & Hflat).
  rewrite H0. cbn [orb]. now do 2 apply existsb_remove_file.
Qed.

(** When no directory stands in the archive, every turn succeeds. *)
Lemma archive_entries_flat (E : env) (names : list string) :
  Forall entry_name names ->
  forall fs, archive_is_flat fs ->
             archive_entries E names fs = (fold_left (moved_entry E) names fs, Ok tt).
Proof.
  induction 1 as [|fn names Hfn _ IH]; intros fs Hflat; [reflexivity|].
  cbn [archive_entries fold_left].
  pose proof (moved_entry_flat E fs fn Hfn Hflat) as Hflat'.
  unfold moved_entry in *. rewrite (archive_entry_cases E fs fn Hfn) in *.
  destruct (read_file fs (production_path fn)) as [f|]; [|now apply IH].
  destruct (is_file_older_than_today E f); [|now apply IH].
  rewrite (Hflat fn Hfn) in *. now apply IH.
Qed.

Lemma archive_fold_flat (E : env) (names : list string) :
  Forall entry_name names ->
  forall fs, archive_is_flat fs -> archive_is_flat (fold_left (moved_entry E) names fs).
Proof.
  induction 1 as [|fn names Hfn _ IH]; intros fs Hflat; [exact Hflat|].
  cbn [fold_left]. apply IH. now apply moved_entry_flat.
Qed.

Lemma archive_fold_keeps_moved (E : env) (names : list string) (fn : string) (f : file) :
  Forall entry_name names -> entry_name fn ->
  forall fs,
    read_file fs (archive_path fn) = Some f ->
    read_file fs (production_path fn) = None ->
    read_file (fold_left (moved_entry E) names fs) (archive_path fn) = Some f /\
    read_file (fold_left (moved_entry E) names fs) (production_path fn) = None.
Proof.
  intros Hnames Hfn. induction Hnames as [|n names Hn _ IH]; intros fs Hd Hs; [auto|].
  cbn [fold_left]. destruct (String.eqb n fn) eqn:Enf.
  - apply String.eqb_eq in Enf. subst n.
    rewrite (moved_entry_skips E fs fn Hfn) by now rewrite Hs.
    now apply IH.
  - assert (n <> fn) by (intros ->; rewrite String.eqb_refl in Enf; discriminate).
    apply IH.
    + rewrite moved_entry_other; auto.
      * intros Heq. symmetry in Heq. now apply production_not_archive in Heq.
      * intros Heq. apply archive_path_inj in Heq. congruence.
    + rewrite moved_entry_other; auto.
      * intros Heq. apply production_path_inj in Heq. congruence.
      * now apply production_not_archive.
Qed.

Lemma archive_fold_moves (E : env) (names : list string) (fn : string) (f : file) :
  Forall entry_name names -> entry_name fn -> In fn names ->
  is_file_older_than_today E f = true ->
  forall fs,
    archive_is_flat fs ->
    read_file fs (production_path fn) = Some f ->
    read_file (fold_left (moved_entry E) names fs) (archive_path fn) = Some f /\
    read_file (fold_left (moved_entry E) names fs) (production_path fn) = None.
Proof.
  intros Hnames Hfn Hin Hold.
  induction Hnames as [|n names Hn Hnames IH]; intros fs Hflat Hs; [contradiction|].
  cbn [fold_left]. destruct (String.eqb n fn) eqn:Enf.
  - apply String.eqb_eq in Enf. subst n.
    destruct (moved_entry_moves E fs fn f Hfn Hs Hold (Hflat fn Hfn)) as (Hd' & Hs').
    now apply archive_fold_keeps_moved.
  - assert (n <> fn) by (intros ->; rewrite String.eqb_refl in Enf; discriminate).
    destruct Hin as [-> | Hin]; [congruence|].
    apply IH; [exact Hin | now apply moved_entry_flat|].
    rewrite moved_entry_other; auto.
    + intros Heq. apply production_path_inj in Heq. congruence.
    + now apply production_not_archive.
Qed.

Lemma archive_fold_keeps_fresh (E : env) (names : list string) (fn : string) (f : file) :
  Forall entry_name names -> entry_name fn ->
  is_file_older_than_today E f = false ->
  forall fs,
    read_file fs (production_path fn) = Some f ->
    read_file (fold_left (moved_entry E) names fs) (production_path fn) = Some f.
Proof.
  intros Hnames Hfn Hnew. induction Hnames as [|n names Hn _ IH]; intros fs Hs; [exact Hs|].
  cbn [fold_left]. apply IH. destruct (String.eqb n fn) eqn:Enf.
  - apply String.eqb_eq in Enf. subst n.
    rewrite (moved_entry_skips E fs fn Hfn); [exact Hs | now rewrite Hs].
  - assert (n <> fn) by (intros ->; rewrite String.eqb_refl in Enf; discriminate).
    rewrite moved_entry_other; auto.
    + intros Heq. apply production_path_inj in Heq. congruence.
    + now apply production_not_archive.
Qed.

Lemma archive_fold_keeps_outside (E : env) (names : list string) (p : string) :
  Forall entry_name names -> startswith "production/" p = false ->
  forall fs, read_file (fold_left (moved_entry E) names fs) p = read_file fs p.
Proof.
  intros Hnames Hp. induction Hnames as [|n names Hn _ IH]; intros fs; [reflexivity|].
  cbn [fold_left]. rewrite IH. apply moved_entry_other; auto.
  - intros ->. unfold production_path in Hp. vm_compute in Hp. discriminate.
  - intros ->. unfold archive_path in Hp. vm_compute in Hp. discriminate.
Qed.

Lemma substring_skip (pre r : string) (m : nat) :
  substring (String.length pre) m (pre ++ r) = substring 0 m r.
Proof. induction pre; simpl; auto. Qed.

Lemma substring_all (r : string) (m : nat) :
  (String.length r <= m)%nat -> substring 0 m r = r.
Proof.
  revert m. induction r as [|c r IH]; intros m H; destruct m; simpl in *; try lia; auto.
  f_equal. apply IH. lia.
Qed.

Lemma length_append (a b : string) :
  String.length (a ++ b) = (String.length a + String.length b)%nat.
Proof. induction a; simpl; auto. Qed.

Lemma startswith_append (pre r : string) : startswith pre (pre ++ r) = true.
Proof. induction pre; simpl; [reflexivity | now rewrite Ascii.eqb_refl]. Qed.

Lemma read_file_in (fs : filesystem) (p : string) (f : file) :
  read_file fs p = Some f -> In p (map fst fs).
Proof.
  induction fs as [|[k g] fs IH]; simpl; [discriminate|].
  destruct (String.eqb k p) eqn:Ekp; [|auto].
  apply String.eqb_eq in Ekp. auto.
Qed.

Lemma listdir_entry_names (fs : filesystem) : Forall entry_name (listdir_files fs).
Proof.
  unfold listdir_files. apply Forall_forall. intros fn Hin.
  apply in_flat_map in Hin as (pf & _ & Hfn).
  cbv beta zeta in Hfn.
  destruct (startswith (PRODUCTION_DIR ++ "/") (fst pf)); [|contradiction].
  set (name := substring (String.length (PRODUCTION_DIR ++ "/"))
                         (String.length (fst pf)) (fst pf)) in *.
  destruct (has_char "/" name) eqn:Hc; [contradiction|].
  destruct (String.eqb name "") eqn:He; [contradiction|].
  cbn [orb] in Hfn. destruct Hfn as [<- | []].
  split; [exact Hc|]. intros Heq. rewrite Heq in He. discriminate.
Qed.

Lemma listdir_lists (fs : filesystem) (fn : string) (f : file) :
  entry_name fn -> read_file fs (production_path fn) = Some f ->
  In fn (listdir_files fs).
Proof.
  intros [Hc Hne] Hread. apply read_file_in, in_map_iff in Hread as (pf & Hp & Hin).
  unfold listdir_files. apply in_flat_map. exists pf. split; [exact Hin|].
  rewrite Hp. unfold production_path.
  change (PRODUCTION_DIR ++ "/") with "production/".
  rewrite startswith_append, substring_skip, substring_all
    by (rewrite length_append; lia).
  rewrite Hc. destruct (String.eqb fn "") eqn:E.
  - apply String.eqb_eq in E. contradiction.
  - now left.
Qed.

(** X6.  When no directory stands in the archive where a file would
    go, [archive_old_files] does not fail and records nothing in the
    trace: a file directly under [production] that was made before today
    ends up under [production/archive] with the same name and is gone
    from [production]; one made today stays where it is; and no path
    outside [production/] is touched. *)
Theorem old_production_files_are_archived
        (E : env) (fs : filesystem) (tr : list event) :
  archive_is_flat fs ->
  exists fs',
    archive_old_files E (State fs tr) = Some (Ok tt, State fs' tr) /\
    (forall fn f,
        entry_name fn -> read_file fs (production_path fn) = Some f ->
        if is_file_older_than_today E f
        then read_file fs' (archive_path fn) = Some f /\
             read_file fs' (production_path fn) = None
        else read_file fs' (production_path fn) = Some f) /\
    (forall p, startswith "production/" p = false -> read_file fs' p = read_file fs p).
Proof.
  intros Hflat.
  exists (fold_left (moved_entry E) (listdir_files fs) fs).
  split.
  { unfold archive_old_files, mbind, get_files, put_files, lift. cbn [files trace].
    rewrite (archive_entries_flat E _ (listdir_entry_names fs) fs Hflat). reflexivity. }
  split.
  - intros fn f Hfn Hread.
    destruct (is_file_older_than_today E f) eqn:Hold.
    + apply archive_fold_moves.
      * apply listdir_entry_names.
      * exact Hfn.
      * eapply listdir_lists; eassumption.
      * exact Hold.
      * exact Hflat.
      * exact Hread.
    + apply archive_fold_keeps_fresh.
      * apply listdir_entry_names.
      * exact Hfn.
      * exact Hold.
      * exact Hread.
  - intros p Hp. apply archive_fold_keeps_outside.
    + apply listdir_entry_names.
    + exact Hp.
Qed.

Lemma sample_archive_is_flat : archive_is_flat sample_files.
Proof.
  intros fn [Hfn Hne]. unfold isdir, archive_path.
  assert (H1 : String.eqb ("production/archive/" ++ fn) PRODUCTION_DIR = false)
    by (destruct fn; reflexivity).
  assert (H2 : String.eqb ("production/archive/" ++ fn) ARCHIVE_DIR = false)
    by (destruct fn; reflexivity).
  rewrite H1, H2. reflexivity.
Qed.

Lemma old_production_files_are_archived_witness :
  exists fs',
    archive_old_files offline_env (State sample_files []) = Some (Ok tt, State fs' []) /\
    read_file fs' "production/archive/old.png" = Some (File (Date 2024 1 10) (Figure [])) /\
    read_file fs' "production/old.png" = None /\
    read_file fs' "production/new.xlsx" = Some (File (Date 2024 1 11) (Workbook [])) /\
    read_file fs' "notes.txt" = Some (File (Date 2023 12 1) (Bytes [])).
Proof.
  destruct (old_production_files_are_archived offline_env sample_files []
              sample_archive_is_flat)
    as (fs' & Hrun & Hmove & Hout).
  exists fs'. split; [exact Hrun|].
  assert (Hn1 : entry_name "old.png") by (split; [vm_compute; reflexivity | discriminate]).
  assert (Hn2 : entry_name "new.xlsx") by (split; [vm_compute; reflexivity | discriminate]).
  assert (Hr1 : read_file sample_files (production_path "old.png")
                = Some (File (Date 2024 1 10) (Figure []))) by (vm_compute; reflexivity).
  assert (Hr2 : read_file sample_files (production_path "new.xlsx")
                = Some (File (Date 2024 1 11) (Workbook []))) by (vm_compute; reflexivity).
  pose proof (Hmove _ _ Hn1 Hr1) as Hold.
  pose proof (Hmove _ _ Hn2 Hr2) as Hnew.
  assert (Ho : is_file_older_than_today offline_env (File (Date 2024 1 10) (Figure [])) = true)
    by (vm_compute; reflexivity).
  assert (Hf : is_file_older_than_today offline_env (File (Date 2024 1 11) (Workbook [])) = false)
    by (vm_compute; reflexivity).
  rewrite Ho in Hold. rewrite Hf in Hnew.
  destruct Hold as (Ha & Hb).
  split; [exact Ha|]. split; [exact Hb|]. split; [exact Hnew|].
  rewrite (Hout "notes.txt" eq_refl). vm_compute. reflexivity.
Defined.

(** ** Notification *)

(** X7.  [send_slack_notification] touches no file.  Without a token it
    does nothing at all.  With one it posts the message first; if the
    post is refused it uploads nothing and returns; if every file to
    upload is there it returns, whatever Slack answers; and if the post
    is accepted and the first file is missing, the run stops with
    [FileNotFoundError]: only Slack's own errors are swallowed. *)
Theorem slack_notification_outcomes
        (E : env) (message : string) (paths : list string) (st : state) :
  (truthy (SLACK_TOKEN E) = false ->
   send_slack_notification E message paths st = Some (Ok tt, st)) /\
  (truthy (SLACK_TOKEN E) = true -> slack_post E message = false ->
   send_slack_notification E message paths st
   = Some (Ok tt, State (files st) (trace st ++ [SlackPost message])%list)) /\
  (truthy (SLACK_TOKEN E) = true ->
   Forall (fun p => read_file (files st) p <> None) paths ->
   exists uploads,
     send_slack_notification E message paths st
     = Some (Ok tt, State (files st) (trace st ++ SlackPost message :: uploads)%list) /\
     forallb is_slack_event uploads = true) /\
  (truthy (SLACK_TOKEN E) = true -> slack_post E message = true ->
   forall p rest,
     paths = p :: rest ->
     read_file (files st) p = None ->
     under_a_file (files st) p = false -> isdir (files st) p = false ->
     send_slack_notification E message paths st
     = Some (Raise FileNotFoundError,
             State (files st) (trace st ++ [SlackPost message])%list)).
Proof.
  unfold send_slack_notification. repeat split.
  - intros ->. cbn [negb]. reflexivity.
  - intros -> Hpost. cbn [negb]. unfold mbind, emit. rewrite Hpost. reflexivity.
  - intros -> Hfiles. cbn [negb]. unfold mbind, emit. cbn [files trace].
    destruct (slack_post E message).
    + destruct (slack_uploads_run E paths
                  (State (files st) (trace st ++ [SlackPost message])%list) Hfiles)
        as (notes & Hn & Hs).
      exists notes. rewrite Hn. cbn [files trace].
      rewrite <- app_assoc. split; [reflexivity | exact Hs].
    + exists []. split; reflexivity.
  - intros -> Hpost p rest -> Hnone Hunder Hdir. cbn [negb].
    unfold mbind at 1. unfold emit at 1. rewrite Hpost.
    cbn [slack_uploads]. unfold mbind, get_files, raise. cbn [files trace].
    rewrite Hnone. unfold open_failure. rewrite Hunder, Hdir. reflexivity.
Qed.

Lemma slack_notification_outcomes_witness :
  send_slack_notification offline_env "done" ["production/plot.png"] start
  = Some (Ok tt, start) /\
  send_slack_notification slack_env "done" ["production/plot.png"] start
  = Some (Raise FileNotFoundError, State [] [SlackPost "done"]) /\
  exists uploads,
    send_slack_notification slack_env "done" ["production/old.png"]
                            (State sample_files [])
    = Some (Ok tt, State sample_files (SlackPost "done" :: uploads)).
Proof.
  destruct (slack_notification_outcomes offline_env "done" ["production/plot.png"] start)
    as (Hoff & _).
  destruct (slack_notification_outcomes slack_env "done" ["production/plot.png"] start)
    as (_ & _ & _ & Hmiss).
  destruct (slack_notification_outcomes slack_env "done" ["production/old.png"]
              (State sample_files []))
    as (_ & _ & Hall & _).
  split; [apply Hoff; reflexivity|].
  split.
  - apply (Hmiss eq_refl eq_refl "production/plot.png" [] eq_refl);
      vm_compute; reflexivity.
  - destruct (Hall eq_refl) as (uploads & Hrun & _).
    + repeat constructor. vm_compute. discriminate.
    + exists uploads. exact Hrun.
Defined.

(** ** Phase 2: choosing and fetching a report *)

(** X8.  [process_file] of Phase 2 opens the report page and takes the
    archive link at the given position among the links named "zip": with
    no such link it stops with a timeout, with too few with an index
    error, in both cases before any download; otherwise it downloads the
    link's address, completed with the portal's host when it is
    host-relative. *)
Theorem report_link_by_position
        (E : env) (url : string) (link_index : nat) (dir : string) (st : state) :
  (zip_links E url = [] ->
   Phase2.process_file E url link_index dir st
   = Some (Raise TimeoutException, visited st url)) /\
  (zip_links E url <> [] -> nth_error (zip_links E url) link_index = None ->
   Phase2.process_file E url link_index dir st
   = Some (Raise IndexError, visited st url)) /\
  (forall l, nth_error (zip_links E url) link_index = Some l ->
             Phase2.process_file E url link_index dir st
             = Phase2.download_and_extract_zip E (absolute (link_href l)) dir
                 (visited st url)).
Proof.
  unfold Phase2.process_file, Phase2.get_download_link, zip_links, visited.
  repeat split.
  - intros H. unfold mbind, emit. rewrite H. reflexivity.
  - intros Hne H. unfold mbind, emit.
    destruct (filter _ (page E url)) as [|l0 ls]; [contradiction|].
    rewrite H. reflexivity.
  - intros l H. unfold mbind at 1. unfold mbind at 1. unfold emit at 1.
    destruct (filter _ (page E url)) as [|l0 ls] eqn:Ef.
    + destruct link_index; discriminate.
    + rewrite H. unfold ret at 1. unfold absolute.
      destruct (startswith "http" (link_href l)); reflexivity.
Qed.

Lemma report_link_by_position_witness :
  Phase2.process_file portal_env Phase2.URL_DAMCPC 2 "production" start
  = Phase2.download_and_extract_zip portal_env "https://www.ercot.com/cpc_yday.zip"
      "production" (visited start Phase2.URL_DAMCPC) /\
  Phase2.process_file portal_env Phase2.URL_DAMCPC 3 "production" start
  = Some (Raise IndexError, visited start Phase2.URL_DAMCPC) /\
  Phase2.process_file offline_env Phase2.URL_DAMCPC 0 "production" start
  = Some (Raise TimeoutException, visited start Phase2.URL_DAMCPC).
Proof.
  split; [|split].
  - exact (proj2 (proj2 (report_link_by_position
                           portal_env Phase2.URL_DAMCPC 2 "production" start))
             (Link "zip" "/cpc_yday.zip" "") eq_refl).
  - apply (proj1 (proj2 (report_link_by_position
                           portal_env Phase2.URL_DAMCPC 3 "production" start)));
      [discriminate | reflexivity].
  - apply (proj1 (report_link_by_position
                    offline_env Phase2.URL_DAMCPC 0 "production" start)).
    reflexivity.
Defined.

(** ** Phase 1: fetching a report under its own name *)




(** ** Phase 1: what the derivation reads and writes *)

(** X10.  [derive_metrics] changes no column but the seven it assigns:
    every other column of the joined table comes out as it went in. *)
Theorem derivation_leaves_other_columns
        (v : cell) (merged out : DataFrame) (name : string) :
  Phase1.derive_metrics v merged = Ok out ->
  mem name derived_labels = false ->
  get_col out name = get_col merged name.
Proof.
  exact (derive_metrics_other v merged out name).
Qed.

Lemma derivation_leaves_other_columns_witness :
  exists out,
    Phase1.derive_metrics (CFloat 5000) sample_merged = Ok out /\
    get_col out "Forecasted Demand" = Ok (column_of demand sample_metric_rows).
Proof.
  destruct (Phase1.derive_metrics (CFloat 5000) sample_merged) as [out|e] eqn:E;
    [|vm_compute in E; discriminate E].
  exists out. split; [reflexivity|].
  rewrite (derivation_leaves_other_columns (CFloat 5000) sample_merged out
             "Forecasted Demand" E eq_refl).
  reflexivity.
Defined.

(** X11.  [derive_metrics] succeeds only on a table that has all seven
    measurement columns; when the wind column is the one missing, the
    error is the key error for that label. *)
Theorem derivation_needs_all_measurements (v : cell) (merged : DataFrame) :
  (forall out name,
      Phase1.derive_metrics v merged = Ok out ->
      In name measurement_labels ->
      exists c, get_col merged name = Ok c) /\
  (get_col merged "Forecasted Wind Supply" = Raise (KeyError "Forecasted Wind Supply") ->
   Phase1.derive_metrics v merged = Raise (KeyError "Forecasted Wind Supply")).
Proof.
  split.
  - intros out name H Hin.
    unfold Phase1.derive_metrics, set_scalar in H. cbv zeta in H.
    do 22 invert_bind H.
    repeat match goal with
           | Hc : get_col (set_col _ _ _) _ = _ |- _ =>
               rewrite get_col_set_col_other in Hc by reflexivity
           end.
    unfold measurement_labels in Hin. simpl in Hin.
    repeat (destruct Hin as [<- | Hin]; [eauto|]). contradiction.
  - intros Hmiss. unfold Phase1.derive_metrics. rewrite Hmiss. reflexivity.
Qed.

Lemma derivation_needs_all_measurements_witness :
  Phase1.derive_metrics (CFloat 5000) [("Forecasted Demand", [CFloat 1])]
  = Raise (KeyError "Forecasted Wind Supply").
Proof.
  apply (proj2 (derivation_needs_all_measurements
                  (CFloat 5000) [("Forecasted Demand", [CFloat 1])])).
  reflexivity.
Defined.

(** X12.  The finished forecast table is rectangular, has as many rows
    as the joined table, and carries a [datetime] column of that length
    holding timestamps only. *)
Theorem forecast_table_shape
        (df_solar df_wind df_sys df_hroc df_mora out : DataFrame) :
  Phase1.forecast_table df_solar df_wind df_sys df_hroc df_mora = Ok out ->
  exists merged datetime,
    Phase1.joined_table df_solar df_wind df_sys df_hroc = Ok merged /\
    rectangular out /\
    nrows out = nrows merged /\
    get_col out "datetime" = Ok datetime /\
    List.length datetime = nrows out /\
    forallb is_time datetime = true.
Proof.
  unfold Phase1.forecast_table. intros H.
  invert_bind H. invert_bind H.
  pose proof (joined_table_rectangular _ _ _ _ _ E0) as R.
  invert_bind H.
  destruct (derive_metrics_broadcast _ _ _ R E1) as (R' & N' & Hne & _).
  do 3 invert_bind H. injection H as <-.
  assert (L : List.length a4 = nrows a1).
  { apply canonical_datetime_length in E4. rewrite E4.
    rewrite (get_attr_length _ _ _ R' E2), (get_attr_length _ _ _ R' E3).
    apply Nat.min_id. }
  exists a0, a4. split; [reflexivity|].
  split; [now apply rectangular_set_col|].
  rewrite nrows_set_col by assumption.
  split; [exact N'|]. split; [apply get_col_set_col_same|]. split; [exact L|].
  unfold canonical_datetime in E4. do 3 invert_bind E4.
  unfold to_datetime in E4.
  match type of E4 with mapM _ ?texts = _ => generalize dependent texts end.
  clear. intros l. revert a4.
  induction l as [|c l IH]; intros dt H.
  - injection H as <-. reflexivity.
  - cbn [mapM] in H. invert_bind H. invert_bind H. injection H as <-.
    cbn [forallb]. rewrite (IH _ eq_refl), andb_true_r.
    destruct c as [n|s|t]; cbn [to_datetime_cell] in E; try discriminate.
    + invert_bind E. injection E as <-. reflexivity.
    + injection E as <-. reflexivity.
Qed.

Lemma forecast_table_shape_witness :
  exists out datetime,
    Phase1.forecast_table sample_solar sample_wind sample_sys sample_hroc
                          (sample_mora (CFloat 5000)) = Ok out /\
    nrows out = 2%nat /\
    get_col out "datetime" = Ok datetime /\
    List.length datetime = 2%nat.
Proof.
  destruct (Phase1.forecast_table sample_solar sample_wind sample_sys sample_hroc
              (sample_mora (CFloat 5000))) as [out|e] eqn:E;
    [|vm_compute in E; discriminate E].
  destruct (forecast_table_shape _ _ _ _ _ _ E)
    as (merged & datetime & Hj & _ & Hn & Hd & Hl & _).
  exists out, datetime. split; [reflexivity|].
  assert (Hm : nrows merged = 2%nat).
  { vm_compute in Hj. injection Hj as <-. reflexivity. }
  repeat split; congruence.
Defined.

(** ** Joins: which rows come out *)




(** ** Phase 2: panels and normalised tables *)

(** X14.  In a figure that [plot_all] manages to build, the first five
    panels do not depend on the real-time table; the sixth is deleted
    when that table is empty and is the DART panel for LZ_NORTH
    otherwise. *)
Theorem sixth_panel_follows_real_time_table
        (spp_today spp_yday cpc_today cpc_yday rtm : DataFrame) (panels : list panel) :
  Phase2.plot_panels spp_today spp_yday cpc_today cpc_yday rtm = Ok panels ->
  exists p1 p2 p3 p4 p5 p6,
    panels = [p1; p2; p3; p4; p5; p6] /\
    Phase2.plot_panels spp_today spp_yday cpc_today cpc_yday []
    = Ok [p1; p2; p3; p4; p5; Deleted] /\
    (empty rtm = true -> p6 = Deleted) /\
    (empty rtm = false ->
     exists d, Phase2.plot_dart spp_yday rtm "LZ_NORTH" = Ok d /\
               p6 = Phase2.dart_axes "DART Spread - LZ_NORTH" "LZ_NORTH" d).
Proof.
  unfold Phase2.plot_panels. intros H. do 5 invert_bind H.
  cbn [empty nrows Nat.eqb negb bind].
  destruct (empty rtm) eqn:Erm; cbn [negb bind] in H.
  - injection H as <-. do 5 eexists. exists Deleted.
    repeat split; try reflexivity; try discriminate.
  - invert_bind H. injection H as <-.
    invert_bind E4. injection E4 as <-.
    do 6 eexists. split; [reflexivity|]. split; [reflexivity|].
    split; [discriminate|]. intros _. eexists. split; reflexivity.
Qed.

Lemma sixth_panel_follows_real_time_table_witness :
  exists p1 p2 p3 p4 p5,
    Phase2.plot_panels spp_report spp_report cpc_report cpc_report []
    = Ok [p1; p2; p3; p4; p5; Deleted].
Proof.
  destruct (Phase2.plot_panels spp_report spp_report cpc_report cpc_report [])
    as [panels|e] eqn:E; [|vm_compute in E; discriminate E].
  destruct (sixth_panel_follows_real_time_table _ _ _ _ _ _ E)
    as (p1 & p2 & p3 & p4 & p5 & p6 & _ & Hrun & _).
  exists p1, p2, p3, p4, p5. rewrite <- E. exact Hrun.
Defined.

Lemma mapM_kind {A : Type} (f : A -> result cell) (p : cell -> bool) (l : list A)
      (out : Series) :
  (forall a c, f a = Ok c -> p c = true) ->
  mapM f l = Ok out -> forallb p out = true.
Proof.
  intros Hf. revert out. induction l as [|a l IH]; intros out H.
  - injection H as <-. reflexivity.
  - cbn [mapM] in H. invert_bind H. invert_bind H. injection H as <-.
    cbn [forallb]. now rewrite (Hf _ _ E), (IH _ eq_refl).
Qed.

(** X15.  A day-ahead table that normalises comes out with timestamps
    only in [DeliveryDate] and [datetime] and integers only in
    [HourEnding], whatever form the hours had; its other columns are
    unchanged. *)
Theorem normalized_table_has_typed_columns (df out : DataFrame) :
  Phase2.normalize_dam df = Ok out ->
  (exists dates hours datetime,
      get_col out "DeliveryDate" = Ok dates /\ forallb is_time dates = true /\
      get_col out "HourEnding" = Ok hours /\ forallb is_int hours = true /\
      get_col out "datetime" = Ok datetime /\ forallb is_time datetime = true) /\
  (forall name,
      mem name ["DeliveryDate"; "HourEnding"; "datetime"] = false ->
      get_col out name = get_col df name).
Proof.
  unfold Phase2.normalize_dam. intros H. do 7 invert_bind H. injection H as <-.
  split.
  - exists a0, a2, a5. lookup.
    assert (Hd : forallb is_time a0 = true).
    { apply (mapM_kind to_datetime_cell is_time a a0); [|exact E0].
      intros c c' Hc. destruct c as [n|s|t]; cbn [to_datetime_cell] in Hc; try discriminate.
      - invert_bind Hc. injection Hc as <-. reflexivity.
      - injection Hc as <-. reflexivity. }
    assert (Hh : forallb is_int a2 = true).
    { unfold hour_ending_int in E2. invert_bind E2. unfold astype_int in E2.
      refine (mapM_kind _ is_int _ _ _ E2).
      intros s c Hc. cbv beta in Hc. invert_bind Hc. injection Hc as <-. reflexivity. }
    assert (Ht : forallb is_time a5 = true).
    { unfold canonical_datetime in E5. do 3 invert_bind E5.
      apply (mapM_kind to_datetime_cell is_time _ _) in E5; [exact E5|].
      intros c c' Hc. destruct c as [n|s|t]; cbn [to_datetime_cell] in Hc; try discriminate.
      - invert_bind Hc. injection Hc as <-. reflexivity.
      - injection Hc as <-. reflexivity. }
    repeat split; auto.
  - intros name Hname.
    repeat (apply mem_cons_false in Hname as [? Hname]).
    rewrite !get_col_set_col_other by assumption. reflexivity.
Qed.

Lemma normalized_table_has_typed_columns_witness :
  exists out hours,
    Phase2.normalize_dam spp_report = Ok out /\
    get_col out "HourEnding" = Ok hours /\ forallb is_int hours = true /\
    get_col out "SettlementPoint" = Ok [CStr "LZ_NORTH"; CStr "LZ_HOUSTON"].
Proof.
  destruct (Phase2.normalize_dam spp_report) as [out|e] eqn:E;
    [|vm_compute in E; discriminate E].
  destruct (normalized_table_has_typed_columns spp_report out E)
    as ((dates & hours & datetime & _ & _ & Hh & Hi & _) & Hother).
  exists out, hours. split; [reflexivity|]. split; [exact Hh|]. split; [exact Hi|].
  rewrite (Hother "SettlementPoint" eq_refl). reflexivity.
Defined.

Lemma report_link_position_timeout (E : env) (url : string) (link_index : nat)
      (dir : string) (st : state) :
  zip_links E url = [] ->
  Phase2.process_file E url link_index dir st
  = Some (Raise TimeoutException, visited st url).
Proof.
  intros H.
  unfold Phase2.process_file, Phase2.get_download_link, zip_links, visited in *.
  unfold mbind, emit. rewrite H. reflexivity.
Qed.

(** X16.  The required reports are fatal: when the two directories can
    be made, the old files can be moved and the first report page shows
    no link named "zip", the Phase 2 run stops with a timeout right after
    opening that page, before any download, API request or artifact. *)
Theorem missing_report_link_stops_the_run (E : env) (fuel : nat) (fs : filesystem)
        (tr : list event) :
  read_file fs PRODUCTION_DIR = None ->
  read_file fs ARCHIVE_DIR = None ->
  archive_is_flat fs ->
  zip_links E Phase2.URL_DAMCPC = [] ->
  Phase2.main E fuel (State fs tr)
  = Some (Raise TimeoutException,
          State (fold_left (moved_entry E) (listdir_files fs) fs)
                (tr ++ [Navigate Phase2.URL_DAMCPC])%list).
Proof.
  intros Hp Ha Hflat H. unfold Phase2.main, Phase2.download_reports.
  unfold mbind at 1. unfold mbind at 1.
  unfold ensure_dirs at 1. unfold mbind at 1. unfold get_files at 1.
  cbn [files trace]. rewrite Hp, Ha. unfold ret at 1.
  unfold mbind at 1.
  unfold archive_old_files, mbind at 1, get_files, put_files, lift. cbn [files trace].
  rewrite (archive_entries_flat E _ (listdir_entry_names fs) fs Hflat).
  unfold mbind at 1. cbn [files trace].
  unfold mbind at 1.
  rewrite (report_link_position_timeout E Phase2.URL_DAMCPC 0 PRODUCTION_DIR _ H).
  reflexivity.
Qed.

Lemma missing_report_link_stops_the_run_witness :
  exists fs',
    Phase2.main offline_env 0 (State sample_files [])
    = Some (Raise TimeoutException, State fs' [Navigate Phase2.URL_DAMCPC]) /\
    read_file fs' "production/archive/old.png" = Some (File (Date 2024 1 10) (Figure [])).
Proof.
  exists (fold_left (moved_entry offline_env) (listdir_files sample_files) sample_files).
  split.
  - apply (missing_report_link_stops_the_run offline_env 0 sample_files []).
    + reflexivity.
    + reflexivity.
    + exact sample_archive_is_flat.
    + reflexivity.
  - vm_compute. reflexivity.
Defined.

(** ** Start of a run: the two directories and the archive *)

(** X17.  The archiving loop is not guarded: when the first file listed
    in the production folder is an old one and a directory of its name
    stands in the archive, [archive_old_files] stops with the error of
    [os.remove] and moves nothing. *)
Theorem archive_move_fails_on_a_directory
        (E : env) (fs : filesystem) (tr : list event)
        (fn : string) (rest : list string) (f : file) :
  listdir_files fs = fn :: rest ->
  read_file fs (production_path fn) = Some f ->
  is_file_older_than_today E f = true ->
  isdir fs (archive_path fn) = true ->
  archive_old_files E (State fs tr) = Some (Raise IsADirectoryError, State fs tr).
Proof.
  intros Hlist Hread Hold Hdir.
  assert (Hfn : entry_name fn).
  { pose proof (listdir_entry_names fs) as Hall. rewrite Hlist in Hall.
    now inversion Hall. }
  unfold archive_old_files, mbind, get_files, put_files, lift. cbn [files trace].
  rewrite Hlist. cbn [archive_entries].
  rewrite (archive_entry_cases E fs fn Hfn), Hread, Hold, Hdir. reflexivity.
Qed.

Lemma archive_move_fails_on_a_directory_witness :
  archive_old_files offline_env (State blocked_files [])
  = Some (Raise IsADirectoryError, State blocked_files []).
Proof.
  apply (archive_move_fails_on_a_directory offline_env blocked_files []
           "old.png" ["new.xlsx"] (File (Date 2024 1 10) (Figure [])));
    vm_compute; reflexivity.
Defined.

(** X18.  Both runs start by making the two directories: a file that
    stands at the place of one of them stops either run with
    [FileExistsError] before anything is moved, fetched or written. *)
Theorem directory_name_taken_stops_both_phases
        (E : env) (fuel : nat) (fs : filesystem) (tr : list event) (f : file) :
  read_file fs PRODUCTION_DIR = Some f \/ read_file fs ARCHIVE_DIR = Some f ->
  Phase1.main E (State fs tr) = Some (Raise FileExistsError, State fs tr) /\
  Phase2.main E fuel (State fs tr) = Some (Raise FileExistsError, State fs tr).
Proof.
  intros H.
  assert (Hdirs : ensure_dirs (State fs tr) = Some (Raise FileExistsError, State fs tr)).
  { unfold ensure_dirs, mbind, get_files. cbn [files trace].
    destruct H as [-> | ->]; [reflexivity|].
    destruct (read_file fs PRODUCTION_DIR); reflexivity. }
  split.
  - unfold Phase1.main. unfold mbind at 1. rewrite Hdirs. reflexivity.
  - unfold Phase2.main, Phase2.download_reports.
    unfold mbind at 1. unfold mbind at 1. rewrite Hdirs. reflexivity.
Qed.

Lemma directory_name_taken_stops_both_phases_witness :
  Phase1.main offline_env (State [("production", File (Date 2024 1 10) (Bytes []))] [])
  = Some (Raise FileExistsError,
          State [("production", File (Date 2024 1 10) (Bytes []))] []) /\
  Phase2.main offline_env 0
              (State [("production", File (Date 2024 1 10) (Bytes []))] [])
  = Some (Raise FileExistsError,
          State [("production", File (Date 2024 1 10) (Bytes []))] []).
Proof.
  apply (directory_name_taken_stops_both_phases offline_env 0
           [("production", File (Date 2024 1 10) (Bytes []))] []
           (File (Date 2024 1 10) (Bytes []))).
  left. reflexivity.
Defined.
